(** * FLUX graph builder: a shallow embedding of [buildFLUXGraph]

    The builder assembles the node graph of one FLUX generation request from
    the application state.  It validates the selected models, rejects the
    FLUX Fill model in the two modes it cannot serve, lays down the base
    pipeline, dispatches on the generation mode, wires the optional adapters
    and post-processors, and hands the graph back together with the places
    of the seed and of the prompt.

    The per-feature sub-builders, the [Graph] class, the selectors and
    [getPrefixedId] live in other modules.  The sub-builders are taken as
    parameters (record [Env]); the [Graph] operations are modelled from the
    specification. *)

From stdpp Require Import gmap strings list fin_maps pretty.
From Stdlib Require Import PrimFloat.

Local Open Scope string_scope.
Local Open Scope Z_scope.

(* Decimal literals such as 0.2 denote the nearest binary64 value, as in the
   program. *)
#[local] Set Warnings "-inexact-float".

(** ** Values *)

(** JavaScript numbers that are not integers by construction (guidance,
    strength, denoising start) are IEEE binary64 values. *)
Definition number := float.

Inductive GenerationMode := txt2img | img2img | inpaint | outpaint.

(** The two error classes the builder throws itself, and a third one for
    whatever a delegated sub-builder may throw. *)
Inductive BuildError :=
| AssertionError (msg : string)
| UnsupportedGenerationModeError (msg : string)
| OtherError (msg : string).

(** Outcome of a call: a value, or a thrown error (a rejected promise for
    the asynchronous calls, which are awaited in sequence). *)
Inductive Completion (A : Type) :=
| Normal (a : A)
| Throw (e : BuildError).
Arguments Normal {A} a.
Arguments Throw {A} e.

#[global] Instance Completion_ret : MRet Completion := @Normal.
#[global] Instance Completion_bind : MBind Completion :=
  λ A B k c, match c with Normal a => k a | Throw e => Throw e end.

(** [assert(value, msg)] of tsafe, on a nullable value and on a condition. *)
Definition assertSome {A} (v : option A) (msg : string) : Completion A :=
  match v with Some a => Normal a | None => Throw (AssertionError msg) end.

Definition assertTrue (b : bool) (msg : string) : Completion unit :=
  if b then Normal tt else Throw (AssertionError msg).

(** Model identifiers.  Only [base] and [variant] of the main model are read
    by the builder; the sub-models are only tested for presence. *)
Record ModelIdentifierField := { mi_key : string; mi_name : string }.
Record MainModelConfig :=
  { key : string; name : string; base : string; variant : string }.

#[local] Unset Elimination Schemes.
Inductive Value :=
| VNull
| VBool (b : bool)
| VInt (z : Z)
| VNum (x : number)
| VStr (s : string)
| VModel (m : ModelIdentifierField)
| VConfig (m : MainModelConfig)
| VList (l : list Value)
| VRecord (l : list (string * Value)).
#[local] Set Elimination Schemes.

(** ** The graph *)

Record Node :=
  { node_id : string; node_type : string; node_fields : gmap string Value }.

Record EdgeEnd := { end_node : string; end_field : string }.
Record Edge := { source : EdgeEnd; destination : EdgeEnd }.

#[global] Instance EdgeEnd_eq_dec : EqDecision EdgeEnd.
Proof. solve_decision. Defined.
#[global] Instance Edge_eq_dec : EqDecision Edge.
Proof. solve_decision. Defined.

Record Graph :=
  { graph_id : string;
    nodes : gmap string Node;
    edges : list Edge;
    metadata : gmap string Value;
    metadataReceiver : option string }.

(** Modelled from the spec: the [Graph] class is not part of the sources at
    hand.  A graph is a container of nodes with unique identifiers and of
    directed edges between named ports, with a key-value metadata record on
    the side and one node designated as the metadata receiver. *)
Definition newGraph (i : string) : Graph :=
  {| graph_id := i; nodes := ∅; edges := []; metadata := ∅;
     metadataReceiver := None |}.

(** Modelled from the spec: [Graph.addNode] stores the node under its
    identifier. *)
Definition addNode (n : Node) (g : Graph) : Graph :=
  {| graph_id := graph_id g; nodes := <[node_id n := n]> (nodes g);
     edges := edges g; metadata := metadata g;
     metadataReceiver := metadataReceiver g |}.

Definition mkEdge (src : Node) (srcField : string) (dst : Node) (dstField : string)
  : Edge :=
  {| source := {| end_node := node_id src; end_field := srcField |};
     destination := {| end_node := node_id dst; end_field := dstField |} |}.

(** Modelled from the spec: [Graph.addEdge] records a directed edge from a
    port of one node to a port of another. *)
Definition addEdge (src : Node) (srcField : string) (dst : Node) (dstField : string)
    (g : Graph) : Graph :=
  {| graph_id := graph_id g; nodes := nodes g;
     edges := edges g ++ [mkEdge src srcField dst dstField];
     metadata := metadata g; metadataReceiver := metadataReceiver g |}.

Definition incident (i : string) (e : Edge) : bool :=
  bool_decide (end_node (source e) = i) || bool_decide (end_node (destination e) = i).

(** Modelled from the spec: [Graph.deleteNode] removes the node; the edges
    that touched it go with it, since edges reference existing nodes only. *)
Definition deleteNode (i : string) (g : Graph) : Graph :=
  {| graph_id := graph_id g; nodes := delete i (nodes g);
     edges := List.filter (λ e, negb (incident i e)) (edges g);
     metadata := metadata g; metadataReceiver := metadataReceiver g |}.

(** Modelled from the spec: [Graph.upsertMetadata] merges a contribution
    into the accumulated record; the contribution wins on a shared key and
    no key is dropped. *)
Definition upsertMetadata (md : gmap string Value) (g : Graph) : Graph :=
  {| graph_id := graph_id g; nodes := nodes g; edges := edges g;
     metadata := md ∪ metadata g; metadataReceiver := metadataReceiver g |}.

Definition patchNode (patch : gmap string Value) (n : Node) : Node :=
  {| node_id := node_id n; node_type := node_type n;
     node_fields := patch ∪ node_fields n |}.

(** Modelled from the spec: [Graph.updateNode] overrides fields of the node
    stored under the given node's identifier. *)
Definition updateNode (n : Node) (patch : gmap string Value) (g : Graph) : Graph :=
  {| graph_id := graph_id g; nodes := alter (patchNode patch) (node_id n) (nodes g);
     edges := edges g; metadata := metadata g;
     metadataReceiver := metadataReceiver g |}.

(** Modelled from the spec: [Graph.setMetadataReceivingNode] designates the
    node that receives the metadata. *)
Definition setMetadataReceivingNode (n : Node) (g : Graph) : Graph :=
  {| graph_id := graph_id g; nodes := nodes g; edges := edges g;
     metadata := metadata g; metadataReceiver := Some (node_id n) |}.

(** ** Application state *)

Record Size := { width : Z; height : Z }.
Record Rect := { rect_x : Z; rect_y : Z; rect_width : Z; rect_height : Z }.

(** The bounding box; the builder itself reads its [rect] only. *)
Record BBox := { rect : Rect }.

Record ParamsState :=
  { guidance : number;
    seed : Z;
    steps : Z;
    fluxVAE : option ModelIdentifierField;
    t5EncoderModel : option ModelIdentifierField;
    clipEmbedModel : option ModelIdentifierField;
    img2imgStrength : number;
    optimizedDenoisingEnabled : bool }.

Record SystemState :=
  { shouldUseNSFWChecker : bool; shouldUseWatermarker : bool }.

Record PresetModifiedPrompts := { positivePrompt : string }.

Record FieldIdentifier := { nodeId : string; fieldName : string }.

Record GraphBuilderReturn :=
  { g : Graph;
    seedFieldIdentifier : FieldIdentifier;
    positivePromptFieldIdentifier : FieldIdentifier }.

(** What the adapter sub-builders report. *)
Record ControlNetsResult := { addedControlNets : Z }.
Record IPAdaptersResult := { addedIPAdapters : Z }.
Record FLUXReduxesResult := { addedFLUXReduxes : Z }.
Record RegionResult :=
  { region_addedIPAdapters : Z; region_addedFLUXReduxes : Z }.

Section Builder.

(** The canvas manager and the canvas / reference-image entities are opaque
    to the builder: it only passes them on. *)
Context {CanvasManager Entity : Type}.

Record EntityState := { entities : list Entity }.

Record CanvasState :=
  { bbox : BBox;
    controlLayers : EntityState;
    regionalGuidance : EntityState }.

(** The state, as far as the builder looks into it.  The derived selectors
    ([selectMainModelConfig], [selectPresetModifiedPrompts],
    [selectCanvasMetadata], [selectCanvasOutputFields]) are not part of the
    sources at hand; the state carries the value each of them selects. *)
Record RootState :=
  { system : SystemState;
    activeTab : string;
    params : ParamsState;
    canvas : CanvasState;
    refImages : EntityState;
    mainModelConfig : option MainModelConfig;
    presetModifiedPrompts : PresetModifiedPrompts;
    canvasMetadata : gmap string Value;
    canvasOutputFields : gmap string Value }.

Definition selectActiveTab (state : RootState) : string := activeTab state.
Definition selectParamsSlice (state : RootState) : ParamsState := params state.
Definition selectCanvasSlice (state : RootState) : CanvasState := canvas state.
Definition selectRefImagesSlice (state : RootState) : EntityState := refImages state.
Definition selectMainModelConfig (state : RootState) : option MainModelConfig :=
  mainModelConfig state.
Definition selectPresetModifiedPrompts (state : RootState) : PresetModifiedPrompts :=
  presetModifiedPrompts state.
Definition selectCanvasMetadata (state : RootState) : gmap string Value :=
  canvasMetadata state.
Definition selectCanvasOutputFields (state : RootState) : gmap string Value :=
  canvasOutputFields state.

(** ** Arguments of the delegated sub-builders

    One record per object literal the builder passes; the graph itself is
    threaded separately. *)

Record FLUXFillArg :=
  { ff_state : RootState; ff_manager : CanvasManager;
    ff_l2i : Node; ff_denoise : Node;
    ff_originalSize : Size; ff_scaledSize : Size }.

Record TextToImageArg :=
  { t2i_l2i : Node; t2i_originalSize : Size; t2i_scaledSize : Size }.

Record ImageToImageArg :=
  { i2i_manager : CanvasManager; i2i_l2i : Node; i2i_i2lNodeType : string;
    i2i_denoise : Node; i2i_vaeSource : Node;
    i2i_originalSize : Size; i2i_scaledSize : Size; i2i_bbox : BBox;
    i2i_denoising_start : number; i2i_fp32 : bool }.

(** [addInpaint] and [addOutpaint] take the same object. *)
Record InpaintArg :=
  { inp_state : RootState; inp_manager : CanvasManager; inp_l2i : Node;
    inp_i2lNodeType : string; inp_denoise : Node; inp_vaeSource : Node;
    inp_modelLoader : Node; inp_originalSize : Size; inp_scaledSize : Size;
    inp_denoising_start : number; inp_fp32 : bool; inp_seed : Z }.

Record ControlNetsArg :=
  { cn_manager : CanvasManager; cn_entities : list Entity; cn_rect : Rect;
    cn_collector : Node; cn_model : MainModelConfig }.

Record ControlLoRAArg :=
  { cl_manager : CanvasManager; cl_entities : list Entity; cl_rect : Rect;
    cl_denoise : Node; cl_model : MainModelConfig }.

(** [addIPAdapters] and [addFLUXReduxes] take the same object. *)
Record AdapterArg :=
  { ad_entities : list Entity; ad_collector : Node; ad_model : MainModelConfig }.

Record RegionsArg :=
  { rg_manager : CanvasManager; rg_regions : list Entity; rg_bbox : Rect;
    rg_model : MainModelConfig; rg_posCond : Node; rg_negCond : option Node;
    rg_posCondCollect : Node; rg_negCondCollect : option Node;
    rg_ipAdapterCollect : Node; rg_fluxReduxCollect : Node }.

Record LoRAsArg :=
  { lo_state : RootState; lo_denoise : Node; lo_modelLoader : Node;
    lo_posCond : Node }.

(** A sub-builder works on the graph it is handed and may throw. *)
Definition Sub (A : Type) : Type := Graph → Completion (A * Graph).

(** ** The environment of the builder

    Everything [buildFLUXGraph] imports from modules outside the sources at
    hand.  [prefixedId p n] is the identifier returned by the [n]-th call of
    [getPrefixedId] the builder makes, when called with prefix [p] (the
    suffix is random in the program).  [pow] is the exponentiation operator
    on numbers, which ECMAScript leaves implementation-approximated. *)
Record Env :=
  { getGenerationMode : option CanvasManager → string → Completion GenerationMode;
    t : string → string;
    pow : number → number → number;
    prefixedId : string → nat → string;
    getSizes : BBox → Size * Size;
    getModelMetadataField : MainModelConfig → Value;
    addFLUXLoRAs : LoRAsArg → Sub unit;
    addFLUXFill : FLUXFillArg → Sub Node;
    addTextToImage : TextToImageArg → Sub Node;
    addImageToImage : ImageToImageArg → Sub Node;
    addInpaint : InpaintArg → Sub Node;
    addOutpaint : InpaintArg → Sub Node;
    addControlNets : ControlNetsArg → Sub ControlNetsResult;
    addControlLoRA : ControlLoRAArg → Sub unit;
    addIPAdapters : AdapterArg → Sub IPAdaptersResult;
    addFLUXReduxes : AdapterArg → Sub FLUXReduxesResult;
    addRegions : RegionsArg → Sub (list RegionResult);
    addNSFWChecker : Node → Sub Node;
    addWatermarker : Node → Sub Node }.

(** ** The record of delegated calls

    Each completed call of a sub-builder, with its argument and its result,
    in the order the builder made them.  The record is ghost state: nothing
    in the builder reads it. *)
Inductive Call :=
| CAddFLUXLoRAs (arg : LoRAsArg)
| CAddFLUXFill (arg : FLUXFillArg) (out : Node)
| CAddTextToImage (arg : TextToImageArg) (out : Node)
| CAddImageToImage (arg : ImageToImageArg) (out : Node)
| CAddInpaint (arg : InpaintArg) (out : Node)
| CAddOutpaint (arg : InpaintArg) (out : Node)
| CAddControlNets (arg : ControlNetsArg) (res : ControlNetsResult)
| CAddControlLoRA (arg : ControlLoRAArg)
| CAddIPAdapters (arg : AdapterArg) (res : IPAdaptersResult)
| CAddFLUXReduxes (arg : AdapterArg) (res : FLUXReduxesResult)
| CAddRegions (arg : RegionsArg) (res : list RegionResult)
| CAddNSFWChecker (input : Node) (out : Node)
| CAddWatermarker (input : Node) (out : Node).

(** ** The builder's monad: the graph under construction, the calls made so
    far and the number of identifiers drawn, with errors. *)
Record World :=
  { wgraph : Graph; wcalls : list Call; wdraws : nat }.

Definition M (A : Type) : Type := World → Completion (A * World).

#[global] Instance M_ret : MRet M := λ A a w, Normal (a, w).
#[global] Instance M_bind : MBind M :=
  λ A B k m w, match m w with Normal (a, w') => k a w' | Throw e => Throw e end.

Definition throwM {A} (e : BuildError) : M A := λ _, Throw e.

Definition assertM {A} (v : option A) (msg : string) : M A :=
  match v with Some a => mret a | None => throwM (AssertionError msg) end.

Definition getGraph : M Graph := λ w, Normal (wgraph w, w).

Definition graphOp (f : Graph → Graph) : M unit :=
  λ w, Normal (tt, {| wgraph := f (wgraph w); wcalls := wcalls w; wdraws := wdraws w |}).

Definition invoke {Arg A} (f : Arg → Sub A) (c : Arg → A → Call) (arg : Arg) : M A :=
  λ w, match f arg (wgraph w) with
       | Normal (a, gr) =>
           Normal (a, {| wgraph := gr; wcalls := wcalls w ++ [c arg a];
                         wdraws := wdraws w |})
       | Throw e => Throw e
       end.

Variable E : Env.

Definition getPrefixedId (prefix : string) : M string :=
  λ w, Normal (prefixedId E prefix (wdraws w),
               {| wgraph := wgraph w; wcalls := wcalls w; wdraws := S (wdraws w) |}).

(** [g.addNode] returns the node it was given. *)
Definition g_addNode (n : Node) : M Node :=
  _ ← graphOp (addNode n); mret n.

Definition g_addEdge (src : Node) (srcField : string) (dst : Node) (dstField : string)
  : M unit := graphOp (addEdge src srcField dst dstField).

Definition g_deleteNode (i : string) : M unit := graphOp (deleteNode i).

Definition g_upsertMetadata (md : gmap string Value) : M unit :=
  graphOp (upsertMetadata md).

Definition g_updateNode (n : Node) (patch : gmap string Value) : M unit :=
  graphOp (updateNode n patch).

Definition g_setMetadataReceivingNode (n : Node) : M unit :=
  graphOp (setMetadataReceivingNode n).

(** ** The builder, block by block *)

(** The models the assertions of lines 67-71 have established. *)
Record Models :=
  { model : MainModelConfig;
    md_t5EncoderModel : ModelIdentifierField;
    md_clipEmbedModel : ModelIdentifierField;
    md_fluxVAE : ModelIdentifierField }.

(** Lines 67-71: the sanity assertions on the selected models. *)
Definition requireModels (state : RootState) : Completion Models :=
  let params := selectParamsSlice state in
  model ← assertSome (selectMainModelConfig state) "No model found in state";
  _ ← assertTrue (String.eqb (base model) "flux") "Model is not a FLUX model";
  t5EncoderModel ← assertSome (t5EncoderModel params) "No T5 Encoder model found in state";
  clipEmbedModel ← assertSome (clipEmbedModel params) "No CLIP Embed model found in state";
  fluxVAE ← assertSome (fluxVAE params) "No FLUX VAE model found in state";
  mret {| model := model; md_t5EncoderModel := t5EncoderModel;
          md_clipEmbedModel := clipEmbedModel; md_fluxVAE := fluxVAE |}.

Definition isFLUXFill (model : MainModelConfig) : bool :=
  String.eqb (variant model) "inpaint".

(** Lines 73-96: FLUX Fill is refused for txt2img and img2img, and gets a
    fixed guidance otherwise. *)
Definition fillGuidance (model : MainModelConfig) (generationMode : GenerationMode)
    (baseGuidance : number) : Completion number :=
  if isFLUXFill model then
    match generationMode with
    | txt2img | img2img =>
        Throw (UnsupportedGenerationModeError
                 (t E "toast.fluxFillIncompatibleWithT2IAndI2I"))
    | _ => Normal 30%float
    end
  else Normal baseGuidance.

Record Pipeline :=
  { modelLoader : Node; posCond : Node; posCondCollect : Node;
    denoise : Node; l2i : Node }.

Definition initialMetadata (state : RootState) (ms : Models) (guidance : number)
    (originalSize : Size) : gmap string Value :=
  let params := selectParamsSlice state in
  list_to_map
    [ ("guidance", VNum guidance);
      ("width", VInt (width originalSize));
      ("height", VInt (height originalSize));
      ("positive_prompt", VStr (positivePrompt (selectPresetModifiedPrompts state)));
      ("model", getModelMetadataField E (model ms));
      ("seed", VInt (seed params));
      ("steps", VInt (steps params));
      ("vae", VModel (md_fluxVAE ms));
      ("t5_encoder", VModel (md_t5EncoderModel ms));
      ("clip_embed_model", VModel (md_clipEmbedModel ms)) ].

(** The node objects of the base pipeline (lines 101-134). *)
Definition fluxModelLoaderNode (i : string) (ms : Models) : Node :=
  {| node_id := i; node_type := "flux_model_loader";
     node_fields := list_to_map
       [ ("model", VConfig (model ms));
         ("t5_encoder_model", VModel (md_t5EncoderModel ms));
         ("clip_embed_model", VModel (md_clipEmbedModel ms));
         ("vae_model", VModel (md_fluxVAE ms)) ] |}.

Definition fluxTextEncoderNode (i : string) (positivePrompt : string) : Node :=
  {| node_id := i; node_type := "flux_text_encoder";
     node_fields := list_to_map [ ("prompt", VStr positivePrompt) ] |}.

Definition collectNode (i : string) : Node :=
  {| node_id := i; node_type := "collect"; node_fields := ∅ |}.

Definition fluxDenoiseNode (i : string) (guidance : number) (params : ParamsState)
    (scaledSize : Size) : Node :=
  {| node_id := i; node_type := "flux_denoise";
     node_fields := list_to_map
       [ ("guidance", VNum guidance);
         ("num_steps", VInt (steps params));
         ("seed", VInt (seed params));
         ("denoising_start", VNum 0%float);
         ("denoising_end", VNum 1%float);
         ("width", VInt (width scaledSize));
         ("height", VInt (height scaledSize)) ] |}.

Definition fluxVaeDecodeNode (i : string) : Node :=
  {| node_id := i; node_type := "flux_vae_decode"; node_fields := ∅ |}.

(** Lines 98-160: the base pipeline (model loader, text encoder, conditioning
    collector, denoiser, decoder), the LoRAs and the first metadata. *)
Definition basePipeline (state : RootState) (ms : Models) (guidance : number)
    (originalSize scaledSize : Size) : M Pipeline :=
  let params := selectParamsSlice state in
  let positivePrompt := positivePrompt (selectPresetModifiedPrompts state) in
  i ← getPrefixedId "flux_model_loader";
  modelLoader ← g_addNode (fluxModelLoaderNode i ms);
  i ← getPrefixedId "flux_text_encoder";
  posCond ← g_addNode (fluxTextEncoderNode i positivePrompt);
  i ← getPrefixedId "pos_cond_collect";
  posCondCollect ← g_addNode (collectNode i);
  i ← getPrefixedId "flux_denoise";
  denoise ← g_addNode (fluxDenoiseNode i guidance params scaledSize);
  i ← getPrefixedId "flux_vae_decode";
  l2i ← g_addNode (fluxVaeDecodeNode i);
  _ ← g_addEdge modelLoader "transformer" denoise "transformer";
  _ ← g_addEdge modelLoader "vae" denoise "controlnet_vae";
  _ ← g_addEdge modelLoader "vae" l2i "vae";
  _ ← g_addEdge modelLoader "clip" posCond "clip";
  _ ← g_addEdge modelLoader "t5_encoder" posCond "t5_encoder";
  _ ← g_addEdge modelLoader "max_seq_len" posCond "t5_max_seq_len";
  _ ← g_addEdge posCond "conditioning" posCondCollect "item";
  _ ← g_addEdge posCondCollect "collection" denoise "positive_text_conditioning";
  _ ← g_addEdge denoise "latents" l2i "latents";
  _ ← invoke (addFLUXLoRAs E) (λ arg _, CAddFLUXLoRAs arg)
        {| lo_state := state; lo_denoise := denoise; lo_modelLoader := modelLoader;
           lo_posCond := posCond |};
  _ ← g_upsertMetadata (initialMetadata state ms guidance originalSize);
  mret {| modelLoader := modelLoader; posCond := posCond;
          posCondCollect := posCondCollect; denoise := denoise; l2i := l2i |}.

(** Lines 162-170: from the strength to the start of denoising. *)
Definition denoisingStart (params : ParamsState) : number :=
  if optimizedDenoisingEnabled params
  then (1 - pow E (img2imgStrength params) 0.2)%float
  else (1 - img2imgStrength params)%float.

Definition generationModeMetadata (v : string) : gmap string Value :=
  {[ "generation_mode" := VStr v ]}.

(** The object passed to [addInpaint] and to [addOutpaint] (lines 207-219,
    225-237). *)
Definition inpaintArg (state : RootState) (manager : CanvasManager) (p : Pipeline)
    (originalSize scaledSize : Size) (denoising_start : number) : InpaintArg :=
  {| inp_state := state; inp_manager := manager; inp_l2i := l2i p;
     inp_i2lNodeType := "flux_vae_encode"; inp_denoise := denoise p;
     inp_vaeSource := modelLoader p; inp_modelLoader := modelLoader p;
     inp_originalSize := originalSize; inp_scaledSize := scaledSize;
     inp_denoising_start := denoising_start; inp_fp32 := false;
     inp_seed := seed (selectParamsSlice state) |}.

(** Lines 172-242: the subgraph of the generation mode, which yields the
    canvas output node.  The last branch of the source is the exhaustiveness
    assertion on [generationMode]; the match below is exhaustive. *)
Definition modeSubgraph (state : RootState) (manager : option CanvasManager)
    (generationMode : GenerationMode) (ms : Models) (p : Pipeline)
    (originalSize scaledSize : Size) (denoising_start : number) : M Node :=
  let bbox := bbox (selectCanvasSlice state) in
  if isFLUXFill (model ms) then
    manager ← assertM manager "Need manager to do FLUX Fill";
    invoke (addFLUXFill E) CAddFLUXFill
      {| ff_state := state; ff_manager := manager; ff_l2i := l2i p;
         ff_denoise := denoise p; ff_originalSize := originalSize;
         ff_scaledSize := scaledSize |}
  else
    match generationMode with
    | txt2img =>
        canvasOutput ← invoke (addTextToImage E) CAddTextToImage
          {| t2i_l2i := l2i p; t2i_originalSize := originalSize;
             t2i_scaledSize := scaledSize |};
        _ ← g_upsertMetadata (generationModeMetadata "flux_txt2img");
        mret canvasOutput
    | img2img =>
        manager ← assertM manager "Need manager to do img2img";
        canvasOutput ← invoke (addImageToImage E) CAddImageToImage
          {| i2i_manager := manager; i2i_l2i := l2i p;
             i2i_i2lNodeType := "flux_vae_encode"; i2i_denoise := denoise p;
             i2i_vaeSource := modelLoader p; i2i_originalSize := originalSize;
             i2i_scaledSize := scaledSize; i2i_bbox := bbox;
             i2i_denoising_start := denoising_start; i2i_fp32 := false |};
        _ ← g_upsertMetadata (generationModeMetadata "flux_img2img");
        mret canvasOutput
    | inpaint =>
        manager ← assertM manager "Need manager to do inpaint";
        canvasOutput ← invoke (addInpaint E) CAddInpaint
          (inpaintArg state manager p originalSize scaledSize denoising_start);
        _ ← g_upsertMetadata (generationModeMetadata "flux_inpaint");
        mret canvasOutput
    | outpaint =>
        manager ← assertM manager "Need manager to do outpaint";
        canvasOutput ← invoke (addOutpaint E) CAddOutpaint
          (inpaintArg state manager p originalSize scaledSize denoising_start);
        _ ← g_upsertMetadata (generationModeMetadata "flux_outpaint");
        mret canvasOutput
    end.

(** The collector's output goes into the denoiser when something was wired
    into the collector; an unused collector is removed (lines 257-261,
    317-321, 323-327). *)
Definition connectOrDelete (added : Z) (collector : Node) (p : Pipeline)
    (port : string) : M unit :=
  if 0 <? added
  then g_addEdge collector "collection" (denoise p) port
  else g_deleteNode (node_id collector).

(** The same step, as a function on graphs. *)
Definition connectedOrDeleted (added : Z) (collector : Node) (p : Pipeline)
    (port : string) (gr : Graph) : Graph :=
  if 0 <? added
  then addEdge collector "collection" (denoise p) port gr
  else deleteNode (node_id collector) gr.

(** The objects passed to the adapter sub-builders (lines 250-255, 264-269,
    278-281, 291-294, 300-310). *)
Definition controlNetsArg (state : RootState) (manager : CanvasManager) (ms : Models)
    (collector : Node) : ControlNetsArg :=
  let canvas := selectCanvasSlice state in
  {| cn_manager := manager; cn_entities := entities (controlLayers canvas);
     cn_rect := rect (bbox canvas); cn_collector := collector;
     cn_model := model ms |}.

Definition controlLoRAArg (state : RootState) (manager : CanvasManager) (ms : Models)
    (p : Pipeline) : ControlLoRAArg :=
  let canvas := selectCanvasSlice state in
  {| cl_manager := manager; cl_entities := entities (controlLayers canvas);
     cl_rect := rect (bbox canvas); cl_denoise := denoise p;
     cl_model := model ms |}.

Definition adapterArg (state : RootState) (ms : Models) (collector : Node)
  : AdapterArg :=
  {| ad_entities := entities (selectRefImagesSlice state); ad_collector := collector;
     ad_model := model ms |}.

Definition regionsArg (state : RootState) (manager : CanvasManager) (ms : Models)
    (p : Pipeline) (ipAdapterCollect fluxReduxCollect : Node) : RegionsArg :=
  let canvas := selectCanvasSlice state in
  {| rg_manager := manager; rg_regions := entities (regionalGuidance canvas);
     rg_bbox := rect (bbox canvas); rg_model := model ms;
     rg_posCond := posCond p; rg_negCond := None;
     rg_posCondCollect := posCondCollect p; rg_negCondCollect := None;
     rg_ipAdapterCollect := ipAdapterCollect;
     rg_fluxReduxCollect := fluxReduxCollect |}.

(** Lines 244-271: control nets and the control LoRA, with a manager only. *)
Definition controlAdapters (state : RootState) (manager : option CanvasManager)
    (ms : Models) (p : Pipeline) : M unit :=
  match manager with
  | Some manager =>
      i ← getPrefixedId "control_net_collector";
      controlNetCollector ← g_addNode (collectNode i);
      controlNetResult ← invoke (addControlNets E) CAddControlNets
        (controlNetsArg state manager ms controlNetCollector);
      _ ← connectOrDelete (addedControlNets controlNetResult) controlNetCollector
            p "control";
      invoke (addControlLoRA E) (λ arg _, CAddControlLoRA arg)
        (controlLoRAArg state manager ms p)
  | None => mret tt
  end.

Definition sumIPAdapters (rs : list RegionResult) : Z :=
  foldl (λ acc r, acc + region_addedIPAdapters r) 0 rs.

Definition sumFLUXReduxes (rs : list RegionResult) : Z :=
  foldl (λ acc r, acc + region_addedFLUXReduxes r) 0 rs.

(** Lines 273-327: IP adapters, FLUX reduxes and regional guidance. *)
Definition referenceAdapters (state : RootState) (manager : option CanvasManager)
    (ms : Models) (p : Pipeline) : M unit :=
  i ← getPrefixedId "ip_adapter_collector";
  ipAdapterCollect ← g_addNode (collectNode i);
  ipAdapterResult ← invoke (addIPAdapters E) CAddIPAdapters
    (adapterArg state ms ipAdapterCollect);
  let totalIPAdaptersAdded := addedIPAdapters ipAdapterResult in
  i ← getPrefixedId "ip_adapter_collector";
  fluxReduxCollect ← g_addNode (collectNode i);
  fluxReduxResult ← invoke (addFLUXReduxes E) CAddFLUXReduxes
    (adapterArg state ms fluxReduxCollect);
  let totalReduxesAdded := addedFLUXReduxes fluxReduxResult in
  totals ←
    match manager with
    | Some manager =>
        regionsResult ← invoke (addRegions E) CAddRegions
          (regionsArg state manager ms p ipAdapterCollect fluxReduxCollect);
        mret (totalIPAdaptersAdded + sumIPAdapters regionsResult,
              totalReduxesAdded + sumFLUXReduxes regionsResult)
    | None => mret (totalIPAdaptersAdded, totalReduxesAdded)
    end;
  _ ← connectOrDelete (fst totals) ipAdapterCollect p "ip_adapter";
  connectOrDelete (snd totals) fluxReduxCollect p "redux_conditioning".

(** Lines 331-337: the safety checker, then the watermarker, each taking
    over the role of the canvas output. *)
Definition postProcessing (state : RootState) (canvasOutput : Node) : M Node :=
  canvasOutput ←
    (if shouldUseNSFWChecker (system state)
     then invoke (addNSFWChecker E) CAddNSFWChecker canvasOutput
     else mret canvasOutput);
  if shouldUseWatermarker (system state)
  then invoke (addWatermarker E) CAddWatermarker canvasOutput
  else mret canvasOutput.

(** Lines 339-348: the canvas metadata, the output fields and the metadata
    receiver; then the result. *)
Definition finish (state : RootState) (p : Pipeline) (canvasOutput : Node)
  : M GraphBuilderReturn :=
  _ ← g_upsertMetadata (selectCanvasMetadata state);
  _ ← g_updateNode canvasOutput (selectCanvasOutputFields state);
  _ ← g_setMetadataReceivingNode canvasOutput;
  gr ← getGraph;
  mret {| g := gr;
          seedFieldIdentifier := {| nodeId := node_id (denoise p); fieldName := "seed" |};
          positivePromptFieldIdentifier :=
            {| nodeId := node_id (posCond p); fieldName := "prompt" |} |}.

(** The graph as [new Graph(getPrefixedId('flux_graph'))] leaves it. *)
Definition initialWorld : World :=
  {| wgraph := newGraph (prefixedId E "flux_graph" 0); wcalls := []; wdraws := 1 |}.

(** The body of the builder from line 98 on, once the models are known and
    the guidance is settled. *)
Definition assemble (state : RootState) (manager : option CanvasManager)
    (generationMode : GenerationMode) (ms : Models) (guidance : number)
  : M GraphBuilderReturn :=
  let params := selectParamsSlice state in
  let canvas := selectCanvasSlice state in
  let '(originalSize, scaledSize) := getSizes E (bbox canvas) in
  p ← basePipeline state ms guidance originalSize scaledSize;
  let denoising_start := denoisingStart params in
  canvasOutput ← modeSubgraph state manager generationMode ms p
                   originalSize scaledSize denoising_start;
  _ ← controlAdapters state manager ms p;
  _ ← referenceAdapters state manager ms p;
  canvasOutput ← postProcessing state canvasOutput;
  finish state p canvasOutput.

(** [buildFLUXGraph]: the graph builder.  The result carries the record of
    delegated calls next to what the program returns. *)
Definition buildFLUXGraph (state : RootState) (manager : option CanvasManager)
  : Completion (GraphBuilderReturn * list Call) :=
  let tab := selectActiveTab state in
  generationMode ← getGenerationMode E manager tab;
  let params := selectParamsSlice state in
  let baseGuidance := guidance params in
  ms ← requireModels state;
  guidance ← fillGuidance (model ms) generationMode baseGuidance;
  '(r, w) ← assemble state manager generationMode ms guidance initialWorld;
  mret (r, wcalls w).

End Builder.

(** ** Vocabulary of the statements *)

Section Vocabulary.
Context {CanvasManager Entity : Type}.
Abbreviation Env' := (@Env CanvasManager Entity).
Abbreviation Call' := (@Call CanvasManager Entity).
Abbreviation World' := (@World CanvasManager Entity).
Abbreviation RootState' := (@RootState Entity).

Variable E : Env'.

(** The five nodes of the base pipeline when the first of them is drawn as
    identifier number [n], and the graph they and their edges make. *)
Definition basePipelineNodes (state : RootState') (ms : Models) (guidance : number)
    (scaledSize : Size) (n : nat) : Pipeline :=
  {| modelLoader := fluxModelLoaderNode (prefixedId E "flux_model_loader" n) ms;
     posCond := fluxTextEncoderNode (prefixedId E "flux_text_encoder" (S n))
                  (positivePrompt (selectPresetModifiedPrompts state));
     posCondCollect := collectNode (prefixedId E "pos_cond_collect" (S (S n)));
     denoise := fluxDenoiseNode (prefixedId E "flux_denoise" (S (S (S n)))) guidance
                  (selectParamsSlice state) scaledSize;
     l2i := fluxVaeDecodeNode (prefixedId E "flux_vae_decode" (S (S (S (S n))))) |}.

Definition baseGraph (p : Pipeline) (gr : Graph) : Graph :=
  addEdge (denoise p) "latents" (l2i p) "latents"
   (addEdge (posCondCollect p) "collection" (denoise p) "positive_text_conditioning"
   (addEdge (posCond p) "conditioning" (posCondCollect p) "item"
   (addEdge (modelLoader p) "max_seq_len" (posCond p) "t5_max_seq_len"
   (addEdge (modelLoader p) "t5_encoder" (posCond p) "t5_encoder"
   (addEdge (modelLoader p) "clip" (posCond p) "clip"
   (addEdge (modelLoader p) "vae" (l2i p) "vae"
   (addEdge (modelLoader p) "vae" (denoise p) "controlnet_vae"
   (addEdge (modelLoader p) "transformer" (denoise p) "transformer"
   (addNode (l2i p) (addNode (denoise p) (addNode (posCondCollect p)
   (addNode (posCond p) (addNode (modelLoader p) gr))))))))))))).

Definition lorasArg (state : RootState') (p : Pipeline) : LoRAsArg :=
  {| lo_state := state; lo_denoise := denoise p; lo_modelLoader := modelLoader p;
     lo_posCond := posCond p |}.

(** The graph the builder hands back once [canvasOutput] is settled (lines
    339-343). *)
Definition finishedGraph (state : RootState') (canvasOutput : Node) (gr : Graph)
  : Graph :=
  setMetadataReceivingNode canvasOutput
    (updateNode canvasOutput (selectCanvasOutputFields state)
       (upsertMetadata (selectCanvasMetadata state) gr)).

(** One optional post-processor: when enabled, its call turns [input] and
    [gr] into [out] and [gr'] and is recorded; when disabled, nothing moves. *)
Definition PostStep (enabled : bool) (f : Node → Sub Node) (c : Node → Node → Call')
    (input : Node) (gr : Graph) (out : Node) (gr' : Graph) (l : list Call') : Prop :=
  if enabled
  then f input gr = Normal (out, gr') ∧ l = [c input out]
  else out = input ∧ gr' = gr ∧ l = [].

(** The identifiers of the nodes the builder itself creates, in the order
    they are drawn (draw 0 names the graph): the five nodes of the base
    pipeline, then the collectors. *)
Definition pipelineIds : list string :=
  [ prefixedId E "flux_model_loader" 1; prefixedId E "flux_text_encoder" 2;
    prefixedId E "pos_cond_collect" 3; prefixedId E "flux_denoise" 4;
    prefixedId E "flux_vae_decode" 5 ].

Definition collectorIds (manager : option CanvasManager) : list string :=
  match manager with
  | Some _ => [ prefixedId E "control_net_collector" 6;
                prefixedId E "ip_adapter_collector" 7;
                prefixedId E "ip_adapter_collector" 8 ]
  | None => [ prefixedId E "ip_adapter_collector" 6;
              prefixedId E "ip_adapter_collector" 7 ]
  end.

Definition nodeIds (manager : option CanvasManager) : list string :=
  pipelineIds ++ collectorIds manager.

(** *** Reading the record of calls *)

(** The calls of the five mode-specific sub-builders. *)
Definition isModeCall (c : Call') : bool :=
  match c with
  | CAddFLUXFill _ _ | CAddTextToImage _ _ | CAddImageToImage _ _
  | CAddInpaint _ _ | CAddOutpaint _ _ => true
  | _ => false
  end.

(** The five mode-specific sub-builders, the one a call belongs to, and the
    one the dispatch of lines 174-242 selects. *)
Inductive ModeBuilder := FLUXFill | TextToImage | ImageToImage | Inpaint | Outpaint.

Definition calledModeBuilder (c : Call') : option ModeBuilder :=
  match c with
  | CAddFLUXFill _ _ => Some FLUXFill
  | CAddTextToImage _ _ => Some TextToImage
  | CAddImageToImage _ _ => Some ImageToImage
  | CAddInpaint _ _ => Some Inpaint
  | CAddOutpaint _ _ => Some Outpaint
  | _ => None
  end.

Definition dispatched (fill : bool) (generationMode : GenerationMode) : ModeBuilder :=
  if fill then FLUXFill
  else match generationMode with
       | txt2img => TextToImage
       | img2img => ImageToImage
       | inpaint => Inpaint
       | outpaint => Outpaint
       end.

(** The node a mode-specific sub-builder returned. *)
Definition modeOutput (c : Call') : option Node :=
  match c with
  | CAddFLUXFill _ out | CAddTextToImage _ out | CAddImageToImage _ out
  | CAddInpaint _ out | CAddOutpaint _ out => Some out
  | _ => None
  end.

(** The [denoising_start] a mode-specific sub-builder was passed, for those
    that take one. *)
Definition passedDenoisingStart (c : Call') : option number :=
  match c with
  | CAddImageToImage arg _ => Some (i2i_denoising_start arg)
  | CAddInpaint arg _ | CAddOutpaint arg _ => Some (inp_denoising_start arg)
  | _ => None
  end.

(** The number of items wired in, per feature, as the sub-builders reported
    it: the direct report plus, for IP adapters and reduxes, the reports of
    the regions. *)
Definition reportedIPAdapters (c : Call') : Z :=
  match c with
  | CAddIPAdapters _ res => addedIPAdapters res
  | CAddRegions _ rs => sumIPAdapters rs
  | _ => 0
  end.

Definition reportedFLUXReduxes (c : Call') : Z :=
  match c with
  | CAddFLUXReduxes _ res => addedFLUXReduxes res
  | CAddRegions _ rs => sumFLUXReduxes rs
  | _ => 0
  end.

Definition wiredIPAdapters (calls : list Call') : Z :=
  foldr (λ c acc, reportedIPAdapters c + acc) 0 calls.

Definition wiredFLUXReduxes (calls : list Call') : Z :=
  foldr (λ c acc, reportedFLUXReduxes c + acc) 0 calls.

(** A call outside the mode dispatch and outside the reference adapters:
    no mode-specific sub-builder, and nothing reported as wired. *)
Definition silent (c : Call') : Prop :=
  isModeCall c = false ∧ reportedIPAdapters c = 0 ∧ reportedFLUXReduxes c = 0.




(** *** The mode-specific step *)

(** The metadata the mode branch itself contributes. *)
Definition modeMetadata (fill : bool) (generationMode : GenerationMode)
  : gmap string Value :=
  if fill then ∅
  else match generationMode with
       | txt2img => generationModeMetadata "flux_txt2img"
       | img2img => generationModeMetadata "flux_img2img"
       | inpaint => generationModeMetadata "flux_inpaint"
       | outpaint => generationModeMetadata "flux_outpaint"
       end.

(** [ModeStep ... gr c out gr']: from graph [gr], the mode dispatch made the
    one call [c], which returned [out] and left the graph [gr'] (before the
    branch's own metadata). *)
Inductive ModeStep (state : RootState') (manager : option CanvasManager)
    (generationMode : GenerationMode) (ms : Models) (p : Pipeline)
    (originalSize scaledSize : Size) (denoising_start : number) (gr : Graph)
  : Call' → Node → Graph → Prop :=
| ModeFill m arg out gr' :
    isFLUXFill (model ms) = true → manager = Some m →
    arg = {| ff_state := state; ff_manager := m; ff_l2i := l2i p;
             ff_denoise := denoise p; ff_originalSize := originalSize;
             ff_scaledSize := scaledSize |} →
    addFLUXFill E arg gr = Normal (out, gr') →
    ModeStep state manager generationMode ms p originalSize scaledSize
      denoising_start gr (CAddFLUXFill arg out) out gr'
| ModeTxt2img arg out gr' :
    isFLUXFill (model ms) = false → generationMode = txt2img →
    arg = {| t2i_l2i := l2i p; t2i_originalSize := originalSize;
             t2i_scaledSize := scaledSize |} →
    addTextToImage E arg gr = Normal (out, gr') →
    ModeStep state manager generationMode ms p originalSize scaledSize
      denoising_start gr (CAddTextToImage arg out) out gr'
| ModeImg2img m arg out gr' :
    isFLUXFill (model ms) = false → generationMode = img2img → manager = Some m →
    arg = {| i2i_manager := m; i2i_l2i := l2i p;
             i2i_i2lNodeType := "flux_vae_encode"; i2i_denoise := denoise p;
             i2i_vaeSource := modelLoader p; i2i_originalSize := originalSize;
             i2i_scaledSize := scaledSize; i2i_bbox := bbox (selectCanvasSlice state);
             i2i_denoising_start := denoising_start; i2i_fp32 := false |} →
    addImageToImage E arg gr = Normal (out, gr') →
    ModeStep state manager generationMode ms p originalSize scaledSize
      denoising_start gr (CAddImageToImage arg out) out gr'
| ModeInpaint m arg out gr' :
    isFLUXFill (model ms) = false → generationMode = inpaint → manager = Some m →
    arg = inpaintArg state m p originalSize scaledSize denoising_start →
    addInpaint E arg gr = Normal (out, gr') →
    ModeStep state manager generationMode ms p originalSize scaledSize
      denoising_start gr (CAddInpaint arg out) out gr'
| ModeOutpaint m arg out gr' :
    isFLUXFill (model ms) = false → generationMode = outpaint → manager = Some m →
    arg = inpaintArg state m p originalSize scaledSize denoising_start →
    addOutpaint E arg gr = Normal (out, gr') →
    ModeStep state manager generationMode ms p originalSize scaledSize
      denoising_start gr (CAddOutpaint arg out) out gr'.

(** *** A completed build, block by block

    [Run state manager r calls]: the build returned [r] after the calls
    [calls].  The base pipeline left [gL] after the LoRAs; the mode dispatch
    made the call [c], got [out] and left [gM]; the adapters led from [w2]
    over [w3] to [w4]; the post-processors turned [out] into [out'] and left
    [g5], which the last three graph operations finish. *)

Inductive Run (state : RootState') (manager : option CanvasManager)
    (r : GraphBuilderReturn) (calls : list Call') : Prop :=
| RunBlocks generationMode ms guidance' originalSize scaledSize p gL c out gM w2 w3
    w4 mid gmid lN lW out' g5 :
    getGenerationMode E manager (selectActiveTab state) = Normal generationMode →
    requireModels state = Normal ms →
    fillGuidance E (model ms) generationMode (guidance (selectParamsSlice state))
      = Normal guidance' →
    getSizes E (bbox (selectCanvasSlice state)) = (originalSize, scaledSize) →
    p = basePipelineNodes state ms guidance' scaledSize 1 →
    addFLUXLoRAs E (lorasArg state p)
      (baseGraph p (newGraph (prefixedId E "flux_graph" 0))) = Normal (tt, gL) →
    ModeStep state manager generationMode ms p originalSize scaledSize
      (denoisingStart E (selectParamsSlice state))
      (upsertMetadata (initialMetadata E state ms guidance' originalSize) gL)
      c out gM →
    w2 = {| wgraph := upsertMetadata
                        (modeMetadata (isFLUXFill (model ms)) generationMode) gM;
            wcalls := [CAddFLUXLoRAs (lorasArg state p); c];
            wdraws := 6 |} →
    controlAdapters E state manager ms p w2 = Normal (tt, w3) →
    referenceAdapters E state manager ms p w3 = Normal (tt, w4) →
    PostStep (shouldUseNSFWChecker (system state)) (addNSFWChecker E) CAddNSFWChecker
      out (wgraph w4) mid gmid lN →
    PostStep (shouldUseWatermarker (system state)) (addWatermarker E) CAddWatermarker
      mid gmid out' g5 lW →
    r = {| g := finishedGraph state out' g5;
           seedFieldIdentifier :=
             {| nodeId := node_id (denoise p); fieldName := "seed" |};
           positivePromptFieldIdentifier :=
             {| nodeId := node_id (posCond p); fieldName := "prompt" |} |} →
    calls = ((wcalls w4 ++ lN) ++ lW)%list →
    Run state manager r calls.

(** *** What is assumed of the delegated sub-builders *)

(** A sub-builder keeps a relation between the graph it receives and the
    graph it leaves. *)
Definition subRespects {Arg A} (f : Arg → Sub A) (R : Graph → Graph → Prop) : Prop :=
  ∀ arg gr a gr', f arg gr = Normal (a, gr') → R gr gr'.

Record Respects (R : Graph → Graph → Prop) : Prop :=
  { rs_loras : subRespects (addFLUXLoRAs E) R;
    rs_fill : subRespects (addFLUXFill E) R;
    rs_txt2img : subRespects (addTextToImage E) R;
    rs_img2img : subRespects (addImageToImage E) R;
    rs_inpaint : subRespects (addInpaint E) R;
    rs_outpaint : subRespects (addOutpaint E) R;
    rs_controlNets : subRespects (addControlNets E) R;
    rs_controlLoRA : subRespects (addControlLoRA E) R;
    rs_ipAdapters : subRespects (addIPAdapters E) R;
    rs_reduxes : subRespects (addFLUXReduxes E) R;
    rs_regions : subRespects (addRegions E) R;
    rs_nsfw : subRespects (addNSFWChecker E) R;
    rs_watermark : subRespects (addWatermarker E) R }.

(** A sub-builder that returns on every input. *)
Definition subCompletes {Arg A} (f : Arg → Sub A) : Prop :=
  ∀ arg gr, ∃ a gr', f arg gr = Normal (a, gr').

Record Completes : Prop :=
  { cp_loras : subCompletes (addFLUXLoRAs E);
    cp_fill : subCompletes (addFLUXFill E);
    cp_txt2img : subCompletes (addTextToImage E);
    cp_img2img : subCompletes (addImageToImage E);
    cp_inpaint : subCompletes (addInpaint E);
    cp_outpaint : subCompletes (addOutpaint E);
    cp_controlNets : subCompletes (addControlNets E);
    cp_controlLoRA : subCompletes (addControlLoRA E);
    cp_ipAdapters : subCompletes (addIPAdapters E);
    cp_reduxes : subCompletes (addFLUXReduxes E);
    cp_regions : subCompletes (addRegions E);
    cp_nsfw : subCompletes (addNSFWChecker E);
    cp_watermark : subCompletes (addWatermarker E) }.

(** A relation between graphs that every step after the mode dispatch
    keeps: the delegated calls, the creation of a collector under one of
    [ids], the addition of an edge and the removal of a collector under one
    of [ids]. *)
Record Frame (R : Graph → Graph → Prop) (ids : list string) : Prop :=
  { fr_refl : ∀ gr, R gr gr;
    fr_trans : ∀ a b c, R a b → R b c → R a c;
    fr_calls : Respects R;
    fr_addNode : ∀ i gr, i ∈ ids → R gr (addNode (collectNode i) gr);
    fr_addEdge : ∀ src sf dst df gr, R gr (addEdge src sf dst df gr);
    fr_deleteNode : ∀ i gr, i ∈ ids → R gr (deleteNode i gr) }.

End Vocabulary.

(** Relations between the graph before and after a step. *)

(** No metadata key is dropped. *)
Definition keysKept (gr gr' : Graph) : Prop :=
  dom (metadata gr) ⊆ dom (metadata gr').

(** The metadata under key [k] is left as it is. *)
Definition keyUntouched (k : string) (gr gr' : Graph) : Prop :=
  metadata gr' !! k = metadata gr !! k.

(** The metadata is left as it is. *)
Definition metadataUntouched (gr gr' : Graph) : Prop :=
  metadata gr' = metadata gr.

(** No node appears under an identifier of [ids] that was free. *)
Definition absentKept (ids : list string) (gr gr' : Graph) : Prop :=
  ∀ i, i ∈ ids → nodes gr !! i = None → nodes gr' !! i = None.


(** The edge [e] is not removed. *)
Definition edgeKept (e : Edge) (gr gr' : Graph) : Prop :=
  e ∈ edges gr → e ∈ edges gr'.

(** The field [k] of the node [i], read through the graph. *)
Definition nodeField (i k : string) (gr : Graph) : option Value :=
  n ← nodes gr !! i; node_fields n !! k.

(** The field [k] of node [i] is left as it is. *)
Definition fieldUntouched (i k : string) (gr gr' : Graph) : Prop :=
  nodeField i k gr' = nodeField i k gr.

(** The node stored under [i] is left as it is. *)
Definition nodeKept (i : string) (gr gr' : Graph) : Prop :=
  nodes gr' !! i = nodes gr !! i.

(** Nodes appear under identifiers of [S] only. *)
Definition nodesWithin (S : gset string) (gr gr' : Graph) : Prop :=
  dom (nodes gr') ⊆ dom (nodes gr) ∪ S.

(** No node is removed. *)
Definition nodesStay (gr gr' : Graph) : Prop :=
  dom (nodes gr) ⊆ dom (nodes gr').

(** Every edge starts and ends at a node of the graph. *)
Definition closed (gr : Graph) : Prop :=
  ∀ e, e ∈ edges gr →
       is_Some (nodes gr !! end_node (source e)) ∧
       is_Some (nodes gr !! end_node (destination e)).

(** No node is removed and a graph without dangling edges stays so. *)
Definition closedKept (gr gr' : Graph) : Prop :=
  nodesStay gr gr' ∧ (closed gr → closed gr').

(** A node under [i] stays. *)
Definition presentKept (i : string) (gr gr' : Graph) : Prop :=
  is_Some (nodes gr !! i) → is_Some (nodes gr' !! i).

(** A graph without dangling edges that has a node under each identifier
    of [ids]. *)
Definition sound (ids : list string) (gr : Graph) : Prop :=
  closed gr ∧ ∀ i, i ∈ ids → is_Some (nodes gr !! i).

(** The nine edges of the base pipeline (lines 136-145). *)
Definition baseEdges (p : Pipeline) : list Edge :=
  [ mkEdge (modelLoader p) "transformer" (denoise p) "transformer";
    mkEdge (modelLoader p) "vae" (denoise p) "controlnet_vae";
    mkEdge (modelLoader p) "vae" (l2i p) "vae";
    mkEdge (modelLoader p) "clip" (posCond p) "clip";
    mkEdge (modelLoader p) "t5_encoder" (posCond p) "t5_encoder";
    mkEdge (modelLoader p) "max_seq_len" (posCond p) "t5_max_seq_len";
    mkEdge (posCond p) "conditioning" (posCondCollect p) "item";
    mkEdge (posCondCollect p) "collection" (denoise p) "positive_text_conditioning";
    mkEdge (denoise p) "latents" (l2i p) "latents" ].

Definition pipelineNodes (p : Pipeline) : list Node :=
  [ modelLoader p; posCond p; posCondCollect p; denoise p; l2i p ].

(** ** The calls by name, and what they were handed *)

Section Reading.
Context {CanvasManager Entity : Type}.
Implicit Types (c : @Call CanvasManager Entity).
Implicit Types (state : @RootState Entity) (manager : option CanvasManager).

Variable E : @Env CanvasManager Entity.

Definition withManager manager : bool :=
  match manager with Some _ => true | None => false end.

(** The sub-builder a call went to, under the name the source imports. *)
Definition builderName c : string :=
  match c with
  | CAddFLUXLoRAs _ => "addFLUXLoRAs"
  | CAddFLUXFill _ _ => "addFLUXFill"
  | CAddTextToImage _ _ => "addTextToImage"
  | CAddImageToImage _ _ => "addImageToImage"
  | CAddInpaint _ _ => "addInpaint"
  | CAddOutpaint _ _ => "addOutpaint"
  | CAddControlNets _ _ => "addControlNets"
  | CAddControlLoRA _ => "addControlLoRA"
  | CAddIPAdapters _ _ => "addIPAdapters"
  | CAddFLUXReduxes _ _ => "addFLUXReduxes"
  | CAddRegions _ _ => "addRegions"
  | CAddNSFWChecker _ _ => "addNSFWChecker"
  | CAddWatermarker _ _ => "addWatermarker"
  end.

Definition modeBuilderName (b : ModeBuilder) : string :=
  match b with
  | FLUXFill => "addFLUXFill"
  | TextToImage => "addTextToImage"
  | ImageToImage => "addImageToImage"
  | Inpaint => "addInpaint"
  | Outpaint => "addOutpaint"
  end.

(** The sub-builders in the order the source calls them, for the mode
    builder [b], with or without a manager and post-processors. *)
Definition callOrder (b : ModeBuilder) (withManager nsfw wm : bool) : list string :=
  [ "addFLUXLoRAs"; modeBuilderName b ]
  ++ (if withManager then [ "addControlNets"; "addControlLoRA" ] else [])
  ++ [ "addIPAdapters"; "addFLUXReduxes" ]
  ++ (if withManager then [ "addRegions" ] else [])
  ++ (if nsfw then [ "addNSFWChecker" ] else [])
  ++ (if wm then [ "addWatermarker" ] else []).






(** The collectors a call was handed. *)
Definition passedCollectors c : list Node :=
  match c with
  | CAddControlNets arg _ => [ cn_collector arg ]
  | CAddIPAdapters arg _ | CAddFLUXReduxes arg _ => [ ad_collector arg ]
  | CAddRegions arg _ => [ rg_ipAdapterCollect arg; rg_fluxReduxCollect arg ]
  | _ => []
  end.

(** The calls of the control block (lines 244-271), when the collector is
    drawn as identifier number 6. *)
Definition controlCalls state manager (ms : Models) (p : Pipeline)
    (l : list (@Call CanvasManager Entity)) : Prop :=
  match manager with
  | Some m =>
      ∃ res,
        l = [ CAddControlNets
                (controlNetsArg state m ms
                   (collectNode (prefixedId E "control_net_collector" 6))) res;
              CAddControlLoRA (controlLoRAArg state m ms p) ]
  | None => l = []
  end.

(** The number of the first identifier drawn after the control block. *)
Definition referenceDraw manager : nat :=
  match manager with Some _ => 7%nat | None => 6%nat end.

(** The calls of the reference block (lines 273-315). *)
Definition referenceCalls state manager (ms : Models) (p : Pipeline)
    (l : list (@Call CanvasManager Entity)) : Prop :=
  let ipC := collectNode (prefixedId E "ip_adapter_collector" (referenceDraw manager)) in
  let rxC :=
    collectNode (prefixedId E "ip_adapter_collector" (S (referenceDraw manager))) in
  ∃ resI resR,
    match manager with
    | Some m =>
        ∃ rs, l = [ CAddIPAdapters (adapterArg state ms ipC) resI;
                    CAddFLUXReduxes (adapterArg state ms rxC) resR;
                    CAddRegions (regionsArg state m ms p ipC rxC) rs ]
    | None => l = [ CAddIPAdapters (adapterArg state ms ipC) resI;
                    CAddFLUXReduxes (adapterArg state ms rxC) resR ]
    end.

(** A sub-builder that returns a node of the graph it leaves. *)
Definition subYields {Arg} (f : Arg → Sub Node) : Prop :=
  ∀ arg gr out gr', f arg gr = Normal (out, gr') → is_Some (nodes gr' !! node_id out).

Record Yields : Prop :=
  { ys_fill : subYields (addFLUXFill E);
    ys_txt2img : subYields (addTextToImage E);
    ys_img2img : subYields (addImageToImage E);
    ys_inpaint : subYields (addInpaint E);
    ys_outpaint : subYields (addOutpaint E);
    ys_nsfw : subYields (addNSFWChecker E);
    ys_watermark : subYields (addWatermarker E) }.

(** The environment [E] with a [getGenerationMode] that answers [mode]. *)
Definition withMode (mode : GenerationMode) : @Env CanvasManager Entity :=
  {| getGenerationMode := λ _ _, Normal mode; t := t E; pow := pow E;
     prefixedId := prefixedId E; getSizes := getSizes E;
     getModelMetadataField := getModelMetadataField E;
     addFLUXLoRAs := addFLUXLoRAs E; addFLUXFill := addFLUXFill E;
     addTextToImage := addTextToImage E; addImageToImage := addImageToImage E;
     addInpaint := addInpaint E; addOutpaint := addOutpaint E;
     addControlNets := addControlNets E; addControlLoRA := addControlLoRA E;
     addIPAdapters := addIPAdapters E; addFLUXReduxes := addFLUXReduxes E;
     addRegions := addRegions E; addNSFWChecker := addNSFWChecker E;
     addWatermarker := addWatermarker E |}.

(** The calls of the post-processing (lines 331-337). *)
Definition postCalls (enabled : bool)
    (mk : Node → Node → @Call CanvasManager Entity)
    (l : list (@Call CanvasManager Entity)) : Prop :=
  if enabled then ∃ input out, l = [ mk input out ] else l = [].

End Reading.

(** ** A small environment to run the builder in

    Stand-ins for the delegated sub-builders: the mode-specific ones and the
    post-processors add one node each and return it (text-to-image returns
    the decoder), the adapter sub-builders report one item per entity, and
    none of them throws. *)

Module Demo.

Definition node (i ty : string) : Node :=
  {| node_id := i; node_type := ty; node_fields := ∅ |}.

Definition adds (i ty : string) : Sub Node :=
  λ gr, Normal (node i ty, addNode (node i ty) gr).

Definition chains (i ty : string) (input : Node) : Sub Node :=
  λ gr, Normal (node i ty, addEdge input "image" (node i ty) "image"
                             (addNode (node i ty) gr)).

Definition sizeOf (b : BBox) : Size :=
  {| width := rect_width (rect b); height := rect_height (rect b) |}.

Definition env (mode : GenerationMode) : @Env unit unit :=
  {| getGenerationMode := λ _ _, Normal mode;
     t := λ k, k;
     pow := λ x _, PrimFloat.sqrt x;
     prefixedId := λ prefix n, prefix +:+ ":" +:+ pretty n;
     getSizes := λ b, (sizeOf b, sizeOf b);
     getModelMetadataField := λ m, VStr (key m);
     addFLUXLoRAs := λ _ gr, Normal (tt, gr);
     addFLUXFill := λ _, adds "canvas_output:fill" "flux_fill";
     addTextToImage := λ arg gr, Normal (t2i_l2i arg, gr);
     addImageToImage := λ _, adds "canvas_output:i2i" "img_resize";
     addInpaint := λ _, adds "canvas_output:inpaint" "img_resize";
     addOutpaint := λ _, adds "canvas_output:outpaint" "img_resize";
     addControlNets := λ arg gr,
       Normal ({| addedControlNets := Z.of_nat (length (cn_entities arg)) |}, gr);
     addControlLoRA := λ _ gr, Normal (tt, gr);
     addIPAdapters := λ arg gr,
       Normal ({| addedIPAdapters := Z.of_nat (length (ad_entities arg)) |}, gr);
     addFLUXReduxes := λ _ gr, Normal ({| addedFLUXReduxes := 0 |}, gr);
     addRegions := λ _ gr, Normal ([], gr);
     addNSFWChecker := chains "nsfw_checker:demo" "img_nsfw";
     addWatermarker := chains "watermarker:demo" "img_watermark" |}.

Definition mainModel (v : string) : MainModelConfig :=
  {| key := "main"; name := "FLUX"; base := "flux"; variant := v |}.

Definition subModel (k : string) : ModelIdentifierField :=
  {| mi_key := k; mi_name := k |}.

Definition parameters (optimized : bool) : ParamsState :=
  {| guidance := 4%float; seed := 42; steps := 30;
     fluxVAE := Some (subModel "vae");
     t5EncoderModel := Some (subModel "t5");
     clipEmbedModel := Some (subModel "clip");
     img2imgStrength := 0.5%float;
     optimizedDenoisingEnabled := optimized |}.

(** A state with main-model variant [v], the two post-processing toggles,
    control layers and reference images. *)
Definition state (v : string) (nsfw wm : bool) (layers refs : list unit)
  : @RootState unit :=
  {| system := {| shouldUseNSFWChecker := nsfw; shouldUseWatermarker := wm |};
     activeTab := "canvas";
     params := parameters false;
     canvas :=
       {| bbox := {| rect := {| rect_x := 0; rect_y := 0; rect_width := 1024;
                                rect_height := 1024 |} |};
          controlLayers := {| entities := layers |};
          regionalGuidance := {| entities := [] |} |};
     refImages := {| entities := refs |};
     mainModelConfig := Some (mainModel v);
     presetModifiedPrompts := {| positivePrompt := "a lighthouse" |};
     canvasMetadata := {[ "canvas_v2_metadata" := VNull ]};
     canvasOutputFields := {[ "is_intermediate" := VBool false ]} |}.

(** The same state without a T5 encoder. *)
Definition stateWithoutT5 : @RootState unit :=
  let st := state "normal" false false [] [] in
  {| system := system st; activeTab := activeTab st;
     params :=
       {| guidance := 4%float; seed := 42; steps := 30;
          fluxVAE := Some (subModel "vae"); t5EncoderModel := None;
          clipEmbedModel := Some (subModel "clip");
          img2imgStrength := 0.5%float; optimizedDenoisingEnabled := false |};
     canvas := canvas st; refImages := refImages st;
     mainModelConfig := mainModelConfig st;
     presetModifiedPrompts := presetModifiedPrompts st;
     canvasMetadata := canvasMetadata st;
     canvasOutputFields := canvasOutputFields st |}.

(** The identifiers the stand-ins give to the nodes they add. *)
Definition ownIds : list string :=
  [ "canvas_output:fill"; "canvas_output:i2i"; "canvas_output:inpaint";
    "canvas_output:outpaint"; "nsfw_checker:demo"; "watermarker:demo" ].

(** What came back, if anything did. *)
Definition returned (c : Completion (GraphBuilderReturn * list (@Call unit unit)))
  : GraphBuilderReturn :=
  match c with
  | Normal (r, _) => r
  | Throw _ =>
      {| g := newGraph "";
         seedFieldIdentifier := {| nodeId := ""; fieldName := "" |};
         positivePromptFieldIdentifier := {| nodeId := ""; fieldName := "" |} |}
  end.

Definition called (c : Completion (GraphBuilderReturn * list (@Call unit unit)))
  : list (@Call unit unit) :=
  match c with Normal (_, calls) => calls | Throw _ => [] end.

(** Four builds: text-to-image with a manager, the safety checker and one
    reference image; image-to-image with a manager; inpainting with the
    FLUX Fill model; text-to-image without a manager and without
    post-processing. *)
Abbreviation txt2imgRun :=
  (buildFLUXGraph (env txt2img) (state "normal" true false [] [tt]) (Some tt)).

Abbreviation img2imgRun :=
  (buildFLUXGraph (env img2img) (state "normal" false false [] []) (Some tt)).

Abbreviation fillRun :=
  (buildFLUXGraph (env inpaint) (state "inpaint" false false [] []) (Some tt)).

Abbreviation plainRun :=
  (buildFLUXGraph (env txt2img) (state "normal" false false [] []) None).

Definition models (v : string) : Models :=
  {| model := mainModel v; md_t5EncoderModel := subModel "t5";
     md_clipEmbedModel := subModel "clip"; md_fluxVAE := subModel "vae" |}.

Definition returns (c : Completion (GraphBuilderReturn * list (@Call unit unit)))
  : bool :=
  match c with Normal _ => true | Throw _ => false end.

(** The identifiers of the nodes the mode-specific sub-builders returned. *)
Definition modeOutputIds (calls : list (@Call unit unit)) : list string :=
  omap (λ c, node_id <$> modeOutput c) (List.filter isModeCall calls).

(** The same stand-ins, with a LoRA sub-builder that fails. *)
Definition brokenEnv (mode : GenerationMode) : @Env unit unit :=
  let e := env mode in
  {| getGenerationMode := getGenerationMode e; t := t e; pow := pow e;
     prefixedId := prefixedId e; getSizes := getSizes e;
     getModelMetadataField := getModelMetadataField e;
     addFLUXLoRAs := λ _ _, Throw (OtherError "LoRA model not found");
     addFLUXFill := addFLUXFill e; addTextToImage := addTextToImage e;
     addImageToImage := addImageToImage e; addInpaint := addInpaint e;
     addOutpaint := addOutpaint e; addControlNets := addControlNets e;
     addControlLoRA := addControlLoRA e; addIPAdapters := addIPAdapters e;
     addFLUXReduxes := addFLUXReduxes e; addRegions := addRegions e;
     addNSFWChecker := addNSFWChecker e; addWatermarker := addWatermarker e |}.

(** A post-processor that connects its node to its input when the input is
    in the graph, and only adds its node otherwise. *)
Definition linked (i ty : string) (input : Node) : Sub Node :=
  λ gr, if decide (is_Some (nodes gr !! node_id input))
        then chains i ty input gr else adds i ty gr.

(** Stand-ins that return a node of the graph and leave no dangling edge:
    text-to-image adds a node of its own, the post-processors are linked to
    their input. *)
Definition tidyEnv (mode : GenerationMode) : @Env unit unit :=
  let e := env mode in
  {| getGenerationMode := getGenerationMode e; t := t e; pow := pow e;
     prefixedId := prefixedId e; getSizes := getSizes e;
     getModelMetadataField := getModelMetadataField e;
     addFLUXLoRAs := addFLUXLoRAs e;
     addFLUXFill := addFLUXFill e;
     addTextToImage := λ _, adds "canvas_output:t2i" "img_resize";
     addImageToImage := addImageToImage e; addInpaint := addInpaint e;
     addOutpaint := addOutpaint e; addControlNets := addControlNets e;
     addControlLoRA := addControlLoRA e; addIPAdapters := addIPAdapters e;
     addFLUXReduxes := addFLUXReduxes e; addRegions := addRegions e;
     addNSFWChecker := linked "nsfw_checker:demo" "img_nsfw";
     addWatermarker := linked "watermarker:demo" "img_watermark" |}.

Definition tidyIds : list string := "canvas_output:t2i" :: ownIds.

(** A build with these: text-to-image with a manager, one control layer,
    one reference image and both post-processors. *)
Abbreviation tidyRun :=
  (buildFLUXGraph (tidyEnv txt2img) (state "normal" true true [tt] [tt]) (Some tt)).

(** Two results of regions. *)
Definition regionA : RegionResult :=
  {| region_addedIPAdapters := 2; region_addedFLUXReduxes := 0 |}.
Definition regionB : RegionResult :=
  {| region_addedIPAdapters := 0; region_addedFLUXReduxes := 1 |}.

End Demo.

(** * Properties *)

(** ** Running the monad *)

Section Run.
Context {CanvasManager Entity : Type}.
Abbreviation Env := (@Env CanvasManager Entity).
Abbreviation World := (@World CanvasManager Entity).
Abbreviation M := (@M CanvasManager Entity).
Abbreviation Call := (@Call CanvasManager Entity).
Abbreviation RootState := (@RootState Entity).

Lemma bindM_inv {A B} (m : M A) (k : A → M B) (w w' : World) (b : B) :
  (m ≫= k) w = Normal (b, w') →
  ∃ a w1, m w = Normal (a, w1) ∧ k a w1 = Normal (b, w').
Proof.
  unfold mbind, M_bind. destruct (m w) as [[a w1]|e]; [|discriminate].
  intros H. by exists a, w1.
Qed.

Lemma bindM_intro {A B} (m : M A) (k : A → M B) (w w1 : World) (a : A) :
  m w = Normal (a, w1) → (m ≫= k) w = k a w1.
Proof. unfold mbind, M_bind. by intros ->. Qed.

Lemma invoke_inv {Arg A} (f : Arg → Sub A) (c : Arg → A → Call) (arg : Arg)
    (w w' : World) (a : A) :
  invoke f c arg w = Normal (a, w') →
  ∃ gr, f arg (wgraph w) = Normal (a, gr) ∧
        w' = {| wgraph := gr; wcalls := wcalls w ++ [c arg a]; wdraws := wdraws w |}.
Proof.
  unfold invoke. destruct (f arg (wgraph w)) as [[a' gr]|e]; [|discriminate].
  intros [= -> <-]. by exists gr.
Qed.

Lemma invoke_intro {Arg A} (f : Arg → Sub A) (c : Arg → A → Call) (arg : Arg)
    (w : World) (a : A) (gr : Graph) :
  f arg (wgraph w) = Normal (a, gr) →
  invoke f c arg w =
    Normal (a, {| wgraph := gr; wcalls := wcalls w ++ [c arg a]; wdraws := wdraws w |}).
Proof. unfold invoke. by intros ->. Qed.

End Run.

(** Symbolic execution of the builder, one primitive at a time. *)
Section Steps.
Context {CanvasManager Entity : Type}.
Variable E : @Env CanvasManager Entity.
Abbreviation MM := (@M CanvasManager Entity).
Implicit Types (cs : list (@Call CanvasManager Entity)) (gr : Graph) (d : nat).
Implicit Types (state : @RootState Entity) (manager : option CanvasManager).
Implicit Types (p : Pipeline) (ms : Models).

Lemma run_getPrefixedId {B} prefix (k : string → MM B) gr cs d :
  (getPrefixedId E prefix ≫= k) {| wgraph := gr; wcalls := cs; wdraws := d |} =
  k (prefixedId E prefix d) {| wgraph := gr; wcalls := cs; wdraws := S d |}.
Proof. reflexivity. Qed.

Lemma run_addNode {B} n (k : Node → MM B) gr cs d :
  (g_addNode n ≫= k) {| wgraph := gr; wcalls := cs; wdraws := d |} =
  k n {| wgraph := addNode n gr; wcalls := cs; wdraws := d |}.
Proof. reflexivity. Qed.

Lemma run_addEdge {B} src sf dst df (k : unit → MM B) gr cs d :
  (g_addEdge src sf dst df ≫= k) {| wgraph := gr; wcalls := cs; wdraws := d |} =
  k tt {| wgraph := addEdge src sf dst df gr; wcalls := cs; wdraws := d |}.
Proof. reflexivity. Qed.

Lemma run_addEdge_last src sf dst df gr cs d :
  g_addEdge src sf dst df {| wgraph := gr; wcalls := cs; wdraws := d |} =
  Normal (tt, {| wgraph := addEdge src sf dst df gr; wcalls := cs; wdraws := d |}).
Proof. reflexivity. Qed.

Lemma run_deleteNode {B} i (k : unit → MM B) gr cs d :
  (g_deleteNode i ≫= k) {| wgraph := gr; wcalls := cs; wdraws := d |} =
  k tt {| wgraph := deleteNode i gr; wcalls := cs; wdraws := d |}.
Proof. reflexivity. Qed.

Lemma run_deleteNode_last i gr cs d :
  g_deleteNode i {| wgraph := gr; wcalls := cs; wdraws := d |} =
  Normal (tt, {| wgraph := deleteNode i gr; wcalls := cs; wdraws := d |}).
Proof. reflexivity. Qed.

Lemma run_upsertMetadata {B} md (k : unit → MM B) gr cs d :
  (g_upsertMetadata md ≫= k) {| wgraph := gr; wcalls := cs; wdraws := d |} =
  k tt {| wgraph := upsertMetadata md gr; wcalls := cs; wdraws := d |}.
Proof. reflexivity. Qed.

Lemma run_updateNode {B} n patch (k : unit → MM B) gr cs d :
  (g_updateNode n patch ≫= k) {| wgraph := gr; wcalls := cs; wdraws := d |} =
  k tt {| wgraph := updateNode n patch gr; wcalls := cs; wdraws := d |}.
Proof. reflexivity. Qed.

Lemma run_setMetadataReceivingNode {B} n (k : unit → MM B) gr cs d :
  (g_setMetadataReceivingNode n ≫= k) {| wgraph := gr; wcalls := cs; wdraws := d |} =
  k tt {| wgraph := setMetadataReceivingNode n gr; wcalls := cs; wdraws := d |}.
Proof. reflexivity. Qed.

Lemma run_getGraph {B} (k : Graph → MM B) gr cs d :
  (getGraph ≫= k) {| wgraph := gr; wcalls := cs; wdraws := d |} =
  k gr {| wgraph := gr; wcalls := cs; wdraws := d |}.
Proof. reflexivity. Qed.

Lemma run_mret {A B} (a : A) (k : A → MM B) (w : @World CanvasManager Entity) :
  (mret a ≫= k) w = k a w.
Proof. reflexivity. Qed.

Lemma run_mret_last {A} (a : A) (w : @World CanvasManager Entity) :
  (mret a : MM A) w = Normal (a, w).
Proof. reflexivity. Qed.

Lemma run_assertM {A B} (v : option A) msg (k : A → MM B)
    (w : @World CanvasManager Entity) :
  (assertM v msg ≫= k) w =
  match v with Some a => k a w | None => Throw (AssertionError msg) end.
Proof. by destruct v. Qed.

Lemma run_invoke {Arg A B} (f : Arg → Sub A) c arg (k : A → MM B) gr cs d :
  (invoke f c arg ≫= k) {| wgraph := gr; wcalls := cs; wdraws := d |} =
  match f arg gr with
  | Normal (a, gr') => k a {| wgraph := gr'; wcalls := cs ++ [c arg a]; wdraws := d |}
  | Throw e => Throw e
  end.
Proof.
  unfold mbind, M_bind, invoke. cbn. by destruct (f arg gr) as [[a gr']|e].
Qed.

Lemma run_invoke_last {Arg A} (f : Arg → Sub A) c arg gr cs d :
  invoke f c arg {| wgraph := gr; wcalls := cs; wdraws := d |} =
  match f arg gr with
  | Normal (a, gr') =>
      Normal (a, {| wgraph := gr'; wcalls := cs ++ [c arg a]; wdraws := d |})
  | Throw e => Throw e
  end.
Proof. reflexivity. Qed.

Lemma run_bind_assoc {A B C} (m : MM A) (k : A → MM B) (k' : B → MM C)
    (w : @World CanvasManager Entity) :
  ((m ≫= k) ≫= k') w = (m ≫= λ a, k a ≫= k') w.
Proof. unfold mbind, M_bind. by destruct (m w) as [[a w1]|e]. Qed.

(** The blocks, unfolded. *)
Lemma basePipeline_unfold state ms gd os ss :
  basePipeline E state ms gd os ss =
  ltac:(let body := eval cbv beta zeta delta [basePipeline] in
                      (basePipeline E state ms gd os ss) in exact body).
Proof. reflexivity. Qed.

Lemma modeSubgraph_unfold state manager mode ms p os ss ds :
  modeSubgraph E state manager mode ms p os ss ds =
  ltac:(let body := eval cbv beta zeta delta [modeSubgraph] in
                      (modeSubgraph E state manager mode ms p os ss ds) in
        exact body).
Proof. reflexivity. Qed.

Lemma controlAdapters_unfold state manager ms p :
  controlAdapters E state manager ms p =
  ltac:(let body := eval cbv beta zeta delta [controlAdapters] in
                      (controlAdapters E state manager ms p) in exact body).
Proof. reflexivity. Qed.

Lemma referenceAdapters_unfold state manager ms p :
  referenceAdapters E state manager ms p =
  ltac:(let body := eval cbv beta zeta delta [referenceAdapters] in
                      (referenceAdapters E state manager ms p) in exact body).
Proof. reflexivity. Qed.

Lemma postProcessing_unfold state out :
  postProcessing E state out =
  ltac:(let body := eval cbv beta zeta delta [postProcessing] in
                      (postProcessing E state out) in exact body).
Proof. reflexivity. Qed.

End Steps.

Ltac step_in H :=
  first
    [ rewrite run_getPrefixedId in H
    | rewrite run_addNode in H
    | rewrite run_addEdge in H
    | rewrite run_addEdge_last in H
    | rewrite run_deleteNode in H
    | rewrite run_deleteNode_last in H
    | rewrite run_upsertMetadata in H
    | rewrite run_updateNode in H
    | rewrite run_setMetadataReceivingNode in H
    | rewrite run_getGraph in H
    | rewrite run_mret in H
    | rewrite run_mret_last in H ];
  cbv beta in H.

Ltac run_in H := repeat step_in H.

Ltac step_goal :=
  first
    [ rewrite run_getPrefixedId
    | rewrite run_addNode
    | rewrite run_addEdge
    | rewrite run_addEdge_last
    | rewrite run_deleteNode
    | rewrite run_deleteNode_last
    | rewrite run_upsertMetadata
    | rewrite run_updateNode
    | rewrite run_setMetadataReceivingNode
    | rewrite run_getGraph
    | rewrite run_mret
    | rewrite run_mret_last ];
  cbv beta.

Ltac run_goal := repeat step_goal.

(** Lay a world open, so that the steps apply to it. *)
Ltac open_world w :=
  let gr := fresh "gr0" in
  let cs := fresh "cs0" in
  let d := fresh "d0" in
  destruct w as [gr cs d]; cbn [wgraph wcalls wdraws] in *.

(** Name the outcome of the next delegated call in [H]; a thrown error
    contradicts the success [H] states. *)
Ltac call_in H :=
  first [rewrite run_invoke in H | rewrite run_invoke_last in H];
  match type of H with
  | match ?f ?arg ?g0 with _ => _ end = _ =>
      let Hc := fresh "Hcall" in
      let a := fresh "res" in
      let gr := fresh "gr" in
      destruct (f arg g0) as [[a gr]|?] eqn:Hc; [|discriminate H]
  end;
  cbv beta iota in H; run_in H.

(** ** The blocks, run symbolically *)

Section Blocks.
Context {CanvasManager Entity : Type}.
Variable E : @Env CanvasManager Entity.
Implicit Types (state : @RootState Entity) (manager : option CanvasManager).
Implicit Types (w : @World CanvasManager Entity) (p : Pipeline) (ms : Models).

Lemma basePipeline_inv state ms gd os ss w p w' :
  basePipeline E state ms gd os ss w = Normal (p, w') →
  p = basePipelineNodes E state ms gd ss (wdraws w) ∧
  ∃ gL, addFLUXLoRAs E (lorasArg state p) (baseGraph p (wgraph w)) = Normal (tt, gL) ∧
    w' = {| wgraph := upsertMetadata (initialMetadata E state ms gd os) gL;
            wcalls := wcalls w ++ [CAddFLUXLoRAs (lorasArg state p)];
            wdraws := 5 + wdraws w |}%nat.
Proof.
  intros H. open_world w. rewrite basePipeline_unfold in H. run_in H. call_in H.
  destruct res. injection H as <- <-. split; [reflexivity|].
  exists gr. split; [exact Hcall|reflexivity].
Qed.

Lemma upsertMetadata_empty (gr : Graph) : upsertMetadata ∅ gr = gr.
Proof.
  destruct gr. unfold upsertMetadata. cbn. f_equal. apply (left_id_L ∅ (∪)).
Qed.

Lemma modeSubgraph_inv state manager mode ms p os ss ds w out w' :
  modeSubgraph E state manager mode ms p os ss ds w = Normal (out, w') →
  ∃ c gr, ModeStep E state manager mode ms p os ss ds (wgraph w) c out gr ∧
    w' = {| wgraph := upsertMetadata (modeMetadata (isFLUXFill (model ms)) mode) gr;
            wcalls := wcalls w ++ [c]; wdraws := wdraws w |}.
Proof.
  intros H. open_world w. rewrite modeSubgraph_unfold in H.
  destruct (isFLUXFill (model ms)) eqn:Hfill.
  - rewrite run_assertM in H. destruct manager as [m|]; [|discriminate].
    call_in H. injection H as <- <-. eexists _, gr. split.
    + by eapply ModeFill.
    + cbn. by rewrite upsertMetadata_empty.
  - destruct mode;
      [|rewrite run_assertM in H; destruct manager as [m|]; [|discriminate]..];
      call_in H; injection H as <- <-; eexists _, gr;
      (split; [|reflexivity]).
    + by eapply ModeTxt2img.
    + by eapply ModeImg2img.
    + by eapply ModeInpaint.
    + by eapply ModeOutpaint.
Qed.

Lemma connectOrDelete_run added collector p port w :
  connectOrDelete added collector p port w =
    Normal (tt, {| wgraph := connectedOrDeleted added collector p port (wgraph w);
                   wcalls := wcalls w; wdraws := wdraws w |}).
Proof. unfold connectOrDelete, connectedOrDeleted. by destruct (0 <? added). Qed.

Lemma run_connectOrDelete {B} added collector p port
    (k : unit → @M CanvasManager Entity B) gr cs d :
  (connectOrDelete added collector p port ≫= k)
    {| wgraph := gr; wcalls := cs; wdraws := d |} =
  k tt {| wgraph := connectedOrDeleted added collector p port gr; wcalls := cs;
          wdraws := d |}.
Proof.
  unfold mbind, M_bind. by rewrite connectOrDelete_run.
Qed.

Lemma controlAdapters_None state ms p w u w' :
  controlAdapters E state None ms p w = Normal (u, w') → w' = w.
Proof. rewrite controlAdapters_unfold. by intros [= _ <-]. Qed.

Lemma controlAdapters_Some state m ms p w u w' :
  controlAdapters E state (Some m) ms p w = Normal (u, w') →
  let c := collectNode (prefixedId E "control_net_collector" (wdraws w)) in
  ∃ res g1 g2,
    addControlNets E (controlNetsArg state m ms c) (addNode c (wgraph w))
      = Normal (res, g1) ∧
    addControlLoRA E (controlLoRAArg state m ms p)
      (connectedOrDeleted (addedControlNets res) c p "control" g1) = Normal (tt, g2) ∧
    w' = {| wgraph := g2;
            wcalls := (wcalls w ++ [CAddControlNets (controlNetsArg state m ms c) res])
                      ++ [CAddControlLoRA (controlLoRAArg state m ms p)];
            wdraws := S (wdraws w) |}.
Proof.
  intros H c. open_world w. rewrite controlAdapters_unfold in H. run_in H.
  call_in H. rewrite run_connectOrDelete in H. cbv beta in H. call_in H.
  destruct res0. injection H as _ <-. by exists res, gr, gr1.
Qed.

(** The regional guidance step of [referenceAdapters]. *)
Lemma referenceAdapters_inv state manager ms p w u w' :
  referenceAdapters E state manager ms p w = Normal (u, w') →
  let ipC := collectNode (prefixedId E "ip_adapter_collector" (wdraws w)) in
  let rxC := collectNode (prefixedId E "ip_adapter_collector" (S (wdraws w))) in
  ∃ resI g1 resR g2 l g3,
    addIPAdapters E (adapterArg state ms ipC) (addNode ipC (wgraph w))
      = Normal (resI, g1) ∧
    addFLUXReduxes E (adapterArg state ms rxC) (addNode rxC g1) = Normal (resR, g2) ∧
    match manager with
    | Some m => ∃ rs, addRegions E (regionsArg state m ms p ipC rxC) g2 = Normal (rs, g3) ∧
                      l = [CAddRegions (regionsArg state m ms p ipC rxC) rs]
    | None => g3 = g2 ∧ l = []
    end ∧
    w' = {| wgraph :=
              connectedOrDeleted (addedFLUXReduxes resR + wiredFLUXReduxes l) rxC p
                "redux_conditioning"
                (connectedOrDeleted (addedIPAdapters resI + wiredIPAdapters l) ipC p
                   "ip_adapter" g3);
            wcalls := ((wcalls w ++ [CAddIPAdapters (adapterArg state ms ipC) resI])
                       ++ [CAddFLUXReduxes (adapterArg state ms rxC) resR]) ++ l;
            wdraws := S (S (wdraws w)) |}.
Proof.
  intros H ipC rxC. open_world w. rewrite referenceAdapters_unfold in H. run_in H.
  call_in H. call_in H.
  destruct manager as [m|].
  - rewrite run_bind_assoc in H. call_in H.
    rewrite run_connectOrDelete in H. cbv beta in H.
    rewrite connectOrDelete_run in H. cbn [wgraph wcalls wdraws fst snd] in H.
    injection H as _ <-. eexists res, gr, res0, gr1, _, gr2.
    split; [done|]. split; [done|]. split; [by eexists|].
    cbn. by rewrite !Z.add_0_r.
  - run_in H. rewrite run_connectOrDelete in H. cbv beta in H.
    rewrite connectOrDelete_run in H. cbn [wgraph wcalls wdraws fst snd] in H.
    injection H as _ <-. exists res, gr, res0, gr1, [], gr1.
    split; [done|]. split; [done|]. split; [done|].
    cbn. by rewrite !Z.add_0_r, app_nil_r.
Qed.

Lemma postProcessing_inv state out w out' w' :
  postProcessing E state out w = Normal (out', w') →
  ∃ mid gmid lN lW,
    PostStep (shouldUseNSFWChecker (system state)) (addNSFWChecker E) CAddNSFWChecker
      out (wgraph w) mid gmid lN ∧
    PostStep (shouldUseWatermarker (system state)) (addWatermarker E) CAddWatermarker
      mid gmid out' (wgraph w') lW ∧
    wcalls w' = ((wcalls w ++ lN) ++ lW)%list ∧ wdraws w' = wdraws w.
Proof.
  intros H. open_world w. rewrite postProcessing_unfold in H. unfold PostStep.
  destruct (shouldUseNSFWChecker (system state)),
    (shouldUseWatermarker (system state)).
  - call_in H. call_in H. injection H as <- <-.
    by exists res, gr, [CAddNSFWChecker out res], [CAddWatermarker res res0].
  - call_in H. injection H as <- <-.
    exists res, gr, [CAddNSFWChecker out res], []. cbn. by rewrite app_nil_r.
  - run_in H. call_in H. injection H as <- <-.
    exists out, gr0, [], [CAddWatermarker out res]. cbn. by rewrite app_nil_r.
  - run_in H. injection H as <- <-. exists out, gr0, [], []. cbn.
    by rewrite !app_nil_r.
Qed.

Lemma finish_run state p out w :
  finish state p out w =
    Normal ({| g := finishedGraph state out (wgraph w);
               seedFieldIdentifier :=
                 {| nodeId := node_id (denoise p); fieldName := "seed" |};
               positivePromptFieldIdentifier :=
                 {| nodeId := node_id (posCond p); fieldName := "prompt" |} |},
            {| wgraph := finishedGraph state out (wgraph w); wcalls := wcalls w;
               wdraws := wdraws w |}).
Proof. reflexivity. Qed.

Lemma bindC_inv {A B} (c : Completion A) (k : A → Completion B) (b : B) :
  c ≫= k = Normal b → ∃ a, c = Normal a ∧ k a = Normal b.
Proof. destruct c as [a|e]; [|discriminate]. intros H. by exists a. Qed.

Lemma buildFLUXGraph_unfold state manager :
  buildFLUXGraph E state manager =
  ltac:(let body := eval cbv beta zeta delta [buildFLUXGraph] in
                      (buildFLUXGraph E state manager) in exact body).
Proof. reflexivity. Qed.

Lemma assemble_unfold state manager mode ms gd :
  assemble E state manager mode ms gd =
  ltac:(let body := eval cbv beta zeta delta [assemble] in
                      (assemble E state manager mode ms gd) in exact body).
Proof. reflexivity. Qed.

(** A build that returns went through every block. *)
Lemma buildFLUXGraph_run state manager r calls :
  buildFLUXGraph E state manager = Normal (r, calls) → Run E state manager r calls.
Proof.
  rewrite buildFLUXGraph_unfold. intros H.
  apply bindC_inv in H as (mode & Hmode & H).
  apply bindC_inv in H as (ms & Hms & H).
  apply bindC_inv in H as (gd & Hgd & H).
  apply bindC_inv in H as ([r' w6] & Ha & H).
  injection H as -> <-.
  rewrite assemble_unfold in Ha.
  destruct (getSizes E (bbox (selectCanvasSlice state))) as [os ss] eqn:Hsz.
  apply bindM_inv in Ha as (p & w1 & Hbase & Ha).
  apply bindM_inv in Ha as (out & w2 & Hmd & Ha).
  apply bindM_inv in Ha as ([] & w3 & Hctl & Ha).
  apply bindM_inv in Ha as ([] & w4 & Href & Ha).
  apply bindM_inv in Ha as (out' & w5 & Hpost & Ha).
  apply basePipeline_inv in Hbase as (Hp & gL & HL & ->).
  apply modeSubgraph_inv in Hmd as (c & gM & Hstep & ->).
  apply postProcessing_inv in Hpost as (mid & gmid & lN & lW & HN & HW & Hcalls & _).
  rewrite finish_run in Ha. injection Ha as <- <-.
  by eapply RunBlocks.
Qed.

End Blocks.

(** ** Blocks that run to completion *)

(** Use a completeness assumption [Hc] for the next delegated call of the
    goal. *)
Ltac complete_call Hc :=
  first [rewrite run_invoke | rewrite run_invoke_last];
  match goal with
  | |- context [match ?x with Normal _ => _ | Throw _ => _ end] =>
      match x with
      | ?f ?arg ?g0 =>
          let a := fresh "a" in
          let gr := fresh "gr" in
          let Heq := fresh "Heq" in
          destruct (Hc arg g0) as (a & gr & Heq); rewrite Heq; cbv beta iota
      end
  end;
  run_goal.

Section Completion.
Context {CanvasManager Entity : Type}.
Variable E : @Env CanvasManager Entity.
Implicit Types (state : @RootState Entity) (manager : option CanvasManager).
Implicit Types (w : @World CanvasManager Entity) (p : Pipeline) (ms : Models).

Lemma bindC_Normal {A B} (a : A) (k : A → Completion B) : Normal a ≫= k = k a.
Proof. reflexivity. Qed.

Lemma bindC_Throw {A B} (e : BuildError) (k : A → Completion B) :
  Throw e ≫= k = Throw e.
Proof. reflexivity. Qed.

(** The builder once the mode is known, the assertions are passed and the
    guidance is settled. *)
Lemma buildFLUXGraph_assemble state manager mode ms gd :
  getGenerationMode E manager (selectActiveTab state) = Normal mode →
  requireModels state = Normal ms →
  fillGuidance E (model ms) mode (guidance (selectParamsSlice state)) = Normal gd →
  buildFLUXGraph E state manager =
    match assemble E state manager mode ms gd (initialWorld E) with
    | Normal (r, w) => Normal (r, wcalls w)
    | Throw e => Throw e
    end.
Proof.
  intros Hmode Hms Hgd. rewrite buildFLUXGraph_unfold.
  rewrite Hmode, bindC_Normal, Hms, bindC_Normal, Hgd, bindC_Normal.
  by destruct (assemble E state manager mode ms gd (initialWorld E)) as [[r w]|e].
Qed.

Lemma buildFLUXGraph_throws_assertion state manager mode e :
  getGenerationMode E manager (selectActiveTab state) = Normal mode →
  requireModels state = Throw e →
  buildFLUXGraph E state manager = Throw e.
Proof.
  intros Hmode Hms. rewrite buildFLUXGraph_unfold.
  by rewrite Hmode, bindC_Normal, Hms, bindC_Throw.
Qed.

Lemma buildFLUXGraph_throws_gate state manager mode ms e :
  getGenerationMode E manager (selectActiveTab state) = Normal mode →
  requireModels state = Normal ms →
  fillGuidance E (model ms) mode (guidance (selectParamsSlice state)) = Throw e →
  buildFLUXGraph E state manager = Throw e.
Proof.
  intros Hmode Hms Hgd. rewrite buildFLUXGraph_unfold.
  by rewrite Hmode, bindC_Normal, Hms, bindC_Normal, Hgd, bindC_Throw.
Qed.

Lemma basePipeline_completes state ms gd os ss w :
  subCompletes (addFLUXLoRAs E) →
  ∃ p w', basePipeline E state ms gd os ss w = Normal (p, w').
Proof.
  intros Hc. open_world w. rewrite basePipeline_unfold. run_goal.
  complete_call Hc. eauto.
Qed.

Lemma modeSubgraph_completes state manager mode ms p os ss ds w :
  Completes E →
  (manager = None → isFLUXFill (model ms) = false ∧ mode = txt2img) →
  ∃ out w', modeSubgraph E state manager mode ms p os ss ds w = Normal (out, w').
Proof.
  intros Hc Hm. open_world w. rewrite modeSubgraph_unfold.
  destruct manager as [m|].
  - destruct (isFLUXFill (model ms)); [|destruct mode];
      rewrite ?run_assertM.
    + complete_call (cp_fill E Hc). eauto.
    + complete_call (cp_txt2img E Hc). eauto.
    + complete_call (cp_img2img E Hc). eauto.
    + complete_call (cp_inpaint E Hc). eauto.
    + complete_call (cp_outpaint E Hc). eauto.
  - destruct (Hm eq_refl) as [-> ->].
    complete_call (cp_txt2img E Hc). eauto.
Qed.

(** Without a manager every image-conditioned branch stops at its assertion. *)
Lemma modeSubgraph_needs_manager state mode ms p os ss ds w :
  isFLUXFill (model ms) = true ∨ mode ≠ txt2img →
  modeSubgraph E state None mode ms p os ss ds w =
    Throw (AssertionError
             (if isFLUXFill (model ms) then "Need manager to do FLUX Fill"
              else match mode with
                   | txt2img => ""
                   | img2img => "Need manager to do img2img"
                   | inpaint => "Need manager to do inpaint"
                   | outpaint => "Need manager to do outpaint"
                   end)).
Proof.
  intros H. rewrite modeSubgraph_unfold.
  destruct (isFLUXFill (model ms)); [by rewrite run_assertM|].
  destruct mode; try (by rewrite run_assertM). by destruct H.
Qed.

Lemma controlAdapters_completes state manager ms p w :
  Completes E → ∃ w', controlAdapters E state manager ms p w = Normal (tt, w').
Proof.
  intros Hc. open_world w. rewrite controlAdapters_unfold.
  destruct manager as [m|]; run_goal; [|eauto].
  complete_call (cp_controlNets E Hc). rewrite run_connectOrDelete. cbv beta.
  complete_call (cp_controlLoRA E Hc). destruct a0. eauto.
Qed.

Lemma referenceAdapters_completes state manager ms p w :
  Completes E → ∃ w', referenceAdapters E state manager ms p w = Normal (tt, w').
Proof.
  intros Hc. open_world w. rewrite referenceAdapters_unfold. run_goal.
  complete_call (cp_ipAdapters E Hc).
  complete_call (cp_reduxes E Hc).
  destruct manager as [m|].
  - rewrite run_bind_assoc. complete_call (cp_regions E Hc).
    rewrite run_connectOrDelete. cbv beta. rewrite connectOrDelete_run. eauto.
  - run_goal. rewrite run_connectOrDelete. cbv beta.
    rewrite connectOrDelete_run. eauto.
Qed.

Lemma postProcessing_completes state out w :
  Completes E → ∃ out' w', postProcessing E state out w = Normal (out', w').
Proof.
  intros Hc. open_world w. rewrite postProcessing_unfold.
  destruct (shouldUseNSFWChecker (system state)),
    (shouldUseWatermarker (system state)).
  - complete_call (cp_nsfw E Hc). complete_call (cp_watermark E Hc). eauto.
  - complete_call (cp_nsfw E Hc). eauto.
  - run_goal. complete_call (cp_watermark E Hc). eauto.
  - run_goal. eauto.
Qed.

(** Past the assertions and the FLUX Fill gate, and with a manager wherever
    the mode asks for one, the builder returns a graph as soon as the
    sub-builders do. *)
Lemma buildFLUXGraph_completes state manager mode ms gd :
  Completes E →
  getGenerationMode E manager (selectActiveTab state) = Normal mode →
  requireModels state = Normal ms →
  fillGuidance E (model ms) mode (guidance (selectParamsSlice state)) = Normal gd →
  (manager = None → isFLUXFill (model ms) = false ∧ mode = txt2img) →
  ∃ r calls, buildFLUXGraph E state manager = Normal (r, calls).
Proof.
  intros Hc Hmode Hms Hgd Hm.
  rewrite (buildFLUXGraph_assemble state manager mode ms gd Hmode Hms Hgd).
  rewrite assemble_unfold. destruct (getSizes E _) as [os ss].
  destruct (basePipeline_completes state ms gd os ss (initialWorld E)
              (cp_loras E Hc)) as (p & w1 & H1).
  rewrite (bindM_intro _ _ _ _ _ H1).
  destruct (modeSubgraph_completes state manager mode ms p os ss
              (denoisingStart E (selectParamsSlice state)) w1 Hc Hm)
    as (out & w2 & H2).
  rewrite (bindM_intro _ _ _ _ _ H2).
  destruct (controlAdapters_completes state manager ms p w2 Hc) as (w3 & H3).
  rewrite (bindM_intro _ _ _ _ _ H3).
  destruct (referenceAdapters_completes state manager ms p w3 Hc) as (w4 & H4).
  rewrite (bindM_intro _ _ _ _ _ H4).
  destruct (postProcessing_completes state out w4 Hc) as (out' & w5 & H5).
  rewrite (bindM_intro _ _ _ _ _ H5).
  rewrite finish_run. eauto.
Qed.

End Completion.

(** ** Preconditions and rejections *)

(** Membership in a list that is written out. *)
Ltac in_list := repeat first [apply list_elem_of_here | apply list_elem_of_further].

Section Preconditions.
Context {CanvasManager Entity : Type}.
Variable E : @Env CanvasManager Entity.
Implicit Types (state : @RootState Entity) (manager : option CanvasManager).
Implicit Types (ms : Models) (m : MainModelConfig).

Lemma requireModels_present state m a b c :
  selectMainModelConfig state = Some m → base m = "flux" →
  t5EncoderModel (selectParamsSlice state) = Some a →
  clipEmbedModel (selectParamsSlice state) = Some b →
  fluxVAE (selectParamsSlice state) = Some c →
  requireModels state =
    Normal {| model := m; md_t5EncoderModel := a; md_clipEmbedModel := b;
              md_fluxVAE := c |}.
Proof.
  intros Hm Hb Ha Hbb Hc. unfold requireModels.
  rewrite Hm, Ha, Hbb, Hc. cbn. rewrite Hb. reflexivity.
Qed.

Lemma requireModels_model state ms :
  requireModels state = Normal ms → selectMainModelConfig state = Some (model ms).
Proof.
  unfold requireModels.
  destruct (selectMainModelConfig state) as [m|]; [|discriminate]. cbn.
  destruct (String.eqb (base m) "flux"); [|discriminate]. cbn.
  destruct (t5EncoderModel _); [|discriminate]. cbn.
  destruct (clipEmbedModel _); [|discriminate]. cbn.
  destruct (fluxVAE _); [|discriminate]. cbn.
  by intros [= <-].
Qed.

Lemma fillGuidance_value m mode gd0 gd :
  fillGuidance E m mode gd0 = Normal gd →
  gd = (if isFLUXFill m then 30%float else gd0) ∧
  (isFLUXFill m = true → mode = inpaint ∨ mode = outpaint).
Proof.
  unfold fillGuidance. destruct (isFLUXFill m).
  - destruct mode; try discriminate; intros [= <-]; eauto.
  - intros [= <-]. split; [done|discriminate].
Qed.

(** C1.  With the FLUX Fill model (variant ['inpaint']) and generation mode
    txt2img or img2img the builder throws, so no graph reaches the caller;
    when the state passes the model assertions, what it throws is the
    [UnsupportedGenerationModeError] with the translated message.  The
    sub-builders are arbitrary: the rejection comes before any of them is
    called. *)
Theorem fluxFill_rejects_txt2img_img2img state manager mode m :
  getGenerationMode E manager (selectActiveTab state) = Normal mode →
  selectMainModelConfig state = Some m →
  variant m = "inpaint" →
  mode = txt2img ∨ mode = img2img →
  (∃ e, buildFLUXGraph E state manager = Throw e) ∧
  (base m = "flux" →
   is_Some (t5EncoderModel (selectParamsSlice state)) →
   is_Some (clipEmbedModel (selectParamsSlice state)) →
   is_Some (fluxVAE (selectParamsSlice state)) →
   buildFLUXGraph E state manager =
     Throw (UnsupportedGenerationModeError
              (t E "toast.fluxFillIncompatibleWithT2IAndI2I"))).
Proof.
  intros Hmode Hm Hv Ht.
  assert (Hgate : ∀ gd0,
            fillGuidance E m mode gd0 =
              Throw (UnsupportedGenerationModeError
                       (t E "toast.fluxFillIncompatibleWithT2IAndI2I"))).
  { intros gd0. unfold fillGuidance, isFLUXFill. rewrite Hv.
    by destruct Ht as [-> | ->]. }
  split.
  - destruct (requireModels state) as [ms|e] eqn:Hms.
    + apply requireModels_model in Hms as Hms'. rewrite Hm in Hms'.
      injection Hms' as Hms'. eexists.
      eapply buildFLUXGraph_throws_gate; [exact Hmode|exact Hms|].
      rewrite <- Hms'. apply Hgate.
    + eexists. by eapply buildFLUXGraph_throws_assertion.
  - intros Hb [a Ha] [b Hbb] [c Hc].
    pose proof (requireModels_present state m a b c Hm Hb Ha Hbb Hc) as Hms.
    eapply buildFLUXGraph_throws_gate; [exact Hmode|exact Hms|]. apply Hgate.
Qed.

(** C5.  Once the generation mode is known, a missing main model, T5
    encoder, CLIP embed model or FLUX VAE makes the builder throw one of the
    assertion errors of lines 67-71; when all four are there and the main
    model is a FLUX model, the assertions pass, and the builder returns a
    graph as soon as the mode suits the model, a manager is there where the
    mode asks for one and the sub-builders return. *)
Theorem models_are_required state manager mode :
  getGenerationMode E manager (selectActiveTab state) = Normal mode →
  (selectMainModelConfig state = None ∨
   t5EncoderModel (selectParamsSlice state) = None ∨
   clipEmbedModel (selectParamsSlice state) = None ∨
   fluxVAE (selectParamsSlice state) = None →
   ∃ msg, msg ∈ [ "No model found in state"; "Model is not a FLUX model";
                  "No T5 Encoder model found in state";
                  "No CLIP Embed model found in state";
                  "No FLUX VAE model found in state" ] ∧
          buildFLUXGraph E state manager = Throw (AssertionError msg)) ∧
  (∀ m a b c,
     selectMainModelConfig state = Some m → base m = "flux" →
     t5EncoderModel (selectParamsSlice state) = Some a →
     clipEmbedModel (selectParamsSlice state) = Some b →
     fluxVAE (selectParamsSlice state) = Some c →
     requireModels state =
       Normal {| model := m; md_t5EncoderModel := a; md_clipEmbedModel := b;
                 md_fluxVAE := c |} ∧
     (Completes E →
      (isFLUXFill m = true → mode = inpaint ∨ mode = outpaint) →
      (manager = None → isFLUXFill m = false ∧ mode = txt2img) →
      ∃ r calls, buildFLUXGraph E state manager = Normal (r, calls))).
Proof.
  intros Hmode. split.
  - intros Hmissing.
    assert (∃ msg,
      msg ∈ [ "No model found in state"; "Model is not a FLUX model";
              "No T5 Encoder model found in state";
              "No CLIP Embed model found in state";
              "No FLUX VAE model found in state" ] ∧
      requireModels state = Throw (AssertionError msg)) as (msg & Hin & Hms).
    { unfold requireModels.
      destruct (selectMainModelConfig state) as [m|]; cbn;
        [|eexists; split; [|reflexivity]; in_list].
      destruct (String.eqb (base m) "flux"); cbn;
        [|eexists; split; [|reflexivity]; in_list].
      destruct (t5EncoderModel _); cbn;
        [|eexists; split; [|reflexivity]; in_list].
      destruct (clipEmbedModel _); cbn;
        [|eexists; split; [|reflexivity]; in_list].
      destruct (fluxVAE _); cbn;
        [|eexists; split; [|reflexivity]; in_list].
      by destruct Hmissing as [?|[?|[?|?]]]. }
    exists msg. split; [done|].
    by apply (buildFLUXGraph_throws_assertion E state manager mode).
  - intros m a b c Hm Hb Ha Hbb Hc.
    pose proof (requireModels_present state m a b c Hm Hb Ha Hbb Hc) as Hms.
    split; [exact Hms|]. intros Hcomp Hfill Hmgr.
    eapply (buildFLUXGraph_completes E state manager mode _
              (if isFLUXFill m then 30%float else guidance (selectParamsSlice state)));
      [done|done|exact Hms| |done].
    cbn [model]. unfold fillGuidance. destruct (isFLUXFill m); [|done].
    by destruct (Hfill eq_refl) as [-> | ->].
Qed.

(** C6.  Without a manager, FLUX Fill and the modes img2img, inpaint and
    outpaint never yield a graph: the builder throws, and once the model
    assertions and the FLUX Fill gate are passed and [addFLUXLoRAs] has
    returned, what it throws is the ["Need manager"] assertion of the branch.
    Text-to-image with a model other than FLUX Fill returns a graph without
    a manager as soon as the sub-builders return. *)
Theorem manager_is_required state mode m :
  getGenerationMode E None (selectActiveTab state) = Normal mode →
  selectMainModelConfig state = Some m →
  (isFLUXFill m = true ∨ mode ≠ txt2img →
   (∃ e, buildFLUXGraph E state None = Throw e) ∧
   (∀ ms gd,
      requireModels state = Normal ms →
      fillGuidance E m mode (guidance (selectParamsSlice state)) = Normal gd →
      subCompletes (addFLUXLoRAs E) →
      buildFLUXGraph E state None =
        Throw (AssertionError
                 (if isFLUXFill m then "Need manager to do FLUX Fill"
                  else match mode with
                       | txt2img => ""
                       | img2img => "Need manager to do img2img"
                       | inpaint => "Need manager to do inpaint"
                       | outpaint => "Need manager to do outpaint"
                       end)))) ∧
  (isFLUXFill m = false → mode = txt2img →
   ∀ ms, requireModels state = Normal ms → Completes E →
   ∃ r calls, buildFLUXGraph E state None = Normal (r, calls)).
Proof.
  intros Hmode Hm. split.
  - intros Himg.
    assert (Hstop : ∀ ms gd,
      requireModels state = Normal ms →
      ∃ e, assemble E state None mode ms gd (initialWorld E) = Throw e ∧
           (subCompletes (addFLUXLoRAs E) →
              e = AssertionError
                    (if isFLUXFill m then "Need manager to do FLUX Fill"
                     else match mode with
                          | txt2img => ""
                          | img2img => "Need manager to do img2img"
                          | inpaint => "Need manager to do inpaint"
                          | outpaint => "Need manager to do outpaint"
                          end))).
    { intros ms gd Hms. apply requireModels_model in Hms. rewrite Hm in Hms.
      injection Hms as ->. rewrite assemble_unfold.
      destruct (getSizes E _) as [os ss].
      destruct (basePipeline E state ms gd os ss (initialWorld E))
        as [[p w1]|e] eqn:Hbase.
      - rewrite (bindM_intro _ _ _ _ _ Hbase).
        unfold mbind at 1, M_bind at 1.
        rewrite modeSubgraph_needs_manager by done. eauto.
      - unfold mbind at 1, M_bind at 1. rewrite Hbase. eexists. split; [done|].
        intros Hl.
        destruct (basePipeline_completes E state ms gd os ss (initialWorld E) Hl)
          as (p & w1 & Hbase').
        rewrite Hbase' in Hbase. discriminate Hbase. }
    split.
    + destruct (requireModels state) as [ms|e] eqn:Hms.
      2:{ rewrite (buildFLUXGraph_throws_assertion E state None mode e Hmode Hms).
          eauto. }
      destruct (fillGuidance E (model ms) mode (guidance (selectParamsSlice state)))
        as [gd|e] eqn:Hgd.
      2:{ rewrite (buildFLUXGraph_throws_gate E state None mode ms e Hmode Hms Hgd).
          eauto. }
      rewrite (buildFLUXGraph_assemble E state None mode ms gd Hmode Hms Hgd).
      destruct (Hstop ms gd eq_refl) as (e & -> & _). eauto.
    + intros ms gd Hms Hgd Hl.
      apply requireModels_model in Hms as Hms'. rewrite Hm in Hms'.
      injection Hms' as Hms'. rewrite Hms' in Hgd.
      rewrite (buildFLUXGraph_assemble E state None mode ms gd Hmode Hms Hgd).
      destruct (Hstop ms gd Hms) as (e & -> & He). by rewrite (He Hl).
  - intros Hfill -> ms Hms Hcomp.
    apply requireModels_model in Hms as Hms'. rewrite Hm in Hms'.
    injection Hms' as Hms'.
    eapply (buildFLUXGraph_completes E state None txt2img ms
              (guidance (selectParamsSlice state))); try done.
    + unfold fillGuidance. by rewrite <- Hms', Hfill.
    + by rewrite <- Hms'.
Qed.

End Preconditions.

(** ** The record of calls of a completed build *)

Section Calls.
Context {CanvasManager Entity : Type}.
Variable E : @Env CanvasManager Entity.
Implicit Types (state : @RootState Entity) (manager : option CanvasManager).
Implicit Types (w : @World CanvasManager Entity) (p : Pipeline) (ms : Models).
Implicit Types (c : @Call CanvasManager Entity).
Implicit Types (lN lW : list (@Call CanvasManager Entity)).

Lemma ModeStep_call state manager mode ms p os ss ds gr c out gr' :
  ModeStep E state manager mode ms p os ss ds gr c out gr' →
  isModeCall c = true ∧ modeOutput c = Some out ∧
  calledModeBuilder c = Some (dispatched (isFLUXFill (model ms)) mode) ∧
  (∀ d, passedDenoisingStart c = Some d → d = ds) ∧
  reportedIPAdapters c = 0 ∧ reportedFLUXReduxes c = 0.
Proof.
  destruct 1; subst; unfold dispatched;
    repeat match goal with H : isFLUXFill _ = _ |- _ => rewrite H; clear H end;
    cbn; repeat split; try done; by intros d [= <-].
Qed.

Lemma not_mode_call_no_start c :
  isModeCall c = false → passedDenoisingStart c = None.
Proof. by destruct c. Qed.

Lemma controlAdapters_calls state manager ms p w u w' :
  controlAdapters E state manager ms p w = Normal (u, w') →
  ∃ l, wcalls w' = (wcalls w ++ l)%list ∧ Forall silent l.
Proof.
  destruct manager as [m|]; intros H.
  - apply controlAdapters_Some in H as (res & g1 & g2 & _ & _ & ->). cbn.
    eexists [_; _]. split; [by rewrite <- app_assoc|].
    repeat constructor.
  - apply controlAdapters_None in H as ->. exists []. by rewrite app_nil_r.
Qed.

Lemma PostStep_calls (P : @Call CanvasManager Entity → Prop) (enabled : bool) f
    (mk : Node → Node → @Call CanvasManager Entity) input gr out gr' l :
  (∀ a b, P (mk a b)) →
  PostStep enabled f mk input gr out gr' l → Forall P l.
Proof.
  intros Hmk. unfold PostStep. destruct enabled.
  - intros [_ ->]. constructor; [apply Hmk|constructor].
  - intros (_ & _ & ->). constructor.
Qed.

Lemma filter_silent (l : list (@Call CanvasManager Entity)) :
  Forall silent l → List.filter isModeCall l = [].
Proof.
  induction 1 as [|c l [Hc _] _ IH]; [done|]. cbn. by rewrite Hc.
Qed.

Lemma Forall_silent_not_mode (l : list (@Call CanvasManager Entity)) :
  Forall (λ c, isModeCall c = false) l → List.filter isModeCall l = [].
Proof. induction 1 as [|c l Hc _ IH]; [done|]. cbn. by rewrite Hc. Qed.

Lemma referenceAdapters_calls state manager ms p w u w' :
  referenceAdapters E state manager ms p w = Normal (u, w') →
  ∃ l, wcalls w' = (wcalls w ++ l)%list ∧ Forall (λ c, isModeCall c = false) l.
Proof.
  intros H.
  apply referenceAdapters_inv in H
    as (resI & g1 & resR & g2 & l & g3 & _ & _ & Hl & ->). cbn.
  eexists (_ :: _ :: l). split; [by rewrite <- !app_assoc|].
  do 2 (constructor; [done|]).
  destruct manager as [m|].
  - destruct Hl as (rs & _ & ->). by repeat constructor.
  - destruct Hl as [_ ->]. constructor.
Qed.

(** After the mode dispatch no mode-specific sub-builder is called. *)
Lemma calls_after_mode state manager ms p w2 w3 w4 out mid gmid lN out' g5 lW :
  controlAdapters E state manager ms p w2 = Normal (tt, w3) →
  referenceAdapters E state manager ms p w3 = Normal (tt, w4) →
  PostStep (shouldUseNSFWChecker (system state)) (addNSFWChecker E) CAddNSFWChecker
    out (wgraph w4) mid gmid lN →
  PostStep (shouldUseWatermarker (system state)) (addWatermarker E) CAddWatermarker
    mid gmid out' g5 lW →
  ∃ l, ((wcalls w4 ++ lN) ++ lW)%list = (wcalls w2 ++ l)%list ∧
       Forall (λ c, isModeCall c = false) l.
Proof.
  intros Hctl Href HN HW.
  apply controlAdapters_calls in Hctl as (lc & Hc3 & Hlc).
  apply referenceAdapters_calls in Href as (lr & Hc4 & Hlr).
  apply (PostStep_calls silent) in HN; [|by intros].
  apply (PostStep_calls silent) in HW; [|by intros].
  exists (lc ++ lr ++ lN ++ lW)%list.
  split; [by rewrite Hc4, Hc3, <- !app_assoc|].
  rewrite !Forall_app. repeat split; [|done| |].
  all: eapply Forall_impl; [eassumption|]; by intros c [? _].
Qed.

(** C2.  In a build that returns, every mode-specific sub-builder that
    takes a [denoising_start] was passed [1 - img2imgStrength ** 0.2] when
    optimized denoising is on, and [1 - img2imgStrength] when it is off,
    whatever the strength; at strength 0.5 the two values are
    [1 - 0.5 ** 0.2] and [0.5]. *)
Theorem denoising_start_passed state manager r calls :
  buildFLUXGraph E state manager = Normal (r, calls) →
  (∀ c ds, c ∈ calls → passedDenoisingStart c = Some ds →
     ds = if optimizedDenoisingEnabled (selectParamsSlice state)
          then (1 - pow E (img2imgStrength (selectParamsSlice state)) 0.2)%float
          else (1 - img2imgStrength (selectParamsSlice state))%float) ∧
  (img2imgStrength (selectParamsSlice state) = 0.5%float →
   denoisingStart E (selectParamsSlice state) =
     if optimizedDenoisingEnabled (selectParamsSlice state)
     then (1 - pow E 0.5 0.2)%float else 0.5%float).
Proof.
  intros H. split.
  - apply buildFLUXGraph_run in H.
    destruct H as [mode ms gd os ss p gL c0 out gM w2 w3 w4 mid gmid lN lW out' g5
                   _ _ _ _ _ _ Hstep -> Hctl Href HN HW _ ->].
    destruct (calls_after_mode _ _ _ _ _ _ _ _ _ _ _ _ _ _ Hctl Href HN HW)
      as (l & -> & Hl).
    apply ModeStep_call in Hstep as (_ & _ & _ & Hds & _).
    intros c ds Hc Hpass. cbn in Hc.
    apply elem_of_cons in Hc as [-> | Hc]; [discriminate|].
    apply elem_of_cons in Hc as [-> | Hc]; [by apply Hds|].
    rewrite Forall_forall in Hl.
    rewrite (not_mode_call_no_start c) in Hpass; [discriminate|by apply Hl].
  - intros Hs. unfold denoisingStart. rewrite Hs.
    by destruct (optimizedDenoisingEnabled _).
Qed.

(** C8, as the builder has it.  In a build that returns, exactly one call of
    a mode-specific sub-builder was made, namely of the one the model and
    the generation mode select; when neither post-processor is enabled, the
    node it returned is the metadata receiver of the graph. *)
Theorem one_mode_builder_runs state manager r calls m mode :
  buildFLUXGraph E state manager = Normal (r, calls) →
  selectMainModelConfig state = Some m →
  getGenerationMode E manager (selectActiveTab state) = Normal mode →
  ∃ c out,
    List.filter isModeCall calls = [c] ∧
    calledModeBuilder c = Some (dispatched (isFLUXFill m) mode) ∧
    modeOutput c = Some out ∧
    (shouldUseNSFWChecker (system state) = false →
     shouldUseWatermarker (system state) = false →
     metadataReceiver (g r) = Some (node_id out)).
Proof.
  intros H Hm Hmode. apply buildFLUXGraph_run in H.
  destruct H as [mode' ms gd os ss p gL c out gM w2 w3 w4 mid gmid lN lW out' g5
                 Hmode' Hms _ _ _ _ Hstep -> Hctl Href HN HW -> ->].
  rewrite Hmode in Hmode'. injection Hmode' as <-.
  apply requireModels_model in Hms. rewrite Hm in Hms. injection Hms as ->.
  destruct (calls_after_mode _ _ _ _ _ _ _ _ _ _ _ _ _ _ Hctl Href HN HW)
    as (l & -> & Hl).
  apply ModeStep_call in Hstep as (Hc & Hout & Hb & _).
  exists c, out. repeat split; try done.
  - cbn. rewrite Hc. by rewrite (Forall_silent_not_mode l Hl).
  - intros HfN HfW. unfold PostStep in HN, HW. rewrite HfN in HN. rewrite HfW in HW.
    destruct HN as (-> & _ & _), HW as (-> & _ & _). reflexivity.
Qed.

(** C9.  In a build that returns, the safety checker (when enabled) takes
    the node of the mode-specific sub-builder and the watermarker (when
    enabled) takes what is the output by then; the node that comes out last
    is the metadata receiver and the only node the builder patches with the
    output fields: every other node, the mode-specific output included once
    a post-processor has taken over, is as the post-processors left it.
    With both toggles off the last node is the mode-specific output. *)
Theorem post_processing_moves_the_output state manager r calls :
  buildFLUXGraph E state manager = Normal (r, calls) →
  ∃ c out gr4 mid gmid lN out' g5 lW,
    List.filter isModeCall calls = [c] ∧ modeOutput c = Some out ∧
    PostStep (shouldUseNSFWChecker (system state)) (addNSFWChecker E) CAddNSFWChecker
      out gr4 mid gmid lN ∧
    PostStep (shouldUseWatermarker (system state)) (addWatermarker E) CAddWatermarker
      mid gmid out' g5 lW ∧
    metadataReceiver (g r) = Some (node_id out') ∧
    nodes (g r) !! node_id out'
      = patchNode (selectCanvasOutputFields state) <$> nodes g5 !! node_id out' ∧
    (∀ i, i ≠ node_id out' → nodes (g r) !! i = nodes g5 !! i) ∧
    (shouldUseNSFWChecker (system state) = false →
     shouldUseWatermarker (system state) = false → out' = out ∧ g5 = gr4).
Proof.
  intros H. apply buildFLUXGraph_run in H.
  destruct H as [mode' ms gd os ss p gL c out gM w2 w3 w4 mid gmid lN lW out' g5
                 _ _ _ _ _ _ Hstep -> Hctl Href HN HW -> ->].
  destruct (calls_after_mode _ _ _ _ _ _ _ _ _ _ _ _ _ _ Hctl Href HN HW)
    as (l & -> & Hl).
  apply ModeStep_call in Hstep as (Hc & Hout & _).
  exists c, out, (wgraph w4), mid, gmid, lN, out', g5, lW.
  split; [cbn; rewrite Hc; by rewrite (Forall_silent_not_mode l Hl)|].
  do 4 (split; [done|]).
  split; [cbn; by rewrite lookup_alter_eq|].
  split; [intros i Hi; cbn; by rewrite lookup_alter_ne|].
  - intros HfN HfW. unfold PostStep in HN, HW. rewrite HfN in HN. rewrite HfW in HW.
    by destruct HN as (-> & -> & _), HW as (-> & -> & _).
Qed.

End Calls.

(** ** Frames: what the steps after the mode dispatch leave alone *)

Section Frames.
Context {CanvasManager Entity : Type}.
Variable E : @Env CanvasManager Entity.
Implicit Types (state : @RootState Entity) (manager : option CanvasManager).
Implicit Types (w : @World CanvasManager Entity) (p : Pipeline) (ms : Models).
Implicit Types (R : Graph → Graph → Prop) (ids : list string).
Implicit Types (lN lW : list (@Call CanvasManager Entity)).

Lemma Respects_impl R R' :
  (∀ a b, R a b → R' a b) → Respects E R → Respects E R'.
Proof.
  intros Himp [H1 H2 H3 H4 H5 H6 H7 H8 H9 H10 H11 H12 H13].
  split; intros arg gr a gr' Heq; apply Himp; eauto.
Qed.

Lemma ModeStep_frame R state manager mode ms p os ss ds gr c out gr' :
  Respects E R →
  ModeStep E state manager mode ms p os ss ds gr c out gr' → R gr gr'.
Proof.
  intros HR. destruct 1.
  - by eapply (rs_fill E R HR).
  - by eapply (rs_txt2img E R HR).
  - by eapply (rs_img2img E R HR).
  - by eapply (rs_inpaint E R HR).
  - by eapply (rs_outpaint E R HR).
Qed.

Lemma PostStep_frame R (enabled : bool) f
    (mk : Node → Node → @Call CanvasManager Entity) input gr out gr' l :
  (∀ a, R a a) → subRespects f R →
  PostStep enabled f mk input gr out gr' l → R gr gr'.
Proof.
  intros Hrefl Hf. unfold PostStep. destruct enabled.
  - intros [Hcall _]. by eapply Hf.
  - by intros (_ & -> & _).
Qed.

Section WithFrame.
Variables (R : Graph → Graph → Prop) (ids : list string).
Hypothesis HF : Frame E R ids.

Lemma connectedOrDeleted_frame added (c : Node) p port gr :
  node_id c ∈ ids → R gr (connectedOrDeleted added c p port gr).
Proof.
  intros Hc. unfold connectedOrDeleted. destruct (0 <? added).
  - apply (fr_addEdge E R ids HF).
  - by apply (fr_deleteNode E R ids HF).
Qed.

Lemma controlAdapters_frame state manager ms p w u w' :
  controlAdapters E state manager ms p w = Normal (u, w') →
  (is_Some manager → prefixedId E "control_net_collector" (wdraws w) ∈ ids) →
  R (wgraph w) (wgraph w') ∧
  wdraws w' = match manager with Some _ => S (wdraws w) | None => wdraws w end.
Proof.
  intros H Hid. destruct manager as [m|].
  - apply controlAdapters_Some in H as (res & g1 & g2 & H1 & H2 & ->). cbn.
    split; [|done]. specialize (Hid (ltac:(eauto))).
    eapply (fr_trans E R ids HF); [exact (fr_addNode E R ids HF _ _ Hid)|].
    eapply (fr_trans E R ids HF);
      [exact (rs_controlNets E R (fr_calls E R ids HF) _ _ _ _ H1)|].
    eapply (fr_trans E R ids HF);
      [|exact (rs_controlLoRA E R (fr_calls E R ids HF) _ _ _ _ H2)].
    apply connectedOrDeleted_frame; exact Hid.
  - apply controlAdapters_None in H as ->. split; [|done].
    apply (fr_refl E R ids HF).
Qed.

Lemma referenceAdapters_frame state manager ms p w u w' :
  referenceAdapters E state manager ms p w = Normal (u, w') →
  prefixedId E "ip_adapter_collector" (wdraws w) ∈ ids →
  prefixedId E "ip_adapter_collector" (S (wdraws w)) ∈ ids →
  R (wgraph w) (wgraph w').
Proof.
  intros H Hip Hrx.
  apply referenceAdapters_inv in H
    as (resI & g1 & resR & g2 & l & g3 & H1 & H2 & Hl & ->). cbn.
  eapply (fr_trans E R ids HF); [exact (fr_addNode E R ids HF _ _ Hip)|].
  eapply (fr_trans E R ids HF);
    [exact (rs_ipAdapters E R (fr_calls E R ids HF) _ _ _ _ H1)|].
  eapply (fr_trans E R ids HF); [exact (fr_addNode E R ids HF _ _ Hrx)|].
  eapply (fr_trans E R ids HF);
    [exact (rs_reduxes E R (fr_calls E R ids HF) _ _ _ _ H2)|].
  eapply (fr_trans E R ids HF) with g3.
  { destruct manager as [m|].
    - destruct Hl as (rs & Hrs & _).
      exact (rs_regions E R (fr_calls E R ids HF) _ _ _ _ Hrs).
    - destruct Hl as [-> _]. apply (fr_refl E R ids HF). }
  eapply (fr_trans E R ids HF); [|apply connectedOrDeleted_frame; exact Hrx].
  apply connectedOrDeleted_frame; exact Hip.
Qed.

(** From the end of the mode dispatch to the end of post-processing. *)
Lemma adapters_and_post_frame state manager ms p w2 w3 w4 out mid gmid lN out' g5 lW :
  wdraws w2 = 6%nat →
  (∀ i, i ∈ collectorIds E manager → i ∈ ids) →
  controlAdapters E state manager ms p w2 = Normal (tt, w3) →
  referenceAdapters E state manager ms p w3 = Normal (tt, w4) →
  PostStep (shouldUseNSFWChecker (system state)) (addNSFWChecker E) CAddNSFWChecker
    out (wgraph w4) mid gmid lN →
  PostStep (shouldUseWatermarker (system state)) (addWatermarker E) CAddWatermarker
    mid gmid out' g5 lW →
  R (wgraph w2) g5.
Proof.
  intros Hd Hids Hctl Href HN HW.
  apply controlAdapters_frame in Hctl as [Hctl Hd3].
  2:{ rewrite Hd. intros [m ->]. apply Hids. cbn. set_solver. }
  apply referenceAdapters_frame in Href.
  2,3: rewrite Hd3, Hd; apply Hids; destruct manager; cbn; set_solver.
  eapply (fr_trans E R ids HF); [exact Hctl|].
  eapply (fr_trans E R ids HF); [exact Href|].
  eapply (fr_trans E R ids HF).
  - eapply PostStep_frame; [apply (fr_refl E R ids HF)| |exact HN].
    apply (rs_nsfw E R (fr_calls E R ids HF)).
  - eapply PostStep_frame; [apply (fr_refl E R ids HF)| |exact HW].
    apply (rs_watermark E R (fr_calls E R ids HF)).
Qed.

End WithFrame.

(** A relation on the metadata alone is a frame. *)
Lemma Frame_metadata (R' : gmap string Value → gmap string Value → Prop) ids :
  (∀ a, R' a a) → (∀ a b c, R' a b → R' b c → R' a c) →
  Respects E (λ gr gr', R' (metadata gr) (metadata gr')) →
  Frame E (λ gr gr', R' (metadata gr) (metadata gr')) ids.
Proof. intros Hrefl Htrans HR. split; eauto. Qed.

Lemma Frame_keysKept ids : Respects E keysKept → Frame E keysKept ids.
Proof.
  intros HR. apply (Frame_metadata (λ a b, dom a ⊆ dom b)); [done| |done].
  intros a b c. set_solver.
Qed.

Lemma Frame_keyUntouched k ids :
  Respects E (keyUntouched k) → Frame E (keyUntouched k) ids.
Proof.
  intros HR. apply (Frame_metadata (λ a b, b !! k = a !! k)); [done| |done].
  intros a b c Hab Hbc. by rewrite Hbc.
Qed.

Lemma Frame_metadataUntouched ids :
  Respects E metadataUntouched → Frame E metadataUntouched ids.
Proof.
  intros HR. apply (Frame_metadata (λ a b, b = a)); [done| |done].
  by intros a b c -> ->.
Qed.


Lemma Frame_edge e ids :
  (∀ i, i ∈ ids → incident i e = false) →
  Respects E (edgeKept e) → Frame E (edgeKept e) ids.
Proof.
  intros Hinc HR. split.
  - intros gr He. exact He.
  - intros a b c Hab Hbc Ha. by apply Hbc, Hab.
  - exact HR.
  - intros i gr Hi He. exact He.
  - intros src sf dst df gr He. cbn. apply elem_of_app. by left.
  - intros i gr Hi He. cbn. apply list_elem_of_In, filter_In. split.
    + by apply list_elem_of_In.
    + by rewrite (Hinc i Hi).
Qed.

Lemma Frame_field i k ids :
  i ∉ ids → Respects E (fieldUntouched i k) → Frame E (fieldUntouched i k) ids.
Proof.
  intros Hi HR. split.
  - intros gr. reflexivity.
  - intros a b c Hab Hbc. unfold fieldUntouched in *. by rewrite Hbc.
  - exact HR.
  - intros j gr Hj. unfold fieldUntouched, nodeField. cbn.
    rewrite lookup_insert_ne; [done|]. by intros ->.
  - intros src sf dst df gr. reflexivity.
  - intros j gr Hj. unfold fieldUntouched, nodeField. cbn.
    rewrite lookup_delete_ne; [done|]. by intros ->.
Qed.

End Frames.

(** ** The graph of a completed build *)

Section Graphs.
Context {CanvasManager Entity : Type}.
Variable E : @Env CanvasManager Entity.
Implicit Types (state : @RootState Entity) (manager : option CanvasManager).
Implicit Types (p : Pipeline) (ms : Models) (gr : Graph).

(** The graphs a completed build went through, and how any frame relates
    them: [gL] after the LoRAs, [gM] after the mode-specific sub-builder,
    [g5] after the last post-processor. *)
Lemma Run_frames state manager r calls :
  Run E state manager r calls →
  ∃ mode ms gd os ss gL gM g5 out',
    getGenerationMode E manager (selectActiveTab state) = Normal mode ∧
    requireModels state = Normal ms ∧
    fillGuidance E (model ms) mode (guidance (selectParamsSlice state)) = Normal gd ∧
    getSizes E (bbox (selectCanvasSlice state)) = (os, ss) ∧
    g r = finishedGraph state out' g5 ∧
    nodeId (seedFieldIdentifier r) = prefixedId E "flux_denoise" 4 ∧
    ∀ R ids, Frame E R ids → (∀ i, i ∈ collectorIds E manager → i ∈ ids) →
      R (baseGraph (basePipelineNodes E state ms gd ss 1)
           (newGraph (prefixedId E "flux_graph" 0))) gL ∧
      R (upsertMetadata (initialMetadata E state ms gd os) gL) gM ∧
      R (upsertMetadata (modeMetadata (isFLUXFill (model ms)) mode) gM) g5.
Proof.
  intros [mode ms gd os ss p gL c out gM w2 w3 w4 mid gmid lN lW out' g5
          Hmode Hms Hgd Hsz -> HL Hstep -> Hctl Href HN HW -> _].
  exists mode, ms, gd, os, ss, gL, gM, g5, out'.
  do 6 (split; [done|]).
  intros R ids HF Hids. split; [|split].
  - exact (rs_loras E R (fr_calls E R ids HF) _ _ _ _ HL).
  - exact (ModeStep_frame E R _ _ _ _ _ _ _ _ _ _ _ _ (fr_calls E R ids HF) Hstep).
  - match type of Hctl with
    | _ ?w2 = _ =>
        exact (adapters_and_post_frame E R ids HF _ _ _ _ w2 _ _ _ _ _ _ _ _ _
                 eq_refl Hids Hctl Href HN HW)
    end.
Qed.

Lemma metadata_finishedGraph state out gr :
  metadata (finishedGraph state out gr) = selectCanvasMetadata state ∪ metadata gr.
Proof. reflexivity. Qed.

Lemma metadata_baseGraph p i : metadata (baseGraph p (newGraph i)) = ∅.
Proof. reflexivity. Qed.

Lemma initialMetadata_guidance state ms gd os :
  initialMetadata E state ms gd os !! "guidance" = Some (VNum gd).
Proof. reflexivity. Qed.

Lemma initialMetadata_generation_mode state ms gd os :
  initialMetadata E state ms gd os !! "generation_mode" = None.
Proof. reflexivity. Qed.

(** The metadata of a completed build under one key, when no sub-builder
    touches that key: the last contribution that has the key decides. *)
Lemma Run_metadata_key state manager r calls mode ms gd k :
  Run E state manager r calls →
  getGenerationMode E manager (selectActiveTab state) = Normal mode →
  requireModels state = Normal ms →
  fillGuidance E (model ms) mode (guidance (selectParamsSlice state)) = Normal gd →
  Respects E (keyUntouched k) →
  metadata (g r) !! k =
    (selectCanvasMetadata state ∪
       (modeMetadata (isFLUXFill (model ms)) mode ∪
          initialMetadata E state ms gd
            (getSizes E (bbox (selectCanvasSlice state))).1)) !! k.
Proof.
  intros Hrun Hmode Hms Hgd HR.
  destruct (Run_frames _ _ _ _ Hrun)
    as (mode' & ms' & gd' & os & ss & gL & gM & g5 & out' & Hmode' & Hms' & Hgd'
        & Hsz & Hg & _ & Hfr).
  rewrite Hmode in Hmode'. injection Hmode' as <-.
  rewrite Hms in Hms'. injection Hms' as <-.
  rewrite Hgd in Hgd'. injection Hgd' as <-.
  rewrite Hsz. cbn [fst].
  destruct (Hfr _ (collectorIds E manager)
              (Frame_keyUntouched E k _ HR) (λ i Hi, Hi)) as (HL & HM & H5).
  unfold keyUntouched in HL, HM, H5.
  rewrite Hg, metadata_finishedGraph.
  rewrite !lookup_union. rewrite H5. cbn [metadata upsertMetadata].
  rewrite lookup_union, HM. cbn [metadata upsertMetadata].
  rewrite lookup_union, HL, metadata_baseGraph, lookup_empty.
  by destruct (initialMetadata E state ms gd os !! k).
Qed.

(** C4.  The metadata of the graph a build returns holds whatever the last
    merge (the canvas metadata) contributes; as long as no sub-builder drops
    a key, it has every key of the three merges the builder makes (the
    parameters, the generation mode, the canvas metadata); and when the
    sub-builders leave the metadata alone, it is exactly the union of the
    three, a later merge winning over an earlier one. *)
Theorem metadata_accumulates state manager r calls mode ms gd :
  buildFLUXGraph E state manager = Normal (r, calls) →
  getGenerationMode E manager (selectActiveTab state) = Normal mode →
  requireModels state = Normal ms →
  fillGuidance E (model ms) mode (guidance (selectParamsSlice state)) = Normal gd →
  let first := initialMetadata E state ms gd
                 (getSizes E (bbox (selectCanvasSlice state))).1 in
  let second := modeMetadata (isFLUXFill (model ms)) mode in
  let last := selectCanvasMetadata state in
  (∀ k v, last !! k = Some v → metadata (g r) !! k = Some v) ∧
  (Respects E keysKept →
   dom first ∪ dom second ∪ dom last ⊆ dom (metadata (g r))) ∧
  (Respects E metadataUntouched → metadata (g r) = last ∪ (second ∪ first)).
Proof.
  intros Hbuild Hmode Hms Hgd first second last.
  apply buildFLUXGraph_run in Hbuild.
  destruct (Run_frames _ _ _ _ Hbuild)
    as (mode' & ms' & gd' & os & ss & gL & gM & g5 & out' & Hmode' & Hms' & Hgd'
        & Hsz & Hg & _ & Hfr).
  rewrite Hmode in Hmode'. injection Hmode' as <-.
  rewrite Hms in Hms'. injection Hms' as <-.
  rewrite Hgd in Hgd'. injection Hgd' as <-.
  subst first second last. rewrite Hsz. cbn [fst].
  rewrite Hg, metadata_finishedGraph. split; [|split].
  - intros k v Hk. by apply lookup_union_Some_l.
  - intros HR.
    destruct (Hfr _ (collectorIds E manager)
                (Frame_keysKept E _ HR) (λ i Hi, Hi)) as (_ & HM & H5).
    unfold keysKept in HM, H5. cbn [metadata upsertMetadata] in HM, H5.
    rewrite dom_union_L in HM, H5. rewrite dom_union_L. clear -HM H5.
    intros k Hk. rewrite !elem_of_union in Hk. rewrite elem_of_union.
    destruct Hk as [[Hk|Hk]|Hk]; [right|right|by left].
    + apply H5, elem_of_union. right. apply HM, elem_of_union. by left.
    + apply H5, elem_of_union. by left.
  - intros HR.
    destruct (Hfr _ (collectorIds E manager)
                (Frame_metadataUntouched E _ HR) (λ i Hi, Hi)) as (HL & HM & H5).
    unfold metadataUntouched in HL, HM, H5.
    cbn [metadata upsertMetadata] in HM, H5.
    rewrite H5, HM, HL, metadata_baseGraph. by rewrite (right_id_L ∅ (∪)).
Qed.

(** C10.  When no sub-builder touches the key ['generation_mode'] and the
    canvas metadata does not have it, the graph a build returns carries
    ['flux_txt2img'], ['flux_img2img'], ['flux_inpaint'] or
    ['flux_outpaint'] under that key according to the mode, and nothing
    under that key when the model is FLUX Fill. *)
Theorem generation_mode_metadata state manager r calls m mode :
  buildFLUXGraph E state manager = Normal (r, calls) →
  selectMainModelConfig state = Some m →
  getGenerationMode E manager (selectActiveTab state) = Normal mode →
  Respects E (keyUntouched "generation_mode") →
  selectCanvasMetadata state !! "generation_mode" = None →
  metadata (g r) !! "generation_mode" =
    if isFLUXFill m then None
    else Some (VStr match mode with
                    | txt2img => "flux_txt2img"
                    | img2img => "flux_img2img"
                    | inpaint => "flux_inpaint"
                    | outpaint => "flux_outpaint"
                    end).
Proof.
  intros Hbuild Hm Hmode HR Hlast.
  apply buildFLUXGraph_run in Hbuild. pose proof Hbuild as Hrun.
  destruct Hbuild as [mode' ms gd _ _ _ _ _ _ _ _ _ _ _ _ _ _ _ _
                      Hmode' Hms Hgd _ _ _ _ _ _ _ _ _ _ _].
  rewrite Hmode in Hmode'. injection Hmode' as <-.
  rewrite (Run_metadata_key _ _ _ _ _ _ _ _ Hrun Hmode Hms Hgd HR).
  apply requireModels_model in Hms. rewrite Hm in Hms. injection Hms as ->.
  rewrite lookup_union_r by done.
  unfold modeMetadata. destruct (isFLUXFill (model ms)).
  - rewrite (left_id_L ∅ (∪)). apply initialMetadata_generation_mode.
  - by destruct mode.
Qed.

Lemma nodeField_upsertMetadata i k md gr :
  nodeField i k (upsertMetadata md gr) = nodeField i k gr.
Proof. reflexivity. Qed.

Lemma nodeField_finishedGraph i k state out gr :
  selectCanvasOutputFields state !! k = None →
  nodeField i k (finishedGraph state out gr) = nodeField i k gr.
Proof.
  intros Hk. unfold nodeField. cbn.
  destruct (decide (node_id out = i)) as [Heq|Hne].
  - rewrite Heq, lookup_alter_eq.
    destruct (nodes gr !! i) as [n|]; [|reflexivity].
    cbn. by rewrite lookup_union_r.
  - by rewrite lookup_alter_ne.
Qed.

(** What the distinctness of the drawn identifiers gives. *)
Lemma nodeIds_denoise manager :
  NoDup (nodeIds E manager) →
  prefixedId E "flux_vae_decode" 5 ≠ prefixedId E "flux_denoise" 4 ∧
  prefixedId E "flux_denoise" 4 ∉ collectorIds E manager.
Proof.
  unfold nodeIds, pipelineIds. cbn [app]. intros Hnd.
  do 3 apply NoDup_cons in Hnd as [_ Hnd].
  apply NoDup_cons in Hnd as [H4 Hnd].
  rewrite not_elem_of_cons in H4. destruct H4 as [H45 H4].
  split; [by apply not_eq_sym|exact H4].
Qed.

Lemma nodeField_baseGraph state ms gd ss i :
  prefixedId E "flux_vae_decode" 5 ≠ prefixedId E "flux_denoise" 4 →
  nodeField (prefixedId E "flux_denoise" 4) "guidance"
    (baseGraph (basePipelineNodes E state ms gd ss 1) (newGraph i))
  = Some (VNum gd).
Proof.
  intros Hne. unfold nodeField, baseGraph, basePipelineNodes.
  cbn [nodes addEdge addNode node_id modelLoader posCond posCondCollect denoise l2i
       fluxVaeDecodeNode fluxDenoiseNode].
  rewrite lookup_insert_ne by done. rewrite lookup_insert_eq. reflexivity.
Qed.

(** C7.  In the graph a build returns, the guidance recorded in the
    metadata and the guidance of the denoise node (the node the seed
    identifier points to) are 30 when the model is FLUX Fill, and the
    guidance of the parameters otherwise; this as long as no sub-builder
    touches the metadata key, respectively the field of the node, and the
    later merges of the builder do not carry a guidance of their own. *)
Theorem fill_guidance_is_fixed state manager r calls m :
  buildFLUXGraph E state manager = Normal (r, calls) →
  selectMainModelConfig state = Some m →
  let gd := if isFLUXFill m then 30%float else guidance (selectParamsSlice state) in
  let d := prefixedId E "flux_denoise" 4 in
  nodeId (seedFieldIdentifier r) = d ∧
  (Respects E (keyUntouched "guidance") →
   selectCanvasMetadata state !! "guidance" = None →
   metadata (g r) !! "guidance" = Some (VNum gd)) ∧
  (NoDup (nodeIds E manager) →
   Respects E (fieldUntouched d "guidance") →
   selectCanvasOutputFields state !! "guidance" = None →
   nodeField d "guidance" (g r) = Some (VNum gd)).
Proof.
  intros Hbuild Hm gd d. apply buildFLUXGraph_run in Hbuild.
  destruct (Run_frames _ _ _ _ Hbuild)
    as (mode & ms & gd' & os & ss & gL & gM & g5 & out' & Hmode & Hms & Hgd
        & Hsz & Hg & Hd & Hfr).
  apply requireModels_model in Hms as Hms'. rewrite Hm in Hms'.
  injection Hms' as Hms'.
  apply fillGuidance_value in Hgd as Hgd'. destruct Hgd' as [Hgd' _].
  rewrite <- Hms' in Hgd'. fold gd in Hgd'. subst gd'.
  split; [exact Hd|]. split.
  - intros HR Hlast.
    rewrite (Run_metadata_key _ _ _ _ _ _ _ _ Hbuild Hmode Hms Hgd HR).
    rewrite lookup_union_r by done.
    rewrite lookup_union_r; [apply initialMetadata_guidance|].
    unfold modeMetadata. destruct (isFLUXFill (model ms)); [done|by destruct mode].
  - intros Hnd HR Hout.
    destruct (nodeIds_denoise manager Hnd) as [H45 Hcoll].
    destruct (Hfr _ (collectorIds E manager)
                (Frame_field E d "guidance" _ Hcoll HR) (λ i Hi, Hi))
      as (HL & HM & H5).
    unfold fieldUntouched in HL, HM, H5.
    rewrite Hg, nodeField_finishedGraph by done.
    rewrite H5, nodeField_upsertMetadata, HM, nodeField_upsertMetadata, HL.
    by apply nodeField_baseGraph.
Qed.

End Graphs.

(** ** Collectors *)

Section Collectors.
Context {CanvasManager Entity : Type}.
Variable E : @Env CanvasManager Entity.
Implicit Types (state : @RootState Entity) (manager : option CanvasManager).
Implicit Types (p : Pipeline) (ms : Models) (gr : Graph).
Implicit Types (w : @World CanvasManager Entity) (c : @Call CanvasManager Entity).
Implicit Types (l lN lW : list (@Call CanvasManager Entity)).






Lemma post_frame (R : Graph → Graph → Prop) state out g4 mid gmid lN out' g5 lW :
  (∀ x, R x x) → (∀ x y z, R x y → R y z → R x z) → Respects E R →
  PostStep (shouldUseNSFWChecker (system state)) (addNSFWChecker E) CAddNSFWChecker
    out g4 mid gmid lN →
  PostStep (shouldUseWatermarker (system state)) (addWatermarker E) CAddWatermarker
    mid gmid out' g5 lW →
  R g4 g5.
Proof.
  intros Hrefl Htrans HR HN HW. apply (Htrans _ gmid).
  - eapply PostStep_frame; [exact Hrefl|exact (rs_nsfw E R HR)|exact HN].
  - eapply PostStep_frame; [exact Hrefl|exact (rs_watermark E R HR)|exact HW].
Qed.















End Collectors.

(** * The builder at work *)

(** ** The stand-in sub-builders keep the frames *)

Section DemoFrames.
Variable mode : GenerationMode.

Lemma Demo_completes : Completes (Demo.env mode).
Proof. split; intros arg gr; cbn; unfold Demo.adds, Demo.chains; eauto. Qed.

Lemma Demo_respects (R : Graph → Graph → Prop) :
  (∀ gr, R gr gr) →
  (∀ i ty gr, i ∈ Demo.ownIds → R gr (addNode (Demo.node i ty) gr)) →
  (∀ i ty input gr, i ∈ Demo.ownIds →
     R gr (addEdge input "image" (Demo.node i ty) "image"
             (addNode (Demo.node i ty) gr))) →
  Respects (Demo.env mode) R.
Proof.
  intros Hrefl Hadd Hchain.
  split; intros arg gr a gr' Heq; cbn in Heq; unfold Demo.adds, Demo.chains in Heq;
    injection Heq as <- <-; first [apply Hrefl | apply Hadd | apply Hchain];
    unfold Demo.ownIds; in_list.
Qed.

Lemma Demo_respects_metadata (R' : gmap string Value → gmap string Value → Prop) :
  (∀ a, R' a a) → Respects (Demo.env mode) (λ gr gr', R' (metadata gr) (metadata gr')).
Proof. intros Hrefl. apply Demo_respects; intros; apply Hrefl. Qed.

Lemma Demo_keysKept : Respects (Demo.env mode) keysKept.
Proof. by apply (Demo_respects_metadata (λ a b, dom a ⊆ dom b)). Qed.

Lemma Demo_metadataUntouched : Respects (Demo.env mode) metadataUntouched.
Proof. by apply (Demo_respects_metadata (λ a b, b = a)). Qed.

Lemma Demo_keyUntouched k : Respects (Demo.env mode) (keyUntouched k).
Proof. by apply (Demo_respects_metadata (λ a b, b !! k = a !! k)). Qed.

Lemma Demo_fieldUntouched i k :
  i ∉ Demo.ownIds → Respects (Demo.env mode) (fieldUntouched i k).
Proof.
  intros Hi. apply Demo_respects.
  - reflexivity.
  - intros j ty gr Hj. unfold fieldUntouched, nodeField. cbn.
    rewrite lookup_insert_ne; [done|]. by intros ->.
  - intros j ty input gr Hj. unfold fieldUntouched, nodeField. cbn.
    rewrite lookup_insert_ne; [done|]. by intros ->.
Qed.



End DemoFrames.

(** ** The four builds *)

Lemma returns_spec c :
  Demo.returns c = true → c = Normal (Demo.returned c, Demo.called c).
Proof. destruct c as [[r calls]|e]; [reflexivity|discriminate]. Defined.

Lemma txt2imgRun_returns :
  Demo.txt2imgRun = Normal (Demo.returned Demo.txt2imgRun, Demo.called Demo.txt2imgRun).
Proof. apply returns_spec. vm_compute. reflexivity. Defined.

Lemma img2imgRun_returns :
  Demo.img2imgRun = Normal (Demo.returned Demo.img2imgRun, Demo.called Demo.img2imgRun).
Proof. apply returns_spec. vm_compute. reflexivity. Defined.

Lemma fillRun_returns :
  Demo.fillRun = Normal (Demo.returned Demo.fillRun, Demo.called Demo.fillRun).
Proof. apply returns_spec. vm_compute. reflexivity. Defined.

Lemma plainRun_returns :
  Demo.plainRun = Normal (Demo.returned Demo.plainRun, Demo.called Demo.plainRun).
Proof. apply returns_spec. vm_compute. reflexivity. Defined.

(** A closed decidable proposition, by evaluation. *)
Ltac evaluate := apply (bool_decide_unpack _); vm_compute; exact I.

Lemma Demo_nodeIds_distinct mode (manager : option unit) :
  NoDup (nodeIds (Demo.env mode) manager).
Proof. destruct manager as [[]|]; evaluate. Defined.


Lemma Demo_denoise_apart mode :
  prefixedId (Demo.env mode) "flux_denoise" 4 ∉ Demo.ownIds.
Proof. evaluate. Defined.

(** ** The properties on these builds *)

Lemma fluxFill_rejects_witness :
  buildFLUXGraph (Demo.env txt2img) (Demo.state "inpaint" false false [] []) None =
    Throw (UnsupportedGenerationModeError "toast.fluxFillIncompatibleWithT2IAndI2I").
Proof.
  apply (proj2 (fluxFill_rejects_txt2img_img2img (Demo.env txt2img)
                  (Demo.state "inpaint" false false [] []) None txt2img
                  (Demo.mainModel "inpaint") eq_refl eq_refl eq_refl
                  (or_introl eq_refl))).
  - reflexivity.
  - eexists; reflexivity.
  - eexists; reflexivity.
  - eexists; reflexivity.
Defined.

Lemma denoising_start_witness :
  ∃ c, c ∈ Demo.called Demo.img2imgRun ∧
       passedDenoisingStart c = Some 0.5%float.
Proof.
  assert (is_Some (head (omap passedDenoisingStart (Demo.called Demo.img2imgRun))))
    as [ds Hds] by (vm_compute; eexists; reflexivity).
  apply head_Some_elem_of, list_elem_of_omap in Hds as (c & Hc & Hpassed).
  exists c. split; [exact Hc|].
  rewrite Hpassed. f_equal.
  exact (proj1 (denoising_start_passed (Demo.env img2img)
                  (Demo.state "normal" false false [] []) (Some tt) _ _
                  img2imgRun_returns) c ds Hc Hpassed).
Defined.


Lemma metadata_accumulates_witness :
  metadata (g (Demo.returned Demo.txt2imgRun)) =
    selectCanvasMetadata (Demo.state "normal" true false [] [tt]) ∪
      (generationModeMetadata "flux_txt2img" ∪
         initialMetadata (Demo.env txt2img) (Demo.state "normal" true false [] [tt])
           (Demo.models "normal") 4%float {| width := 1024; height := 1024 |}).
Proof.
  exact (proj2 (proj2 (metadata_accumulates (Demo.env txt2img)
                         (Demo.state "normal" true false [] [tt]) (Some tt) _ _
                         txt2img (Demo.models "normal") 4%float
                         txt2imgRun_returns eq_refl eq_refl eq_refl))
               (Demo_metadataUntouched txt2img)).
Defined.

Lemma models_are_required_witness :
  ∃ msg, buildFLUXGraph (Demo.env txt2img) Demo.stateWithoutT5 None =
           Throw (AssertionError msg).
Proof.
  destruct (proj1 (models_are_required (Demo.env txt2img) Demo.stateWithoutT5 None
                     txt2img eq_refl)
                  (or_intror (or_introl eq_refl))) as (msg & _ & Hmsg).
  exists msg. exact Hmsg.
Defined.

Lemma manager_is_required_witness :
  buildFLUXGraph (Demo.env img2img) (Demo.state "normal" false false [] []) None =
    Throw (AssertionError "Need manager to do img2img").
Proof.
  refine (proj2 (proj1 (manager_is_required (Demo.env img2img)
                          (Demo.state "normal" false false [] []) img2img
                          (Demo.mainModel "normal") eq_refl eq_refl)
                       (or_intror _))
                (Demo.models "normal") 4%float eq_refl eq_refl
                (cp_loras _ (Demo_completes img2img))).
  discriminate.
Defined.

Lemma fill_guidance_witness :
  metadata (g (Demo.returned Demo.fillRun)) !! "guidance" = Some (VNum 30%float) ∧
  nodeField "flux_denoise:4" "guidance" (g (Demo.returned Demo.fillRun))
    = Some (VNum 30%float).
Proof.
  destruct (fill_guidance_is_fixed (Demo.env inpaint)
              (Demo.state "inpaint" false false [] []) (Some tt) _ _
              (Demo.mainModel "inpaint") fillRun_returns eq_refl)
    as (_ & Hmd & Hnode).
  split.
  - exact (Hmd (Demo_keyUntouched inpaint "guidance") eq_refl).
  - exact (Hnode (Demo_nodeIds_distinct inpaint (Some tt))
             (Demo_fieldUntouched inpaint _ "guidance" (Demo_denoise_apart inpaint))
             eq_refl).
Defined.

Lemma one_mode_builder_witness :
  ∃ c out,
    List.filter isModeCall (Demo.called Demo.plainRun) = [c] ∧
    calledModeBuilder c = Some TextToImage ∧
    modeOutput c = Some out ∧
    metadataReceiver (g (Demo.returned Demo.plainRun)) = Some (node_id out).
Proof.
  destruct (one_mode_builder_runs (Demo.env txt2img)
              (Demo.state "normal" false false [] []) None _ _
              (Demo.mainModel "normal") txt2img plainRun_returns eq_refl eq_refl)
    as (c & out & Hone & Hwhich & Hout & Hreceiver).
  exists c, out. repeat split; [exact Hone|exact Hwhich|exact Hout|].
  apply Hreceiver; reflexivity.
Defined.

Lemma post_processing_witness :
  ∃ c out gr4 out' g5,
    List.filter isModeCall (Demo.called Demo.txt2imgRun) = [c] ∧
    modeOutput c = Some out ∧
    addNSFWChecker (Demo.env txt2img) out gr4 = Normal (out', g5) ∧
    metadataReceiver (g (Demo.returned Demo.txt2imgRun)) = Some (node_id out').
Proof.
  destruct (post_processing_moves_the_output (Demo.env txt2img)
              (Demo.state "normal" true false [] [tt]) (Some tt) _ _
              txt2imgRun_returns)
    as (c & out & gr4 & mid & gmid & lN & out' & g5 & lW & Hone & Hout & HN & HW
        & Hreceiver & _).
  destruct HN as [HN _]. destruct HW as (-> & -> & _).
  exists c, out, gr4, mid, gmid. repeat split; assumption.
Defined.

Lemma generation_mode_witness :
  metadata (g (Demo.returned Demo.fillRun)) !! "generation_mode" = None ∧
  metadata (g (Demo.returned Demo.txt2imgRun)) !! "generation_mode"
    = Some (VStr "flux_txt2img").
Proof.
  split.
  - exact (generation_mode_metadata (Demo.env inpaint)
             (Demo.state "inpaint" false false [] []) (Some tt) _ _
             (Demo.mainModel "inpaint") inpaint fillRun_returns eq_refl eq_refl
             (Demo_keyUntouched inpaint "generation_mode") eq_refl).
  - exact (generation_mode_metadata (Demo.env txt2img)
             (Demo.state "normal" true false [] [tt]) (Some tt) _ _
             (Demo.mainModel "normal") txt2img txt2imgRun_returns eq_refl eq_refl
             (Demo_keyUntouched txt2img "generation_mode") eq_refl).
Defined.

(** ** Where the claim on the metadata receiver stops

    With the safety checker enabled, the node the text-to-image sub-builder
    returned (the decoder) is not the metadata receiver: the node of the
    checker is. *)
Lemma mode_output_is_not_always_receiver :
  Demo.returns Demo.txt2imgRun = true ∧
  Demo.modeOutputIds (Demo.called Demo.txt2imgRun) = ["flux_vae_decode:5"] ∧
  metadataReceiver (g (Demo.returned Demo.txt2imgRun)) = Some "nsfw_checker:demo" ∧
  metadataReceiver (g (Demo.returned Demo.txt2imgRun)) ≠ Some "flux_vae_decode:5".
Proof.
  split; [vm_compute; reflexivity|].
  split; [vm_compute; reflexivity|].
  split; [vm_compute; reflexivity|].
  vm_compute. discriminate.
Qed.

(** * More on the builder *)

(** ** The calls of a completed build, written out *)

Section CallList.
Context {CanvasManager Entity : Type}.
Variable E : @Env CanvasManager Entity.
Implicit Types (state : @RootState Entity) (manager : option CanvasManager).
Implicit Types (p : Pipeline) (ms : Models) (gr : Graph).
Implicit Types (w : @World CanvasManager Entity) (c : @Call CanvasManager Entity).
Implicit Types (l lN lW : list (@Call CanvasManager Entity)).

Lemma PostStep_postCalls (enabled : bool) f
    (mk : Node → Node → @Call CanvasManager Entity) input gr out gr' l :
  PostStep enabled f mk input gr out gr' l → postCalls enabled mk l.
Proof.
  unfold PostStep, postCalls. destruct enabled.
  - intros [_ ->]. by exists input, out.
  - by intros (_ & _ & ->).
Qed.

Lemma controlAdapters_controlCalls state manager ms p gr cs u w' :
  controlAdapters E state manager ms p {| wgraph := gr; wcalls := cs; wdraws := 6 |}
    = Normal (u, w') →
  ∃ l, controlCalls E state manager ms p l ∧ wcalls w' = (cs ++ l)%list ∧
       wdraws w' = referenceDraw manager.
Proof.
  intros H. destruct manager as [m|].
  - apply controlAdapters_Some in H. cbn [wgraph wcalls wdraws] in H.
    destruct H as (res & g1 & g2 & _ & _ & ->). cbn [wcalls wdraws].
    eexists. split; [exists res; reflexivity|]. split; [|reflexivity].
    by rewrite <- app_assoc.
  - apply controlAdapters_None in H. subst w'. exists []. cbn.
    split; [reflexivity|]. by rewrite app_nil_r.
Qed.

Lemma referenceAdapters_referenceCalls state manager ms p w u w' :
  wdraws w = referenceDraw manager →
  referenceAdapters E state manager ms p w = Normal (u, w') →
  ∃ l, referenceCalls E state manager ms p l ∧ wcalls w' = (wcalls w ++ l)%list.
Proof.
  intros Hd H. apply referenceAdapters_inv in H. rewrite Hd in H.
  destruct H as (resI & g1 & resR & g2 & l & g3 & _ & _ & Hl & ->).
  cbn [wcalls]. unfold referenceCalls.
  destruct manager as [m|].
  - destruct Hl as (rs & _ & ->). eexists. split.
    + exists resI, resR, rs. reflexivity.
    + by rewrite <- !app_assoc.
  - destruct Hl as [_ ->]. eexists. split.
    + exists resI, resR. reflexivity.
    + by rewrite app_nil_r, <- !app_assoc.
Qed.

(** The calls of a completed build: the LoRAs, the mode-specific call, the
    control block, the reference block, the post-processors. *)
Lemma Run_calls state manager r calls :
  Run E state manager r calls →
  ∃ mode ms gd os ss c out gr gr' ctl ref lN lW,
    getGenerationMode E manager (selectActiveTab state) = Normal mode ∧
    requireModels state = Normal ms ∧
    fillGuidance E (model ms) mode (guidance (selectParamsSlice state)) = Normal gd ∧
    getSizes E (bbox (selectCanvasSlice state)) = (os, ss) ∧
    ModeStep E state manager mode ms (basePipelineNodes E state ms gd ss 1) os ss
      (denoisingStart E (selectParamsSlice state)) gr c out gr' ∧
    controlCalls E state manager ms (basePipelineNodes E state ms gd ss 1) ctl ∧
    referenceCalls E state manager ms (basePipelineNodes E state ms gd ss 1) ref ∧
    postCalls (shouldUseNSFWChecker (system state)) CAddNSFWChecker lN ∧
    postCalls (shouldUseWatermarker (system state)) CAddWatermarker lW ∧
    calls = ([ CAddFLUXLoRAs (lorasArg state (basePipelineNodes E state ms gd ss 1)); c ]
             ++ ctl ++ ref ++ lN ++ lW)%list ∧
    nodeId (seedFieldIdentifier r)
      = node_id (denoise (basePipelineNodes E state ms gd ss 1)) ∧
    nodeId (positivePromptFieldIdentifier r)
      = node_id (posCond (basePipelineNodes E state ms gd ss 1)).
Proof.
  intros [mode ms gd os ss p gL c out gM w2 w3 w4 mid gmid lN lW out' g5
          Hmode Hms Hgd Hsz Hp _ Hstep Hw2 Hctl Href HN HW Hr Hcalls].
  subst w2 p.
  apply controlAdapters_controlCalls in Hctl as (ctl & Hctl & Hc3 & Hd3).
  apply (referenceAdapters_referenceCalls _ _ _ _ _ _ _ Hd3) in Href
    as (ref & Href & Hc4).
  apply PostStep_postCalls in HN, HW.
  exists mode, ms, gd, os, ss, c, out. do 2 eexists. exists ctl, ref, lN, lW.
  do 4 (split; [assumption|]). split; [exact Hstep|].
  do 4 (split; [assumption|]).
  split; [|by subst r].
  rewrite Hcalls, Hc4, Hc3. by rewrite <- !app_assoc.
Qed.

End CallList.

(** ** The order of the calls and what they are handed *)

Section Order.
Context {CanvasManager Entity : Type}.
Variable E : @Env CanvasManager Entity.
Implicit Types (state : @RootState Entity) (manager : option CanvasManager).
Implicit Types (p : Pipeline) (ms : Models) (gr : Graph).
Implicit Types (c : @Call CanvasManager Entity).
Implicit Types (l : list (@Call CanvasManager Entity)).

Lemma ModeStep_name state manager mode ms p os ss ds gr c out gr' :
  ModeStep E state manager mode ms p os ss ds gr c out gr' →
  builderName c = modeBuilderName (dispatched (isFLUXFill (model ms)) mode).
Proof.
  intros []; subst;
    match goal with Hf : isFLUXFill _ = _ |- _ => rewrite Hf end; reflexivity.
Qed.

Lemma controlCalls_names state manager ms p l :
  controlCalls E state manager ms p l →
  builderName <$> l =
    if withManager manager then [ "addControlNets"; "addControlLoRA" ] else [].
Proof.
  unfold controlCalls. destruct manager; [intros [res ->]|intros ->]; reflexivity.
Qed.

Lemma referenceCalls_names state manager ms p l :
  referenceCalls E state manager ms p l →
  builderName <$> l =
    ([ "addIPAdapters"; "addFLUXReduxes" ]
     ++ if withManager manager then [ "addRegions" ] else [])%list.
Proof.
  unfold referenceCalls. intros (resI & resR & H).
  destruct manager; [destruct H as [rs ->]|subst l]; reflexivity.
Qed.

Lemma postCalls_names (enabled : bool)
    (mk : Node → Node → @Call CanvasManager Entity) (nm : string) l :
  (∀ a b, builderName (mk a b) = nm) →
  postCalls enabled mk l → builderName <$> l = if enabled then [ nm ] else [].
Proof.
  intros Hnm. unfold postCalls. destruct enabled.
  - intros (a & b & ->). cbn. by rewrite Hnm.
  - by intros ->.
Qed.

(** X1.  A build that returns has called the sub-builders in the order of
    the source: the LoRAs, the one mode-specific sub-builder, the control
    nets and the control LoRA (with a manager only), the IP adapters, the
    FLUX reduxes, the regions (with a manager only), the safety checker and
    the watermarker (when enabled); each of them once, and no other. *)
Theorem sub_builders_run_in_order state manager r calls m mode :
  buildFLUXGraph E state manager = Normal (r, calls) →
  selectMainModelConfig state = Some m →
  getGenerationMode E manager (selectActiveTab state) = Normal mode →
  builderName <$> calls =
    callOrder (dispatched (isFLUXFill m) mode)
      (withManager manager)
      (shouldUseNSFWChecker (system state)) (shouldUseWatermarker (system state)).
Proof.
  intros H Hm Hmode. apply buildFLUXGraph_run, Run_calls in H.
  destruct H as (mode' & ms & gd & os & ss & c & out & gr & gr' & ctl & ref & lN & lW
                 & Hmode' & Hms & _ & _ & Hstep & Hctl & Href & HN & HW & -> & _).
  rewrite Hmode in Hmode'. injection Hmode' as <-.
  apply requireModels_model in Hms. rewrite Hm in Hms. injection Hms as Hms.
  apply ModeStep_name in Hstep. rewrite <- Hms in Hstep.
  apply controlCalls_names in Hctl. apply referenceCalls_names in Href.
  apply (postCalls_names _ _ "addNSFWChecker") in HN; [|reflexivity].
  apply (postCalls_names _ _ "addWatermarker") in HW; [|reflexivity].
  unfold callOrder. rewrite !fmap_app, Hctl, Href, HN, HW. cbn [fmap list_fmap].
  rewrite Hstep. by destruct manager.
Qed.

Lemma controlCalls_passed (P : @Call CanvasManager Entity → Prop)
    state manager ms p l :
  (∀ m res, manager = Some m →
     P (CAddControlNets
          (controlNetsArg state m ms
             (collectNode (prefixedId E "control_net_collector" 6))) res)) →
  (∀ m, manager = Some m → P (CAddControlLoRA (controlLoRAArg state m ms p))) →
  controlCalls E state manager ms p l → Forall P l.
Proof.
  intros H1 H2. unfold controlCalls. destruct manager as [m|].
  - intros [res ->]. repeat constructor; [by apply H1|by apply H2].
  - intros ->. constructor.
Qed.


Lemma postCalls_passed (P : @Call CanvasManager Entity → Prop) (enabled : bool)
    (mk : Node → Node → @Call CanvasManager Entity) l :
  (∀ a b, P (mk a b)) → postCalls enabled mk l → Forall P l.
Proof.
  intros HP. unfold postCalls. destruct enabled.
  - intros (a & b & ->). by repeat constructor.
  - intros ->. constructor.
Qed.




(** X3.  The regions sub-builder is handed the two collectors the IP
    adapters and the FLUX reduxes were handed before it, in that order, and
    no negative conditioning. *)
Theorem regions_share_the_collectors state manager r calls arg rs :
  buildFLUXGraph E state manager = Normal (r, calls) →
  CAddRegions arg rs ∈ calls →
  (∃ a res, CAddIPAdapters a res ∈ calls ∧ ad_collector a = rg_ipAdapterCollect arg) ∧
  (∃ a res, CAddFLUXReduxes a res ∈ calls ∧ ad_collector a = rg_fluxReduxCollect arg) ∧
  rg_negCond arg = None ∧ rg_negCondCollect arg = None ∧
  rg_regions arg = entities (regionalGuidance (selectCanvasSlice state)).
Proof.
  intros H Hin. apply buildFLUXGraph_run, Run_calls in H.
  destruct H as (mode & ms & gd & os & ss & c & out & gr & gr' & ctl & ref & lN & lW
                 & _ & _ & _ & _ & Hstep & Hctl & Href & HN & HW & -> & _).
  assert (Hnot : ∀ l, Forall (λ c, ∀ a b, c ≠ CAddRegions a b) l →
                      CAddRegions arg rs ∉ l).
  { intros l Hl Hx. rewrite Forall_forall in Hl. by eapply (Hl _ Hx). }
  assert (Href' : CAddRegions arg rs ∈ ref).
  { rewrite !elem_of_app in Hin.
    destruct Hin as [Hin|[Hin|[Hin|[Hin|Hin]]]]; [| |exact Hin| |].
    - apply elem_of_cons in Hin as [Heq|Hin]; [discriminate Heq|].
      apply list_elem_of_singleton in Hin. subst c. by inversion Hstep.
    - exfalso. revert Hin. apply Hnot.
      eapply controlCalls_passed; [| |exact Hctl]; by intros.
    - exfalso. revert Hin. apply Hnot. eapply postCalls_passed; [|exact HN]. by intros.
    - exfalso. revert Hin. apply Hnot. eapply postCalls_passed; [|exact HW]. by intros. }
  unfold referenceCalls in Href. destruct Href as (resI & resR & Href).
  destruct manager as [m|].
  - destruct Href as [rs' ->].
    assert (Harg : CAddRegions arg rs = CAddRegions
              (regionsArg state m ms (basePipelineNodes E state ms gd ss 1)
                 (collectNode (prefixedId E "ip_adapter_collector" (referenceDraw (Some m))))
                 (collectNode (prefixedId E "ip_adapter_collector"
                                 (S (referenceDraw (Some m)))))) rs').
    { apply elem_of_cons in Href' as [Heq|Href']; [discriminate Heq|].
      apply elem_of_cons in Href' as [Heq|Href']; [discriminate Heq|].
      by apply list_elem_of_singleton in Href'. }
    injection Harg as -> ->. cbn [rg_ipAdapterCollect rg_fluxReduxCollect regionsArg
                                   rg_negCond rg_negCondCollect rg_regions].
    split; [|split].
    + exists (adapterArg state ms
                (collectNode (prefixedId E "ip_adapter_collector" 7))), resI.
      split; [|reflexivity].
      apply elem_of_app; right. apply elem_of_app; right. apply elem_of_app; left.
      apply list_elem_of_here.
    + exists (adapterArg state ms
                (collectNode (prefixedId E "ip_adapter_collector" 8))), resR.
      split; [|reflexivity].
      apply elem_of_app; right. apply elem_of_app; right. apply elem_of_app; left.
      apply list_elem_of_further, list_elem_of_here.
    + done.
  - subst ref. exfalso.
    apply elem_of_cons in Href' as [Heq|Href']; [discriminate Heq|].
    apply list_elem_of_singleton in Href'. discriminate Href'.
Qed.

End Order.

(** ** When the build returns, and with which error it does not *)

Section Outcome.
Context {CanvasManager Entity : Type}.
Variable E : @Env CanvasManager Entity.
Implicit Types (state : @RootState Entity) (manager : option CanvasManager).
Implicit Types (p : Pipeline) (ms : Models) (m : MainModelConfig).

Lemma requireModels_inv state ms :
  requireModels state = Normal ms →
  selectMainModelConfig state = Some (model ms) ∧ base (model ms) = "flux" ∧
  t5EncoderModel (selectParamsSlice state) = Some (md_t5EncoderModel ms) ∧
  clipEmbedModel (selectParamsSlice state) = Some (md_clipEmbedModel ms) ∧
  fluxVAE (selectParamsSlice state) = Some (md_fluxVAE ms).
Proof.
  unfold requireModels.
  destruct (selectMainModelConfig state) as [m|]; [|discriminate]. cbn.
  destruct (String.eqb (base m) "flux") eqn:Hb; [|discriminate]. cbn.
  destruct (t5EncoderModel _); [|discriminate]. cbn.
  destruct (clipEmbedModel _); [|discriminate]. cbn.
  destruct (fluxVAE _); [|discriminate]. cbn.
  intros [= <-]. cbn. by apply String.eqb_eq in Hb.
Qed.

Lemma bindM_throw {A B} (c : @M CanvasManager Entity A)
    (k : A → @M CanvasManager Entity B) (w : @World CanvasManager Entity) e :
  c w = Throw e → (c ≫= k) w = Throw e.
Proof. intros H. unfold mbind, M_bind. by rewrite H. Qed.

Lemma ModeStep_manager state manager mode ms p os ss ds gr c out gr' :
  ModeStep E state manager mode ms p os ss ds gr c out gr' →
  manager = None → isFLUXFill (model ms) = false ∧ mode = txt2img.
Proof. intros [] Hm; subst; first [discriminate Hm | done]. Qed.

(** X4.  When the generation mode is known and the sub-builders return, the
    build returns exactly when the main model is a FLUX model and the three
    sub-models are selected, the FLUX Fill model is not asked for txt2img or
    img2img, and a manager is there unless a non-Fill model does txt2img. *)
Theorem build_returns_exactly_when state manager mode :
  Completes E →
  getGenerationMode E manager (selectActiveTab state) = Normal mode →
  (∃ r calls, buildFLUXGraph E state manager = Normal (r, calls)) ↔
  (∃ m, selectMainModelConfig state = Some m ∧ base m = "flux" ∧
        is_Some (t5EncoderModel (selectParamsSlice state)) ∧
        is_Some (clipEmbedModel (selectParamsSlice state)) ∧
        is_Some (fluxVAE (selectParamsSlice state)) ∧
        (isFLUXFill m = true → mode = inpaint ∨ mode = outpaint) ∧
        (manager = None → isFLUXFill m = false ∧ mode = txt2img)).
Proof.
  intros Hc Hmode. split.
  - intros (r & calls & H). apply buildFLUXGraph_run in H.
    destruct H as [mode' ms gd os ss p gL c out gM w2 w3 w4 mid gmid lN lW out' g5
                   Hmode' Hms Hgd _ _ _ Hstep _ _ _ _ _ _ _].
    rewrite Hmode in Hmode'. injection Hmode' as <-.
    apply requireModels_inv in Hms as (Hm & Hb & Ht5 & Hclip & Hvae).
    exists (model ms). split; [exact Hm|]. split; [exact Hb|].
    rewrite Ht5, Hclip, Hvae. do 3 (split; [by eexists|]).
    split; [exact (proj2 (fillGuidance_value E _ _ _ _ Hgd))|].
    by eapply ModeStep_manager.
  - intros (m & Hm & Hb & [a Ha] & [b Hbb] & [v Hv] & Hfill & Hman).
    pose proof (requireModels_present state m a b v Hm Hb Ha Hbb Hv) as Hms.
    assert (Hgd : ∃ gd, fillGuidance E m mode (guidance (selectParamsSlice state))
                        = Normal gd).
    { unfold fillGuidance. destruct (isFLUXFill m); [|by eexists].
      destruct (Hfill eq_refl) as [-> | ->]; by eexists. }
    destruct Hgd as [gd Hgd].
    by eapply (buildFLUXGraph_completes E state manager mode _ gd Hc Hmode Hms).
Qed.

(** X5.  Once the generation mode is known, the first check of lines 67-71
    that fails decides the error: a missing main model before a main model
    of another base, that before a missing T5 encoder, then the CLIP embed
    model, then the VAE. *)
Theorem checks_fail_in_source_order state manager mode :
  getGenerationMode E manager (selectActiveTab state) = Normal mode →
  (selectMainModelConfig state = None →
   buildFLUXGraph E state manager = Throw (AssertionError "No model found in state")) ∧
  (∀ m, selectMainModelConfig state = Some m →
     (base m ≠ "flux" →
      buildFLUXGraph E state manager
        = Throw (AssertionError "Model is not a FLUX model")) ∧
     (base m = "flux" →
      (t5EncoderModel (selectParamsSlice state) = None →
       buildFLUXGraph E state manager
         = Throw (AssertionError "No T5 Encoder model found in state")) ∧
      (is_Some (t5EncoderModel (selectParamsSlice state)) →
       clipEmbedModel (selectParamsSlice state) = None →
       buildFLUXGraph E state manager
         = Throw (AssertionError "No CLIP Embed model found in state")) ∧
      (is_Some (t5EncoderModel (selectParamsSlice state)) →
       is_Some (clipEmbedModel (selectParamsSlice state)) →
       fluxVAE (selectParamsSlice state) = None →
       buildFLUXGraph E state manager
         = Throw (AssertionError "No FLUX VAE model found in state")))).
Proof.
  intros Hmode.
  assert (Hthrow : ∀ e, requireModels state = Throw e →
                        buildFLUXGraph E state manager = Throw e).
  { intros e. by apply buildFLUXGraph_throws_assertion with mode. }
  split.
  - intros Hm. apply Hthrow. unfold requireModels. by rewrite Hm.
  - intros m Hm. split.
    + intros Hb. apply Hthrow. unfold requireModels. rewrite Hm. cbn.
      apply String.eqb_neq in Hb. by rewrite Hb.
    + intros Hb. apply String.eqb_eq in Hb. split; [|split].
      * intros Ht5. apply Hthrow. unfold requireModels. rewrite Hm, Ht5. cbn.
        by rewrite Hb.
      * intros [a Ha] Hclip. apply Hthrow. unfold requireModels.
        rewrite Hm, Ha, Hclip. cbn. by rewrite Hb.
      * intros [a Ha] [b Hbb] Hvae. apply Hthrow. unfold requireModels.
        rewrite Hm, Ha, Hbb, Hvae. cbn. by rewrite Hb.
Qed.

(** X6.  When [addFLUXLoRAs] throws on the base pipeline, the build throws
    the same error, whatever the mode and with or without a manager: the
    LoRAs come before the manager is asked for. *)
Theorem failed_LoRAs_abort_the_build state manager mode ms gd e :
  getGenerationMode E manager (selectActiveTab state) = Normal mode →
  requireModels state = Normal ms →
  fillGuidance E (model ms) mode (guidance (selectParamsSlice state)) = Normal gd →
  addFLUXLoRAs E
    (lorasArg state
       (basePipelineNodes E state ms gd (getSizes E (bbox (selectCanvasSlice state))).2 1))
    (baseGraph
       (basePipelineNodes E state ms gd (getSizes E (bbox (selectCanvasSlice state))).2 1)
       (newGraph (prefixedId E "flux_graph" 0))) = Throw e →
  buildFLUXGraph E state manager = Throw e.
Proof.
  intros Hmode Hms Hgd He.
  rewrite (buildFLUXGraph_assemble E state manager mode ms gd Hmode Hms Hgd).
  rewrite assemble_unfold. destruct (getSizes E _) as [os ss]. cbn [snd] in He.
  assert (Hbase : basePipeline E state ms gd os ss (initialWorld E) = Throw e).
  { unfold initialWorld. rewrite basePipeline_unfold. run_goal.
    rewrite run_invoke.
    unfold lorasArg, basePipelineNodes, baseGraph in He.
    cbn [modelLoader posCond posCondCollect denoise l2i] in He.
    rewrite He. reflexivity. }
  by rewrite (bindM_throw _ _ _ _ Hbase).
Qed.

End Outcome.

(** ** The nodes and edges of the returned graph *)

(** Split a list without duplicates that is written out into the
    inequalities of its elements. *)
Ltac apart Hnd :=
  cbn [app] in Hnd;
  repeat (let Hni := fresh "Hni" in apply NoDup_cons in Hnd as [Hni Hnd]);
  rewrite ?not_elem_of_cons in *;
  repeat match goal with H : _ ∧ _ |- _ => destruct H end.

Ltac differ := first [assumption | apply not_eq_sym; assumption].

Section Content.
Context {CanvasManager Entity : Type}.
Variable E : @Env CanvasManager Entity.
Implicit Types (state : @RootState Entity) (manager : option CanvasManager).
Implicit Types (p : Pipeline) (ms : Models) (gr : Graph) (n : Node).

Lemma edges_baseGraph p gr : edges (baseGraph p gr) = (edges gr ++ baseEdges p)%list.
Proof.
  unfold baseGraph, baseEdges. cbn [edges addEdge addNode].
  by rewrite <- !app_assoc.
Qed.

Lemma edges_finishedGraph state out gr : edges (finishedGraph state out gr) = edges gr.
Proof. reflexivity. Qed.

Lemma nodes_finishedGraph state out gr :
  nodes (finishedGraph state out gr)
  = alter (patchNode (selectCanvasOutputFields state)) (node_id out) (nodes gr).
Proof. reflexivity. Qed.

Lemma receiver_finishedGraph state out gr :
  metadataReceiver (finishedGraph state out gr) = Some (node_id out).
Proof. reflexivity. Qed.

Lemma pipelineNodes_ids state ms gd ss :
  node_id <$> pipelineNodes (basePipelineNodes E state ms gd ss 1) = pipelineIds E.
Proof. reflexivity. Qed.

Lemma dom_baseGraph state ms gd ss i :
  dom (nodes (baseGraph (basePipelineNodes E state ms gd ss 1) (newGraph i)))
  = list_to_set (pipelineIds E).
Proof.
  unfold baseGraph, basePipelineNodes, pipelineIds.
  cbn [nodes addEdge addNode newGraph node_id modelLoader posCond posCondCollect
       denoise l2i fluxVaeDecodeNode fluxDenoiseNode collectNode fluxTextEncoderNode
       fluxModelLoaderNode list_to_set].
  rewrite !dom_insert_L, dom_empty_L. apply set_eq. intros x.
  rewrite !elem_of_union, !elem_of_singleton. tauto.
Qed.

Lemma pipeline_apart manager i :
  NoDup (nodeIds E manager) → i ∈ pipelineIds E → i ∉ collectorIds E manager.
Proof.
  unfold nodeIds. intros Hnd Hi Hc.
  apply NoDup_app in Hnd as (_ & Hnd & _). by apply (Hnd i).
Qed.

Lemma pipelineNodes_in state ms gd ss n :
  n ∈ pipelineNodes (basePipelineNodes E state ms gd ss 1) →
  node_id n ∈ pipelineIds E.
Proof.
  intros Hn. rewrite <- (pipelineNodes_ids state ms gd ss).
  by apply list_elem_of_fmap_2.
Qed.

Lemma lookup_baseGraph state ms gd ss i n :
  NoDup (pipelineIds E) →
  n ∈ pipelineNodes (basePipelineNodes E state ms gd ss 1) →
  nodes (baseGraph (basePipelineNodes E state ms gd ss 1) (newGraph i)) !! node_id n
  = Some n.
Proof.
  intros Hnd Hn. unfold pipelineIds in Hnd. apart Hnd.
  unfold pipelineNodes in Hn.
  unfold baseGraph. cbn [nodes addEdge addNode newGraph].
  repeat (apply elem_of_cons in Hn as [->|Hn]);
    [..|by apply elem_of_nil in Hn];
    cbn [node_id modelLoader posCond posCondCollect denoise l2i basePipelineNodes
         fluxVaeDecodeNode fluxDenoiseNode collectNode fluxTextEncoderNode
         fluxModelLoaderNode];
    repeat (rewrite lookup_insert_ne by differ);
    apply lookup_insert_eq.
Qed.

Lemma NoDup_pipelineIds manager : NoDup (nodeIds E manager) → NoDup (pipelineIds E).
Proof. unfold nodeIds. intros Hnd. by apply NoDup_app in Hnd as (? & _ & _). Qed.

Lemma Frame_nodeKept i ids :
  i ∉ ids → Respects E (nodeKept i) → Frame E (nodeKept i) ids.
Proof.
  intros Hi HR. split.
  - intros gr. reflexivity.
  - intros a b c Hab Hbc. unfold nodeKept in *. by rewrite Hbc.
  - exact HR.
  - intros j gr Hj. unfold nodeKept. cbn.
    rewrite lookup_insert_ne; [done|]. by intros ->.
  - intros src sf dst df gr. reflexivity.
  - intros j gr Hj. unfold nodeKept. cbn.
    rewrite lookup_delete_ne; [done|]. by intros ->.
Qed.

Lemma within_chain (A B C D S : gset string) :
  B ⊆ A ∪ S → C ⊆ B ∪ S → D ⊆ C ∪ S → D ⊆ A ∪ S.
Proof.
  intros HB HC HD x Hx.
  apply HD, elem_of_union in Hx as [Hx|Hx]; [|apply elem_of_union; by right].
  apply HC, elem_of_union in Hx as [Hx|Hx]; [|apply elem_of_union; by right].
  by apply HB.
Qed.

Lemma Frame_nodesWithin (S : gset string) ids :
  (∀ i, i ∈ ids → i ∈ S) →
  Respects E (nodesWithin S) → Frame E (nodesWithin S) ids.
Proof.
  intros Hids HR. split.
  - intros gr i Hi. apply elem_of_union. by left.
  - intros a b c Hab Hbc i Hi.
    apply Hbc, elem_of_union in Hi as [Hi|Hi]; [by apply Hab|].
    apply elem_of_union. by right.
  - exact HR.
  - intros i gr Hi. unfold nodesWithin. cbn. rewrite dom_insert. intros j Hj.
    apply elem_of_union. apply elem_of_union in Hj as [Hj|Hj].
    + apply elem_of_singleton in Hj as ->. right. by apply Hids.
    + by left.
  - intros src sf dst df gr i Hi. apply elem_of_union. by left.
  - intros i gr Hi. unfold nodesWithin. cbn. rewrite dom_delete. intros j Hj.
    apply elem_of_difference in Hj as [Hj _]. apply elem_of_union. by left.
Qed.

(** X7.  Every node of the returned graph is a node of the base pipeline, a
    collector of the builder, or a node a sub-builder added: when the
    sub-builders add nodes under the identifiers of [S] only, the nodes of
    the graph are under the builder's identifiers and those of [S]. *)
Theorem nodes_are_the_builders_or_a_sub_builders state manager r calls
    (S : gset string) :
  buildFLUXGraph E state manager = Normal (r, calls) →
  Respects E (nodesWithin S) →
  dom (nodes (g r)) ⊆ list_to_set (nodeIds E manager) ∪ S.
Proof.
  intros H HR. apply buildFLUXGraph_run, Run_frames in H.
  destruct H as (mode & ms & gd & os & ss & gL & gM & g5 & out' & _ & _ & _ & _ & Hg
                 & _ & Hfr).
  set (S' := S ∪ list_to_set (collectorIds E manager)).
  assert (HR' : Respects E (nodesWithin S')).
  { apply (Respects_impl E (nodesWithin S)); [|exact HR].
    intros a b Hab i Hi. apply Hab in Hi. unfold S'.
    rewrite !elem_of_union in Hi. rewrite !elem_of_union. tauto. }
  assert (Hin : ∀ i, i ∈ collectorIds E manager → i ∈ S').
  { intros i Hi. unfold S'. apply elem_of_union. right. by apply elem_of_list_to_set. }
  destruct (Hfr _ (collectorIds E manager) (Frame_nodesWithin S' _ Hin HR')
              (λ i Hi, Hi)) as (HL & HM & H5).
  unfold nodesWithin in HL, HM, H5. cbn [nodes upsertMetadata] in HM, H5.
  rewrite dom_baseGraph in HL.
  rewrite Hg, nodes_finishedGraph, dom_alter.
  unfold nodeIds. rewrite list_to_set_app_L.
  pose proof (within_chain _ _ _ _ _ HL HM H5) as Hall.
  intros i Hi. apply Hall in Hi. unfold S' in Hi.
  rewrite !elem_of_union in Hi. rewrite !elem_of_union. tauto.
Qed.

(** X8.  The five nodes of the base pipeline are in the returned graph as
    the builder created them, the one that ends up as the metadata receiver
    with the output fields laid over its own; this for each node no
    sub-builder touches, identifiers being distinct. *)
Theorem pipeline_nodes_stay state manager r calls mode ms gd n :
  buildFLUXGraph E state manager = Normal (r, calls) →
  getGenerationMode E manager (selectActiveTab state) = Normal mode →
  requireModels state = Normal ms →
  fillGuidance E (model ms) mode (guidance (selectParamsSlice state)) = Normal gd →
  NoDup (nodeIds E manager) →
  n ∈ pipelineNodes
        (basePipelineNodes E state ms gd
           (getSizes E (bbox (selectCanvasSlice state))).2 1) →
  Respects E (nodeKept (node_id n)) →
  nodes (g r) !! node_id n =
    Some (if bool_decide (metadataReceiver (g r) = Some (node_id n))
          then patchNode (selectCanvasOutputFields state) n else n).
Proof.
  intros H Hmode Hms Hgd Hnd Hn HR. apply buildFLUXGraph_run, Run_frames in H.
  destruct H as (mode' & ms' & gd' & os & ss & gL & gM & g5 & out' & Hmode' & Hms'
                 & Hgd' & Hsz & Hg & _ & Hfr).
  rewrite Hmode in Hmode'. injection Hmode' as <-.
  rewrite Hms in Hms'. injection Hms' as <-.
  rewrite Hgd in Hgd'. injection Hgd' as <-.
  rewrite Hsz in Hn. cbn [snd] in Hn.
  pose proof (pipeline_apart manager _ Hnd (pipelineNodes_in _ _ _ _ _ Hn)) as Hcoll.
  destruct (Hfr _ (collectorIds E manager)
              (Frame_nodeKept (node_id n) _ Hcoll HR) (λ i Hi, Hi)) as (HL & HM & H5).
  unfold nodeKept in HL, HM, H5. cbn [nodes upsertMetadata] in HM, H5.
  rewrite (lookup_baseGraph _ _ _ _ _ _ (NoDup_pipelineIds manager Hnd) Hn) in HL.
  rewrite Hg, nodes_finishedGraph, receiver_finishedGraph.
  destruct (decide (node_id out' = node_id n)) as [Heq|Hne].
  - rewrite Heq, lookup_alter_eq, H5, HM, HL. cbn.
    by rewrite bool_decide_eq_true_2.
  - rewrite lookup_alter_ne by done. rewrite H5, HM, HL.
    rewrite bool_decide_eq_false_2; [done|]. by intros [= ?].
Qed.

(** X9.  The two field identifiers of the result name the fields under
    which the seed and the positive prompt are found in the returned graph:
    reading the seed field identifier gives the seed of the parameters and
    reading the prompt field identifier the preset-modified positive prompt,
    when no sub-builder touches the field and the output fields do not
    carry it. *)
Theorem field_identifiers_locate_seed_and_prompt state manager r calls :
  buildFLUXGraph E state manager = Normal (r, calls) →
  NoDup (nodeIds E manager) →
  let seedId := seedFieldIdentifier r in
  let promptId := positivePromptFieldIdentifier r in
  fieldName seedId = "seed" ∧ fieldName promptId = "prompt" ∧
  (Respects E (fieldUntouched (nodeId seedId) "seed") →
   selectCanvasOutputFields state !! "seed" = None →
   nodeField (nodeId seedId) (fieldName seedId) (g r)
     = Some (VInt (seed (selectParamsSlice state)))) ∧
  (Respects E (fieldUntouched (nodeId promptId) "prompt") →
   selectCanvasOutputFields state !! "prompt" = None →
   nodeField (nodeId promptId) (fieldName promptId) (g r)
     = Some (VStr (positivePrompt (selectPresetModifiedPrompts state)))).
Proof.
  intros H Hnd seedId promptId. apply buildFLUXGraph_run in H.
  assert (Hids : nodeId seedId = prefixedId E "flux_denoise" 4 ∧
                 fieldName seedId = "seed" ∧
                 nodeId promptId = prefixedId E "flux_text_encoder" 2 ∧
                 fieldName promptId = "prompt").
  { destruct H as [mode ms gd os ss p gL c out gM w2 w3 w4 mid gmid lN lW out' g5
                   _ _ _ _ -> _ _ _ _ _ _ _ -> _]. done. }
  destruct Hids as (Hs & Hsf & Hp & Hpf). rewrite Hs, Hsf, Hp, Hpf.
  clearbody seedId promptId.
  destruct (Run_frames _ _ _ _ _ H)
    as (mode & ms & gd & os & ss & gL & gM & g5 & out' & _ & _ & _ & _ & Hg & _ & Hfr).
  pose proof (NoDup_pipelineIds manager Hnd) as Hndp.
  do 2 (split; [reflexivity|]). split.
  - intros HR Hout.
    assert (Hin : prefixedId E "flux_denoise" 4 ∈ pipelineIds E) by (unfold pipelineIds; in_list).
    destruct (Hfr _ (collectorIds E manager)
                (Frame_field E _ "seed" _ (pipeline_apart manager _ Hnd Hin) HR)
                (λ i Hi, Hi)) as (HL & HM & H5).
    unfold fieldUntouched in HL, HM, H5.
    rewrite Hg, nodeField_finishedGraph by done.
    rewrite H5, nodeField_upsertMetadata, HM, nodeField_upsertMetadata, HL.
    unfold nodeField.
    rewrite (lookup_baseGraph state ms gd ss _
               (denoise (basePipelineNodes E state ms gd ss 1)) Hndp);
      [reflexivity|unfold pipelineNodes; in_list].
  - intros HR Hout.
    assert (Hin : prefixedId E "flux_text_encoder" 2 ∈ pipelineIds E)
      by (unfold pipelineIds; in_list).
    destruct (Hfr _ (collectorIds E manager)
                (Frame_field E _ "prompt" _ (pipeline_apart manager _ Hnd Hin) HR)
                (λ i Hi, Hi)) as (HL & HM & H5).
    unfold fieldUntouched in HL, HM, H5.
    rewrite Hg, nodeField_finishedGraph by done.
    rewrite H5, nodeField_upsertMetadata, HM, nodeField_upsertMetadata, HL.
    unfold nodeField.
    rewrite (lookup_baseGraph state ms gd ss _
               (posCond (basePipelineNodes E state ms gd ss 1)) Hndp);
      [reflexivity|unfold pipelineNodes; in_list].
Qed.

Lemma baseEdges_ends state ms gd ss e :
  e ∈ baseEdges (basePipelineNodes E state ms gd ss 1) →
  end_node (source e) ∈ pipelineIds E ∧ end_node (destination e) ∈ pipelineIds E.
Proof.
  intros He. unfold baseEdges in He.
  repeat (apply elem_of_cons in He as [->|He]); [..|by apply elem_of_nil in He];
    split; unfold pipelineIds; cbn; in_list.
Qed.

(** X10.  The nine edges of the base pipeline (loader to denoiser, decoder
    and text encoder; text encoder to its collector; collector to denoiser;
    denoiser to decoder) are in the returned graph, each as long as no
    sub-builder removes it, identifiers being distinct: removing an unused
    collector takes none of them away. *)
Theorem pipeline_edges_stay state manager r calls mode ms gd e :
  buildFLUXGraph E state manager = Normal (r, calls) →
  getGenerationMode E manager (selectActiveTab state) = Normal mode →
  requireModels state = Normal ms →
  fillGuidance E (model ms) mode (guidance (selectParamsSlice state)) = Normal gd →
  NoDup (nodeIds E manager) →
  e ∈ baseEdges
        (basePipelineNodes E state ms gd
           (getSizes E (bbox (selectCanvasSlice state))).2 1) →
  Respects E (edgeKept e) →
  e ∈ edges (g r).
Proof.
  intros H Hmode Hms Hgd Hnd He HR. apply buildFLUXGraph_run, Run_frames in H.
  destruct H as (mode' & ms' & gd' & os & ss & gL & gM & g5 & out' & Hmode' & Hms'
                 & Hgd' & Hsz & Hg & _ & Hfr).
  rewrite Hmode in Hmode'. injection Hmode' as <-.
  rewrite Hms in Hms'. injection Hms' as <-.
  rewrite Hgd in Hgd'. injection Hgd' as <-.
  rewrite Hsz in He. cbn [snd] in He.
  destruct (baseEdges_ends _ _ _ _ _ He) as [Hsrc Hdst].
  assert (Hinc : ∀ i, i ∈ collectorIds E manager → incident i e = false).
  { intros i Hi. unfold incident.
    assert (Hs : end_node (source e) ≠ i).
    { intros <-. exact (pipeline_apart manager _ Hnd Hsrc Hi). }
    assert (Hd : end_node (destination e) ≠ i).
    { intros <-. exact (pipeline_apart manager _ Hnd Hdst Hi). }
    rewrite (bool_decide_eq_false_2 _ Hs), (bool_decide_eq_false_2 _ Hd).
    reflexivity. }
  destruct (Hfr _ (collectorIds E manager) (Frame_edge E e _ Hinc HR) (λ i Hi, Hi))
    as (HL & HM & H5).
  unfold edgeKept in HL, HM, H5. cbn [edges upsertMetadata] in HM, H5.
  rewrite Hg, edges_finishedGraph. apply H5, HM, HL.
  rewrite edges_baseGraph. apply elem_of_app. by right.
Qed.

End Content.

(** ** No dangling edge *)

Section Closed.
Context {CanvasManager Entity : Type}.
Variable E : @Env CanvasManager Entity.
Implicit Types (state : @RootState Entity) (manager : option CanvasManager).
Implicit Types (p : Pipeline) (ms : Models) (gr : Graph) (n : Node).
Implicit Types (w : @World CanvasManager Entity) (ids : list string).

Lemma closedKept_refl gr : closedKept gr gr.
Proof. split; [by intros i|done]. Qed.

Lemma closedKept_trans a b c : closedKept a b → closedKept b c → closedKept a c.
Proof.
  intros [Hab Hab'] [Hbc Hbc']. split.
  - intros i Hi. by apply Hbc, Hab.
  - intros Ha. by apply Hbc', Hab'.
Qed.

Lemma sound_kept ids a b : closedKept a b → sound ids a → sound ids b.
Proof.
  intros [Hstay Hcl] [Ha Hids]. split; [by apply Hcl|].
  intros i Hi. apply elem_of_dom, Hstay, elem_of_dom. by apply Hids.
Qed.

Lemma sound_same ids a b :
  dom (nodes b) = dom (nodes a) → edges b = edges a → sound ids a → sound ids b.
Proof.
  intros Hdom Hedges [Ha Hids]. split.
  - intros e He. rewrite Hedges in He. destruct (Ha e He) as [Hs Hd].
    rewrite <- !elem_of_dom, Hdom, !elem_of_dom. by split.
  - intros i Hi. rewrite <- elem_of_dom, Hdom, elem_of_dom. by apply Hids.
Qed.

Lemma sound_upsertMetadata ids md gr : sound ids gr → sound ids (upsertMetadata md gr).
Proof. by apply sound_same. Qed.

Lemma sound_finishedGraph ids state out gr :
  sound ids gr → sound ids (finishedGraph state out gr).
Proof. apply sound_same; [|done]. rewrite nodes_finishedGraph. apply dom_alter_L. Qed.

Lemma sound_addNode ids n gr : sound ids gr → sound ids (addNode n gr).
Proof.
  intros [Hcl Hids].
  assert (Hmore : ∀ i, is_Some (nodes gr !! i) → is_Some (nodes (addNode n gr) !! i)).
  { intros i Hi. cbn. destruct (decide (node_id n = i)) as [->|Hne].
    - rewrite lookup_insert_eq. by eexists.
    - by rewrite lookup_insert_ne. }
  split.
  - intros e He. destruct (Hcl e He). split; by apply Hmore.
  - intros i Hi. by apply Hmore, Hids.
Qed.

Lemma sound_connectedOrDeleted ids added (c : Node) p port gr :
  sound ids gr → is_Some (nodes gr !! node_id c) →
  node_id (denoise p) ∈ ids → node_id c ∉ ids →
  sound ids (connectedOrDeleted added c p port gr).
Proof.
  intros [Hcl Hids] Hc Hd Hnc. unfold connectedOrDeleted.
  destruct (0 <? added).
  - split; [|exact Hids]. intros e He. cbn in He.
    apply elem_of_app in He as [He|He]; [by apply Hcl|].
    apply list_elem_of_singleton in He as ->. cbn. split; [exact Hc|by apply Hids].
  - split.
    + intros e He. cbn in He. apply list_elem_of_In, filter_In in He as [He Hinc].
      apply list_elem_of_In in He. destruct (Hcl e He) as [Hs Hdst].
      unfold incident in Hinc. apply negb_true_iff, orb_false_iff in Hinc as [H1 H2].
      apply bool_decide_eq_false in H1, H2. cbn.
      rewrite !lookup_delete_ne by (by apply not_eq_sym). by split.
    + intros i Hi. cbn. rewrite lookup_delete_ne; [by apply Hids|]. by intros <-.
Qed.

Lemma sound_baseGraph state ms gd ss i :
  sound (pipelineIds E) (baseGraph (basePipelineNodes E state ms gd ss 1) (newGraph i)).
Proof.
  assert (Hin : ∀ j, j ∈ pipelineIds E →
            is_Some (nodes (baseGraph (basePipelineNodes E state ms gd ss 1)
                              (newGraph i)) !! j)).
  { intros j Hj. apply elem_of_dom. rewrite dom_baseGraph.
    by apply elem_of_list_to_set. }
  split; [|exact Hin].
  intros e He. rewrite edges_baseGraph in He. cbn [edges newGraph app] in He.
  destruct (baseEdges_ends E _ _ _ _ _ He). split; by apply Hin.
Qed.

Lemma stays_after_call {Arg A} (f : Arg → Sub A) arg n gr a gr' :
  subRespects f closedKept → f arg (addNode n gr) = Normal (a, gr') →
  is_Some (nodes gr' !! node_id n).
Proof.
  intros HR Hcall. destruct (HR _ _ _ _ Hcall) as [Hstay _].
  apply elem_of_dom, Hstay, elem_of_dom. cbn. rewrite lookup_insert_eq. by eexists.
Qed.

Lemma controlAdapters_sound ids state manager ms p w u w' :
  Respects E closedKept →
  node_id (denoise p) ∈ ids →
  (is_Some manager → prefixedId E "control_net_collector" (wdraws w) ∉ ids) →
  controlAdapters E state manager ms p w = Normal (u, w') →
  sound ids (wgraph w) → sound ids (wgraph w').
Proof.
  intros HR Hd Hc H Hs. destruct manager as [m|].
  - apply controlAdapters_Some in H.
    destruct H as (res & g1 & g2 & H1 & H2 & ->). cbn [wgraph].
    apply (sound_kept ids _ _ (rs_controlLoRA E _ HR _ _ _ _ H2)).
    apply sound_connectedOrDeleted; [| |exact Hd|].
    + apply (sound_kept ids _ _ (rs_controlNets E _ HR _ _ _ _ H1)).
      by apply sound_addNode.
    + exact (stays_after_call _ _ _ _ _ _ (rs_controlNets E _ HR) H1).
    + apply Hc. by eexists.
  - apply controlAdapters_None in H. by subst w'.
Qed.

Lemma referenceAdapters_sound ids state manager ms p w u w' :
  Respects E closedKept →
  node_id (denoise p) ∈ ids →
  prefixedId E "ip_adapter_collector" (wdraws w) ∉ ids →
  prefixedId E "ip_adapter_collector" (S (wdraws w)) ∉ ids →
  prefixedId E "ip_adapter_collector" (wdraws w)
    ≠ prefixedId E "ip_adapter_collector" (S (wdraws w)) →
  referenceAdapters E state manager ms p w = Normal (u, w') →
  sound ids (wgraph w) → sound ids (wgraph w').
Proof.
  intros HR Hd Hip Hrx Hne H Hs. apply referenceAdapters_inv in H.
  destruct H as (resI & g1 & resR & g2 & l & g3 & H1 & H2 & H3 & ->). cbn [wgraph].
  assert (Hs1 : sound ids g1).
  { apply (sound_kept ids _ _ (rs_ipAdapters E _ HR _ _ _ _ H1)).
    by apply sound_addNode. }
  pose proof (stays_after_call _ _ _ _ _ _ (rs_ipAdapters E _ HR) H1) as Hin1.
  assert (Hs2 : sound ids g2).
  { apply (sound_kept ids _ _ (rs_reduxes E _ HR _ _ _ _ H2)).
    by apply sound_addNode. }
  pose proof (stays_after_call _ _ _ _ _ _ (rs_reduxes E _ HR) H2) as Hin2.
  assert (Hin12 : is_Some (nodes g2 !! prefixedId E "ip_adapter_collector" (wdraws w))).
  { destruct (rs_reduxes E _ HR _ _ _ _ H2) as [Hstay _].
    apply elem_of_dom, Hstay, elem_of_dom. cbn.
    rewrite lookup_insert_ne by (by apply not_eq_sym). exact Hin1. }
  assert (H23 : closedKept g2 g3).
  { destruct manager as [m|].
    - destruct H3 as (rs & H3 & _). exact (rs_regions E _ HR _ _ _ _ H3).
    - destruct H3 as [-> _]. apply closedKept_refl. }
  assert (Hs3 : sound ids g3) by (by apply (sound_kept ids g2)).
  destruct H23 as [Hstay _].
  apply sound_connectedOrDeleted; [| |exact Hd|exact Hrx].
  - apply sound_connectedOrDeleted; [exact Hs3| |exact Hd|exact Hip].
    by apply elem_of_dom, Hstay, elem_of_dom.
  - assert (Hrx3 : is_Some (nodes g3 !! prefixedId E "ip_adapter_collector"
                                         (S (wdraws w)))).
    { by apply elem_of_dom, Hstay, elem_of_dom. }
    unfold connectedOrDeleted. destruct (0 <? _); [exact Hrx3|].
    cbn. by rewrite lookup_delete_ne.
Qed.

(** X11.  The returned graph has no dangling edge, and its base pipeline is
    whole: every edge starts and ends at a node of the graph and the five
    nodes of the pipeline are there, when the identifiers drawn are
    distinct and every sub-builder removes no node and leaves no dangling
    edge itself.  An unused collector goes with the edges that touch it. *)
Theorem no_dangling_edges state manager r calls :
  buildFLUXGraph E state manager = Normal (r, calls) →
  NoDup (nodeIds E manager) →
  Respects E closedKept →
  closed (g r) ∧ ∀ i, i ∈ pipelineIds E → is_Some (nodes (g r) !! i).
Proof.
  intros H Hnd HR. apply buildFLUXGraph_run in H.
  destruct H as [mode ms gd os ss p gL c out gM w2 w3 w4 mid gmid lN lW out' g5
                 _ _ _ _ Hp HL Hstep Hw2 Hctl Href HN HW -> _].
  change (sound (pipelineIds E) (finishedGraph state out' g5)).
  assert (Hd : node_id (denoise p) ∈ pipelineIds E).
  { subst p. unfold pipelineIds. cbn. in_list. }
  assert (Hdraws : wdraws w3 = referenceDraw manager).
  { subst w2. by apply controlAdapters_controlCalls in Hctl as (? & _ & _ & ?). }
  assert (Hcoll : ∀ i, i ∈ collectorIds E manager → i ∉ pipelineIds E).
  { intros i Hi Hp'. by apply (pipeline_apart E manager i Hnd). }
  assert (Hs2 : sound (pipelineIds E) (wgraph w2)).
  { subst w2 p. cbn [wgraph]. apply sound_upsertMetadata.
    apply (sound_kept _ _ _
             (ModeStep_frame E closedKept _ _ _ _ _ _ _ _ _ _ _ _ HR Hstep)).
    apply sound_upsertMetadata.
    apply (sound_kept _ _ _ (rs_loras E _ HR _ _ _ _ HL)).
    apply sound_baseGraph. }
  assert (Hs3 : sound (pipelineIds E) (wgraph w3)).
  { refine (controlAdapters_sound _ _ _ _ _ _ _ _ HR Hd _ Hctl Hs2).
    intros [m ->]. subst w2. cbn [wdraws]. apply Hcoll. cbn. in_list. }
  assert (Hne : prefixedId E "ip_adapter_collector" (wdraws w3)
                ≠ prefixedId E "ip_adapter_collector" (S (wdraws w3))).
  { rewrite Hdraws. unfold nodeIds, pipelineIds in Hnd.
    destruct manager; cbn [collectorIds referenceDraw] in *; apart Hnd; differ. }
  assert (Hs4 : sound (pipelineIds E) (wgraph w4)).
  { refine (referenceAdapters_sound _ _ _ _ _ _ _ _ HR Hd _ _ Hne Href Hs3);
      rewrite Hdraws; apply Hcoll; destruct manager; cbn; in_list. }
  apply sound_finishedGraph.
  apply (sound_kept _ (wgraph w4)); [|exact Hs4].
  exact (post_frame E closedKept _ _ _ _ _ _ _ _ _ closedKept_refl closedKept_trans
           HR HN HW).
Qed.

End Closed.

(** ** The totals of the regions *)

Section Totals.

Lemma sum_from (f : RegionResult → Z) (a : Z) (rs : list RegionResult) :
  foldl (λ acc r, acc + f r) a rs = a + foldl (λ acc r, acc + f r) 0 rs.
Proof.
  revert a. induction rs as [|r rs IH]; intros a; cbn; [lia|].
  rewrite (IH (a + f r)), (IH (0 + f r)). lia.
Qed.



Lemma sum_nonneg (f : RegionResult → Z) (rs : list RegionResult) :
  Forall (λ r, 0 ≤ f r) rs →
  0 ≤ foldl (λ acc r, acc + f r) 0 rs ∧
  (foldl (λ acc r, acc + f r) 0 rs = 0 ↔ Forall (λ r, f r = 0) rs).
Proof.
  induction 1 as [|r rs Hr _ IH]; cbn.
  - split; [lia|]. split; [constructor|reflexivity].
  - rewrite (sum_from f (0 + f r) rs). destruct IH as [Hge Hiff]. split; [lia|].
    rewrite Forall_cons, <- Hiff. lia.
Qed.

(** X13.  When no region reports a negative count, the regions' total of IP
    adapters is zero exactly when every region reports none, and likewise
    for the FLUX reduxes: a single region that wired something in keeps the
    total positive. *)
Theorem region_totals_vanish_only_together (rs : list RegionResult) :
  Forall (λ r, 0 ≤ region_addedIPAdapters r ∧ 0 ≤ region_addedFLUXReduxes r) rs →
  (0 ≤ sumIPAdapters rs ∧
   (sumIPAdapters rs = 0 ↔ Forall (λ r, region_addedIPAdapters r = 0) rs)) ∧
  (0 ≤ sumFLUXReduxes rs ∧
   (sumFLUXReduxes rs = 0 ↔ Forall (λ r, region_addedFLUXReduxes r = 0) rs)).
Proof.
  intros H. split.
  - apply (sum_nonneg region_addedIPAdapters).
    eapply Forall_impl; [exact H|]. by intros r [? _].
  - apply (sum_nonneg region_addedFLUXReduxes).
    eapply Forall_impl; [exact H|]. by intros r [_ ?].
Qed.

End Totals.

(** ** The metadata receiver *)

Section Receiver.
Context {CanvasManager Entity : Type}.
Variable E : @Env CanvasManager Entity.
Implicit Types (state : @RootState Entity) (manager : option CanvasManager).
Implicit Types (p : Pipeline) (ms : Models) (gr : Graph) (n : Node).

Lemma ModeStep_yields state manager mode ms p os ss ds gr c out gr' :
  Yields E → ModeStep E state manager mode ms p os ss ds gr c out gr' →
  is_Some (nodes gr' !! node_id out).
Proof.
  intros HY [].
  - by eapply (ys_fill E HY).
  - by eapply (ys_txt2img E HY).
  - by eapply (ys_img2img E HY).
  - by eapply (ys_inpaint E HY).
  - by eapply (ys_outpaint E HY).
Qed.

Lemma Frame_present i ids :
  i ∉ ids → Respects E (presentKept i) → Frame E (presentKept i) ids.
Proof.
  intros Hi HR. split.
  - intros gr H. exact H.
  - intros a b c Hab Hbc H. by apply Hbc, Hab.
  - exact HR.
  - intros j gr Hj H. cbn. rewrite lookup_insert_ne; [done|]. by intros ->.
  - intros src sf dst df gr H. exact H.
  - intros j gr Hj H. cbn. rewrite lookup_delete_ne; [done|]. by intros ->.
Qed.

Lemma absent_baseGraph state ms gd ss i j :
  j ∉ pipelineIds E →
  nodes (baseGraph (basePipelineNodes E state ms gd ss 1) (newGraph i)) !! j = None.
Proof.
  intros Hj. apply not_elem_of_dom. rewrite dom_baseGraph.
  by rewrite elem_of_list_to_set.
Qed.

(** X14.  The metadata receiver of the returned graph is a node of the
    graph and carries the output fields, when identifiers are distinct, no
    sub-builder removes a node or puts one under the identifier of a
    collector, and the mode-specific sub-builders and the post-processors
    return a node of the graph they leave. *)
Theorem metadata_receiver_is_in_the_graph state manager r calls :
  buildFLUXGraph E state manager = Normal (r, calls) →
  NoDup (nodeIds E manager) →
  Respects E nodesStay →
  Respects E (absentKept (collectorIds E manager)) →
  Yields E →
  ∃ i n, metadataReceiver (g r) = Some i ∧ nodes (g r) !! i = Some n ∧
         selectCanvasOutputFields state ⊆ node_fields n.
Proof.
  intros H Hnd HRs HRa HY. apply buildFLUXGraph_run in H.
  destruct H as [mode ms gd os ss p gL c out gM w2 w3 w4 mid gmid lN lW out' g5
                 _ _ _ _ Hp HL Hstep Hw2 Hctl Href HN HW -> _].
  cbn [g].
  assert (Hlast : is_Some (nodes g5 !! node_id out')).
  { destruct (shouldUseWatermarker (system state)) eqn:HfW.
    { destruct HW as [HW _]. exact (ys_watermark E HY _ _ _ _ HW). }
    pose proof HW as HW0. destruct HW as (-> & -> & _).
    destruct (shouldUseNSFWChecker (system state)) eqn:HfN.
    { destruct HN as [HN _]. exact (ys_nsfw E HY _ _ _ _ HN). }
    pose proof HN as HN0. destruct HN as (-> & -> & _).
    pose proof (ModeStep_yields _ _ _ _ _ _ _ _ _ _ _ _ HY Hstep) as Hout.
    assert (Hnc : node_id out ∉ collectorIds E manager).
    { intros Hin.
      assert (Hnone : nodes gM !! node_id out = None).
      { apply (ModeStep_frame E _ _ _ _ _ _ _ _ _ _ _ _ _ HRa Hstep _ Hin). cbn.
        apply (rs_loras E _ HRa _ _ _ _ HL _ Hin). subst p.
        apply absent_baseGraph. intros Hp'.
        by apply (pipeline_apart E manager _ Hnd Hp'). }
      rewrite Hnone in Hout. by destruct Hout. }
    assert (HRp : Respects E (presentKept (node_id out))).
    { apply (Respects_impl E nodesStay); [|exact HRs].
      intros a b Hab Hi. by apply elem_of_dom, Hab, elem_of_dom. }
    rewrite <- HfN in HN0. rewrite <- HfW in HW0.
    subst w2.
    match type of Hctl with
    | _ ?w2 = _ =>
        exact (adapters_and_post_frame E _ _ (Frame_present _ _ Hnc HRp)
                 state manager ms p w2 w3 w4 out out (wgraph w4) lN out
                 (wgraph w4) lW eq_refl (λ i Hi, Hi) Hctl Href HN0 HW0 Hout)
    end. }
  destruct Hlast as [n0 Hn0].
  exists (node_id out'), (patchNode (selectCanvasOutputFields state) n0).
  split; [reflexivity|]. split.
  - rewrite nodes_finishedGraph, lookup_alter_eq, Hn0. reflexivity.
  - cbn. apply map_union_subseteq_l.
Qed.

End Receiver.

(** ** FLUX Fill and the generation mode *)

Section Fill.
Context {CanvasManager Entity : Type}.
Variable E : @Env CanvasManager Entity.
Implicit Types (state : @RootState Entity) (manager : option CanvasManager).
Implicit Types (p : Pipeline) (ms : Models) (w : @World CanvasManager Entity).

Lemma bindM_ext {A B} (c : @M CanvasManager Entity A)
    (k k' : A → @M CanvasManager Entity B) w :
  (∀ a w', k a w' = k' a w') → (c ≫= k) w = (c ≫= k') w.
Proof.
  intros H. unfold mbind, M_bind. destruct (c w) as [[a w']|e]; [apply H|reflexivity].
Qed.

(** The blocks do not ask for the generation mode themselves. *)
Ltac same_env :=
  unfold getPrefixedId, initialMetadata, denoisingStart;
  cbn [withMode prefixedId getModelMetadataField pow addFLUXLoRAs addFLUXFill
       addTextToImage addImageToImage addInpaint addOutpaint addControlNets
       addControlLoRA addIPAdapters addFLUXReduxes addRegions addNSFWChecker
       addWatermarker getSizes t];
  reflexivity.

Lemma basePipeline_withMode a state ms gd os ss :
  basePipeline (withMode E a) state ms gd os ss = basePipeline E state ms gd os ss.
Proof. rewrite !basePipeline_unfold. same_env. Qed.

Lemma modeSubgraph_withMode a state manager mode ms p os ss ds :
  modeSubgraph (withMode E a) state manager mode ms p os ss ds
  = modeSubgraph E state manager mode ms p os ss ds.
Proof. rewrite !modeSubgraph_unfold. same_env. Qed.

Lemma controlAdapters_withMode a state manager ms p :
  controlAdapters (withMode E a) state manager ms p
  = controlAdapters E state manager ms p.
Proof. rewrite !controlAdapters_unfold. unfold connectOrDelete. same_env. Qed.

Lemma referenceAdapters_withMode a state manager ms p :
  referenceAdapters (withMode E a) state manager ms p
  = referenceAdapters E state manager ms p.
Proof. rewrite !referenceAdapters_unfold. unfold connectOrDelete. same_env. Qed.

Lemma postProcessing_withMode a state out :
  postProcessing (withMode E a) state out = postProcessing E state out.
Proof. rewrite !postProcessing_unfold. same_env. Qed.

Lemma assemble_withMode a state manager mode ms gd w :
  assemble (withMode E a) state manager mode ms gd w
  = assemble E state manager mode ms gd w.
Proof.
  rewrite !assemble_unfold.
  change (getSizes (withMode E a)) with (getSizes E).
  destruct (getSizes E _) as [os ss].
  change (denoisingStart (withMode E a)) with (denoisingStart E).
  rewrite basePipeline_withMode. apply bindM_ext. intros p w1.
  rewrite modeSubgraph_withMode. apply bindM_ext. intros out w2.
  rewrite controlAdapters_withMode. apply bindM_ext. intros u w3.
  rewrite referenceAdapters_withMode. apply bindM_ext. intros u' w4.
  rewrite postProcessing_withMode. reflexivity.
Qed.

Lemma assemble_fill state manager a b ms gd w :
  isFLUXFill (model ms) = true →
  assemble E state manager a ms gd w = assemble E state manager b ms gd w.
Proof.
  intros H. rewrite !assemble_unfold.
  destruct (getSizes E _) as [os ss].
  apply bindM_ext. intros p w1.
  assert (Hmode : ∀ x y ds,
            modeSubgraph E state manager x ms p os ss ds
            = modeSubgraph E state manager y ms p os ss ds).
  { intros x y ds. unfold modeSubgraph. rewrite H. reflexivity. }
  rewrite (Hmode a b). reflexivity.
Qed.

(** X15.  With the FLUX Fill model the generation mode makes no difference
    between inpaint and outpaint: the two builds are the same, in the
    graph, in the field identifiers, in the calls made, and in the error
    when they throw. *)
Theorem fill_builds_alike state manager m :
  selectMainModelConfig state = Some m → isFLUXFill m = true →
  buildFLUXGraph (withMode E inpaint) state manager
  = buildFLUXGraph (withMode E outpaint) state manager.
Proof.
  intros Hm Hfill.
  destruct (requireModels state) as [ms|e] eqn:Hms.
  - pose proof (requireModels_model _ _ Hms) as Hm'. rewrite Hm in Hm'.
    injection Hm' as ->.
    rewrite (buildFLUXGraph_assemble (withMode E inpaint) state manager inpaint ms
               30%float eq_refl Hms);
      [|unfold fillGuidance; by rewrite Hfill].
    rewrite (buildFLUXGraph_assemble (withMode E outpaint) state manager outpaint ms
               30%float eq_refl Hms);
      [|unfold fillGuidance; by rewrite Hfill].
    change (initialWorld (withMode E inpaint)) with (initialWorld E).
    change (initialWorld (withMode E outpaint)) with (initialWorld E).
    rewrite !assemble_withMode.
    by rewrite (assemble_fill state manager inpaint outpaint ms 30%float _ Hfill).
  - rewrite (buildFLUXGraph_throws_assertion (withMode E inpaint) state manager
               inpaint e eq_refl Hms).
    by rewrite (buildFLUXGraph_throws_assertion (withMode E outpaint) state manager
                  outpaint e eq_refl Hms).
Qed.

End Fill.

(** ** The builder at work, again *)

Section MoreDemoFrames.
Variable mode : GenerationMode.

Lemma Demo_nodesWithin :
  Respects (Demo.env mode) (nodesWithin (list_to_set Demo.ownIds)).
Proof.
  assert (Hadd : ∀ i n gr, i ∈ Demo.ownIds →
            dom (<[i := n]> (nodes gr)) ⊆ dom (nodes gr) ∪ list_to_set Demo.ownIds).
  { intros i n gr Hi j Hj. rewrite dom_insert in Hj. apply elem_of_union.
    apply elem_of_union in Hj as [Hj|Hj]; [|by left].
    apply elem_of_singleton in Hj as ->. right. by apply elem_of_list_to_set. }
  apply Demo_respects.
  - intros gr i Hi. apply elem_of_union. by left.
  - intros i ty gr Hi. by apply Hadd.
  - intros i ty input gr Hi. by apply Hadd.
Qed.

Lemma Demo_nodeKept i : i ∉ Demo.ownIds → Respects (Demo.env mode) (nodeKept i).
Proof.
  intros Hi. apply Demo_respects.
  - reflexivity.
  - intros j ty gr Hj. unfold nodeKept. cbn.
    rewrite lookup_insert_ne; [done|]. by intros ->.
  - intros j ty input gr Hj. unfold nodeKept. cbn.
    rewrite lookup_insert_ne; [done|]. by intros ->.
Qed.

Lemma Demo_edgeKept e : Respects (Demo.env mode) (edgeKept e).
Proof.
  apply Demo_respects.
  - intros gr He. exact He.
  - intros j ty gr Hj He. exact He.
  - intros j ty input gr Hj He. cbn. apply elem_of_app. by left.
Qed.

Lemma Tidy_completes : Completes (Demo.tidyEnv mode).
Proof.
  split; intros arg gr; cbn; unfold Demo.linked, Demo.adds, Demo.chains;
    try destruct (decide _); eauto.
Qed.

Lemma Tidy_respects (R : Graph → Graph → Prop) :
  (∀ gr, R gr gr) →
  (∀ i ty gr, i ∈ Demo.tidyIds → R gr (addNode (Demo.node i ty) gr)) →
  (∀ i ty input gr, i ∈ Demo.tidyIds → is_Some (nodes gr !! node_id input) →
     R gr (addEdge input "image" (Demo.node i ty) "image"
             (addNode (Demo.node i ty) gr))) →
  Respects (Demo.tidyEnv mode) R.
Proof.
  intros Hrefl Hadd Hchain.
  split; intros arg gr a gr' Heq; cbn in Heq;
    unfold Demo.linked, Demo.adds, Demo.chains in Heq;
    try destruct (decide _) as [Hin|Hin]; injection Heq as <- <-;
    first [apply Hrefl | apply Hadd | apply Hchain; [|exact Hin]];
    unfold Demo.tidyIds, Demo.ownIds; in_list.
Qed.

Lemma closedKept_addNode n gr : closedKept gr (addNode n gr).
Proof.
  assert (Hmore : ∀ i, is_Some (nodes gr !! i) → is_Some (nodes (addNode n gr) !! i)).
  { intros i Hi. cbn. destruct (decide (node_id n = i)) as [->|Hne].
    - rewrite lookup_insert_eq. by eexists.
    - by rewrite lookup_insert_ne. }
  split.
  - intros i Hi. apply elem_of_dom, Hmore, elem_of_dom, Hi.
  - intros Hcl e He. destruct (Hcl e He). split; by apply Hmore.
Qed.

Lemma Tidy_closedKept : Respects (Demo.tidyEnv mode) closedKept.
Proof.
  apply Tidy_respects.
  - intros gr. split; [by intros i|done].
  - intros i ty gr _. apply closedKept_addNode.
  - intros i ty input gr _ Hin.
    destruct (closedKept_addNode (Demo.node i ty) gr) as [Hstay Hcl].
    split; [exact Hstay|]. intros Hgr e He. cbn in He.
    apply elem_of_app in He as [He|He]; [by apply (Hcl Hgr)|].
    apply list_elem_of_singleton in He as ->. cbn. split.
    + destruct (decide (i = node_id input)) as [->|Hne].
      * rewrite lookup_insert_eq. by eexists.
      * by rewrite lookup_insert_ne.
    + rewrite lookup_insert_eq. by eexists.
Qed.

Lemma Tidy_nodesStay : Respects (Demo.tidyEnv mode) nodesStay.
Proof.
  apply (Respects_impl _ closedKept); [|apply Tidy_closedKept]. by intros a b [? _].
Qed.

Lemma Tidy_absentKept ids :
  (∀ i, i ∈ ids → i ∉ Demo.tidyIds) → Respects (Demo.tidyEnv mode) (absentKept ids).
Proof.
  intros Hids. apply Tidy_respects.
  - intros gr i _ Hi. exact Hi.
  - intros j ty gr Hj i Hi Hnone. cbn.
    rewrite lookup_insert_ne; [done|]. intros ->. by apply (Hids i).
  - intros j ty input gr Hj _ i Hi Hnone. cbn.
    rewrite lookup_insert_ne; [done|]. intros ->. by apply (Hids i).
Qed.

Lemma Tidy_yields : Yields (Demo.tidyEnv mode).
Proof.
  split; intros arg gr out gr' Heq; cbn in Heq;
    unfold Demo.linked, Demo.adds, Demo.chains in Heq;
    try destruct (decide _); injection Heq as <- <-; cbn;
    rewrite lookup_insert_eq; by eexists.
Qed.

Lemma Tidy_nodeIds_distinct (manager : option unit) :
  NoDup (nodeIds (Demo.tidyEnv mode) manager).
Proof. destruct manager as [[]|]; evaluate. Defined.

Lemma Tidy_collectors_apart (manager : option unit) i :
  i ∈ collectorIds (Demo.tidyEnv mode) manager → i ∉ Demo.tidyIds.
Proof. revert i. apply Forall_forall. destruct manager as [[]|]; evaluate. Defined.

End MoreDemoFrames.

Lemma tidyRun_returns :
  Demo.tidyRun = Normal (Demo.returned Demo.tidyRun, Demo.called Demo.tidyRun).
Proof. apply returns_spec. vm_compute. reflexivity. Defined.

Lemma sub_builders_run_in_order_witness :
  builderName <$> Demo.called Demo.txt2imgRun =
    [ "addFLUXLoRAs"; "addTextToImage"; "addControlNets"; "addControlLoRA";
      "addIPAdapters"; "addFLUXReduxes"; "addRegions"; "addNSFWChecker" ].
Proof.
  exact (sub_builders_run_in_order (Demo.env txt2img)
           (Demo.state "normal" true false [] [tt]) (Some tt) _ _
           (Demo.mainModel "normal") txt2img txt2imgRun_returns eq_refl eq_refl).
Defined.


Lemma regions_share_the_collectors_witness :
  ∃ a res, CAddIPAdapters a res ∈ Demo.called Demo.txt2imgRun ∧
           ad_collector a = collectNode "ip_adapter_collector:7".
Proof.
  destruct (regions_share_the_collectors (Demo.env txt2img)
              (Demo.state "normal" true false [] [tt]) (Some tt) _ _
              (regionsArg (Demo.state "normal" true false [] [tt]) tt
                 (Demo.models "normal")
                 (basePipelineNodes (Demo.env txt2img)
                    (Demo.state "normal" true false [] [tt]) (Demo.models "normal")
                    4%float {| width := 1024; height := 1024 |} 1)
                 (collectNode "ip_adapter_collector:7")
                 (collectNode "ip_adapter_collector:8"))
              [] txt2imgRun_returns ltac:(vm_compute; in_list))
    as ((a & res & Ha & Hcollector) & _).
  exists a, res. split; [exact Ha|exact Hcollector].
Defined.

Lemma build_returns_exactly_when_witness :
  ∃ r calls,
    buildFLUXGraph (Demo.env txt2img) (Demo.state "normal" false false [] []) None
    = Normal (r, calls).
Proof.
  apply (proj2 (build_returns_exactly_when (Demo.env txt2img)
                  (Demo.state "normal" false false [] []) None txt2img
                  (Demo_completes txt2img) eq_refl)).
  exists (Demo.mainModel "normal").
  split; [reflexivity|]. split; [reflexivity|].
  do 3 (split; [eexists; reflexivity|]).
  split; [discriminate|]. intros _. split; reflexivity.
Defined.

Lemma checks_fail_in_source_order_witness :
  buildFLUXGraph (Demo.env txt2img) Demo.stateWithoutT5 None
  = Throw (AssertionError "No T5 Encoder model found in state").
Proof.
  exact (proj1 (proj2 (proj2 (checks_fail_in_source_order (Demo.env txt2img)
                                Demo.stateWithoutT5 None txt2img eq_refl)
                             (Demo.mainModel "normal") eq_refl) eq_refl) eq_refl).
Defined.

Lemma failed_LoRAs_abort_the_build_witness :
  buildFLUXGraph (Demo.brokenEnv img2img) (Demo.state "normal" false false [] []) None
  = Throw (OtherError "LoRA model not found").
Proof.
  exact (failed_LoRAs_abort_the_build (Demo.brokenEnv img2img)
           (Demo.state "normal" false false [] []) None img2img (Demo.models "normal")
           4%float (OtherError "LoRA model not found") eq_refl eq_refl eq_refl eq_refl).
Defined.

Lemma nodes_are_the_builders_or_a_sub_builders_witness :
  dom (nodes (g (Demo.returned Demo.txt2imgRun)))
  ⊆ list_to_set (nodeIds (Demo.env txt2img) (Some tt)) ∪ list_to_set Demo.ownIds.
Proof.
  exact (nodes_are_the_builders_or_a_sub_builders (Demo.env txt2img)
           (Demo.state "normal" true false [] [tt]) (Some tt) _ _
           (list_to_set Demo.ownIds) txt2imgRun_returns (Demo_nodesWithin txt2img)).
Defined.

Lemma pipeline_nodes_stay_witness :
  nodes (g (Demo.returned Demo.txt2imgRun)) !! "flux_denoise:4"
  = Some (fluxDenoiseNode "flux_denoise:4" 4%float (Demo.parameters false)
            {| width := 1024; height := 1024 |}).
Proof.
  pose proof (pipeline_nodes_stay (Demo.env txt2img)
                (Demo.state "normal" true false [] [tt]) (Some tt) _ _
                txt2img (Demo.models "normal") 4%float
                (fluxDenoiseNode "flux_denoise:4" 4%float (Demo.parameters false)
                   {| width := 1024; height := 1024 |})
                txt2imgRun_returns eq_refl eq_refl eq_refl
                (Demo_nodeIds_distinct txt2img (Some tt))
                ltac:(unfold pipelineNodes; in_list)
                (Demo_nodeKept txt2img "flux_denoise:4" ltac:(evaluate))) as Hnode.
  rewrite bool_decide_eq_false_2 in Hnode; [exact Hnode|].
  vm_compute. discriminate.
Defined.

Lemma field_identifiers_locate_seed_and_prompt_witness :
  nodeField (nodeId (seedFieldIdentifier (Demo.returned Demo.txt2imgRun)))
    (fieldName (seedFieldIdentifier (Demo.returned Demo.txt2imgRun)))
    (g (Demo.returned Demo.txt2imgRun)) = Some (VInt 42) ∧
  nodeField (nodeId (positivePromptFieldIdentifier (Demo.returned Demo.txt2imgRun)))
    (fieldName (positivePromptFieldIdentifier (Demo.returned Demo.txt2imgRun)))
    (g (Demo.returned Demo.txt2imgRun)) = Some (VStr "a lighthouse").
Proof.
  destruct (field_identifiers_locate_seed_and_prompt (Demo.env txt2img)
              (Demo.state "normal" true false [] [tt]) (Some tt) _ _
              txt2imgRun_returns (Demo_nodeIds_distinct txt2img (Some tt)))
    as (_ & _ & Hseed & Hprompt).
  split.
  - exact (Hseed (Demo_fieldUntouched txt2img
                    (nodeId (seedFieldIdentifier (Demo.returned Demo.txt2imgRun)))
                    "seed" ltac:(evaluate)) eq_refl).
  - exact (Hprompt (Demo_fieldUntouched txt2img
                      (nodeId (positivePromptFieldIdentifier
                                 (Demo.returned Demo.txt2imgRun)))
                      "prompt" ltac:(evaluate)) eq_refl).
Defined.

Lemma pipeline_edges_stay_witness :
  mkEdge (fluxDenoiseNode "flux_denoise:4" 4%float (Demo.parameters false)
            {| width := 1024; height := 1024 |})
    "latents" (fluxVaeDecodeNode "flux_vae_decode:5") "latents"
  ∈ edges (g (Demo.returned Demo.txt2imgRun)).
Proof.
  exact (pipeline_edges_stay (Demo.env txt2img)
           (Demo.state "normal" true false [] [tt]) (Some tt) _ _
           txt2img (Demo.models "normal") 4%float
           (mkEdge (fluxDenoiseNode "flux_denoise:4" 4%float (Demo.parameters false)
                      {| width := 1024; height := 1024 |})
              "latents" (fluxVaeDecodeNode "flux_vae_decode:5") "latents")
           txt2imgRun_returns eq_refl eq_refl eq_refl
           (Demo_nodeIds_distinct txt2img (Some tt))
           ltac:(unfold baseEdges; in_list)
           (Demo_edgeKept txt2img _)).
Defined.

Lemma no_dangling_edges_witness :
  closed (g (Demo.returned Demo.tidyRun)) ∧
  is_Some (nodes (g (Demo.returned Demo.tidyRun)) !! "flux_denoise:4").
Proof.
  destruct (no_dangling_edges (Demo.tidyEnv txt2img)
              (Demo.state "normal" true true [tt] [tt]) (Some tt) _ _
              tidyRun_returns (Tidy_nodeIds_distinct txt2img (Some tt))
              (Tidy_closedKept txt2img)) as [Hclosed Hwhole].
  split; [exact Hclosed|]. apply Hwhole. unfold pipelineIds. in_list.
Defined.


Lemma region_totals_vanish_only_together_witness :
  0 ≤ sumFLUXReduxes [Demo.regionA; Demo.regionB].
Proof.
  refine (proj1 (proj2 (region_totals_vanish_only_together
                          [Demo.regionA; Demo.regionB] _))).
  repeat constructor; cbn; lia.
Defined.

Lemma metadata_receiver_is_in_the_graph_witness :
  ∃ i n, metadataReceiver (g (Demo.returned Demo.tidyRun)) = Some i ∧
         nodes (g (Demo.returned Demo.tidyRun)) !! i = Some n ∧
         selectCanvasOutputFields (Demo.state "normal" true true [tt] [tt])
           ⊆ node_fields n.
Proof.
  exact (metadata_receiver_is_in_the_graph (Demo.tidyEnv txt2img)
           (Demo.state "normal" true true [tt] [tt]) (Some tt) _ _
           tidyRun_returns (Tidy_nodeIds_distinct txt2img (Some tt))
           (Tidy_nodesStay txt2img)
           (Tidy_absentKept txt2img _ (Tidy_collectors_apart txt2img (Some tt)))
           (Tidy_yields txt2img)).
Defined.

Lemma fill_builds_alike_witness :
  buildFLUXGraph (withMode (Demo.env inpaint) inpaint)
    (Demo.state "inpaint" false false [] []) (Some tt)
  = buildFLUXGraph (withMode (Demo.env inpaint) outpaint)
      (Demo.state "inpaint" false false [] []) (Some tt).
Proof.
  exact (fill_builds_alike (Demo.env inpaint) (Demo.state "inpaint" false false [] [])
           (Some tt) (Demo.mainModel "inpaint") eq_refl eq_refl).
Defined.
